(** * classroom-backend: the catalog query layer

    A shallow embedding of the Express route handlers of
    [src/routes/subjects.ts], [src/routes/departments.ts],
    [src/routes/classes.ts] and of the users router that follows it in the
    sources, together with the parts of their collaborators (JavaScript
    coercions, the drizzle query builder, the relational engine) that the
    handlers' behaviour depends on.

    Layout:
    - [JS]      : numbers and the coercions [Number], unary [+], [parseInt],
                  [Math.max], [Math.min], [Math.ceil];
    - [Like]    : LIKE / ILIKE pattern matching and the escaping idiom;
    - [Sql]     : query plans as built by the drizzle calls, and a reference
                  relational semantics for them;
    - [Http]    : requests, responses and the handler monad (issued
                  statements, log lines, thrown exceptions, try/catch);
    - [SubjectsRoutes], [DepartmentsRoutes], [ClassesRoutes], [UsersRoutes]:
                  the handlers, one definition per route;
    - [Sample]  : small catalogs to run the handlers on;
    - [Run], [Listing] : vocabulary for stating properties of a run;
    - the properties. *)

From Stdlib Require Import ZArith QArith Qround Bool List Ascii String Lia.
From Stdlib Require Import Sorting.Sorted.
From Stdlib Require DecimalString.
Import ListNotations.

Local Open Scope string_scope.
Local Open Scope Z_scope.
Local Open Scope list_scope.

(* ------------------------------------------------------------------ *)
(** ** JavaScript numbers and coercions *)

Module JS.

(** A JavaScript number.  Finite values are exact rationals kept in lowest
    terms; magnitudes a double cannot hold overflow to an infinity as in
    IEEE 754.  Rounding to a 53-bit mantissa and the sign of zero are not
    modelled: the model is exact on integers up to 2^53 in magnitude, which
    is where every page, limit, offset, count and id of the handlers lives. *)
Inductive number : Type :=
| NaN
| PInf
| NInf
| Fin (q : Q).

(** Values from this magnitude on round to an infinity. *)
Definition overflow_bound : Q := inject_Z (2 ^ 1024 - 2 ^ 970).

Definition norm (q : Q) : number :=
  if Qle_bool overflow_bound q then PInf
  else if Qle_bool q (- overflow_bound) then NInf
  else Fin (Qred q).

Definition of_Z (z : Z) : number := norm (inject_Z z).

Definition eqb (a b : number) : bool :=
  match a, b with
  | Fin x, Fin y => Qeq_bool x y
  | PInf, PInf | NInf, NInf => true
  | _, _ => false
  end.

(** [a <= b] on numbers; false as soon as one side is NaN. *)
Definition leb (a b : number) : bool :=
  match a, b with
  | NaN, _ | _, NaN => false
  | NInf, _ => true
  | _, PInf => true
  | Fin x, Fin y => Qle_bool x y
  | _, _ => false
  end.

(** [Math.max(a, b)]: NaN as soon as one argument is NaN. *)
Definition max (a b : number) : number :=
  match a, b with
  | NaN, _ | _, NaN => NaN
  | _, _ => if leb a b then b else a
  end.

(** [Math.min(a, b)]. *)
Definition min (a b : number) : number :=
  match a, b with
  | NaN, _ | _, NaN => NaN
  | _, _ => if leb a b then a else b
  end.

Definition is_zero (a : number) : bool :=
  match a with Fin q => Qeq_bool q 0 | _ => false end.

Definition is_neg (a : number) : bool :=
  match a with
  | NInf => true
  | Fin q => negb (Qle_bool 0 q)
  | _ => false
  end.

(** [a - b]. *)
Definition sub (a b : number) : number :=
  match a, b with
  | NaN, _ | _, NaN => NaN
  | PInf, PInf | NInf, NInf => NaN
  | PInf, _ | _, NInf => PInf
  | NInf, _ | _, PInf => NInf
  | Fin x, Fin y => norm (x - y)
  end.

Definition signed_inf (negative : bool) : number :=
  if negative then NInf else PInf.

(** [a * b]. *)
Definition mul (a b : number) : number :=
  match a, b with
  | NaN, _ | _, NaN => NaN
  | Fin x, Fin y => norm (x * y)
  | _, _ =>
      if is_zero a || is_zero b then NaN
      else signed_inf (xorb (is_neg a) (is_neg b))
  end.

(** [a / b]. *)
Definition div (a b : number) : number :=
  match a, b with
  | NaN, _ | _, NaN => NaN
  | Fin x, Fin y =>
      if Qeq_bool y 0
      then (if Qeq_bool x 0 then NaN else signed_inf (is_neg a))
      else norm (x / y)
  | Fin _, _ => Fin 0
  | _, Fin _ => signed_inf (xorb (is_neg a) (is_neg b))
  | _, _ => NaN
  end.

(** [Math.ceil(a)]. *)
Definition ceil (a : number) : number :=
  match a with
  | Fin q => of_Z (Qceiling q)
  | _ => a
  end.

(** [Number.isFinite(a)]. *)
Definition isFinite (a : number) : bool :=
  match a with Fin _ => true | _ => false end.

(** Truthiness of a number: [0] and [NaN] are falsy. *)
Definition truthy (a : number) : bool :=
  match a with
  | NaN => false
  | Fin q => negb (Qeq_bool q 0)
  | _ => true
  end.

(** [a || b] on numbers. *)
Definition or_else (a b : number) : number := if truthy a then a else b.

(** *** Strings to numbers *)

Definition is_digit (c : ascii) : bool :=
  let n := nat_of_ascii c in (48 <=? n)%nat && (n <=? 57)%nat.

Definition digit_val (c : ascii) : Z := Z.of_nat (nat_of_ascii c) - 48.

(** The white space and line terminators of the ASCII range. *)
Definition is_space (c : ascii) : bool :=
  let n := nat_of_ascii c in
  ((9 <=? n)%nat && (n <=? 13)%nat) || (n =? 32)%nat.

Fixpoint skip_space (s : list ascii) : list ascii :=
  match s with
  | c :: r => if is_space c then skip_space r else s
  | [] => []
  end.

Definition trim (s : list ascii) : list ascii :=
  rev (skip_space (rev (skip_space s))).

(** Splits off the longest prefix of decimal digits. *)
Fixpoint span_digits (s : list ascii) : list ascii * list ascii :=
  match s with
  | c :: r =>
      if is_digit c
      then let (d, rest) := span_digits r in (c :: d, rest)
      else ([], s)
  | [] => ([], [])
  end.

Definition digits_val (d : list ascii) : Z :=
  fold_left (fun acc c => 10 * acc + digit_val c) d 0.

(** Reads an optional sign; the flag is true for [-]. *)
Definition read_sign (s : list ascii) : bool * list ascii :=
  match s with
  | "-"%char :: r => (true, r)
  | "+"%char :: r => (false, r)
  | _ => (false, s)
  end.

Definition apply_sign (negative : bool) (z : Z) : Z :=
  if negative then - z else z.

(** [parseInt(s, 10)]: leading white space is skipped, an optional sign is
    read, then the longest run of decimal digits; what follows is ignored.
    No digit at all gives NaN. *)
Definition parseInt10 (s : string) : number :=
  let (negative, r) := read_sign (skip_space (list_ascii_of_string s)) in
  match fst (span_digits r) with
  | [] => NaN
  | d => of_Z (apply_sign negative (digits_val d))
  end.

Definition hex_val (c : ascii) : option Z :=
  let n := nat_of_ascii c in
  if is_digit c then Some (digit_val c)
  else if (97 <=? n)%nat && (n <=? 102)%nat then Some (Z.of_nat n - 87)
  else if (65 <=? n)%nat && (n <=? 70)%nat then Some (Z.of_nat n - 55)
  else None.

(** Digits of a non-decimal literal in the given radix (2, 8 or 16). *)
Fixpoint radix_val (radix : Z) (s : list ascii) (acc : Z) : option Z :=
  match s with
  | [] => Some acc
  | c :: r =>
      match hex_val c with
      | Some v => if v <? radix then radix_val radix r (radix * acc + v) else None
      | None => None
      end
  end.

Definition pow10 (e : Z) : Q :=
  if 0 <=? e then inject_Z (10 ^ e) else / inject_Z (10 ^ (- e)).

(** The exponent part [e[+-]ddd] of a decimal literal, or nothing. *)
Definition read_exponent (s : list ascii) : option Z :=
  match s with
  | [] => Some 0
  | c :: r =>
      if (Ascii.eqb c "e" || Ascii.eqb c "E")%bool then
        let (negative, r') := read_sign r in
        match span_digits r' with
        | ((_ :: _) as d, []) => Some (apply_sign negative (digits_val d))
        | _ => None
        end
      else None
  end.

(** An unsigned decimal literal: [ddd], [ddd.], [ddd.ddd], [.ddd], each with
    an optional exponent. *)
Definition read_decimal (s : list ascii) : option Q :=
  let (ip, r) := span_digits s in
  let (fp, r') :=
    match r with
    | "."%char :: r1 => span_digits r1
    | _ => ([], r)
    end in
  match ip, fp with
  | [], [] => None
  | _, _ =>
      match read_exponent r' with
      | Some e =>
          let mant := digits_val (ip ++ fp) in
          Some (inject_Z mant * pow10 (e - Z.of_nat (List.length fp)))%Q
      | None => None
      end
  end.

Definition infinity_lit : list ascii := list_ascii_of_string "Infinity".

Definition list_ascii_eqb (a b : list ascii) : bool :=
  String.eqb (string_of_list_ascii a) (string_of_list_ascii b).

(** [Number(s)] and unary [+s] on a string: white space is trimmed, the empty
    string is 0, and the rest has to be a numeric literal as a whole. *)
Definition toNumber (s : string) : number :=
  match trim (list_ascii_of_string s) with
  | [] => Fin 0
  | "0"%char :: x :: r =>
      let radix :=
        if (Ascii.eqb x "x" || Ascii.eqb x "X")%bool then Some 16
        else if (Ascii.eqb x "o" || Ascii.eqb x "O")%bool then Some 8
        else if (Ascii.eqb x "b" || Ascii.eqb x "B")%bool then Some 2
        else None in
      match radix with
      | Some rd =>
          match r with
          | [] => NaN
          | _ => match radix_val rd r 0 with Some v => of_Z v | None => NaN end
          end
      | None =>
          match read_decimal ("0"%char :: x :: r) with
          | Some q => norm q
          | None => NaN
          end
      end
  | t =>
      let (negative, r) := read_sign t in
      if list_ascii_eqb r infinity_lit then signed_inf negative
      else match read_decimal r with
           | Some q => norm (if negative then - q else q)
           | None => NaN
           end
  end.

(** [String(z)] for an integer literal. *)
Definition string_of_Z (z : Z) : string :=
  DecimalString.NilZero.string_of_int (Z.to_int z).

End JS.


(* ------------------------------------------------------------------ *)
(** ** Values and objects *)

(** What a handler can catch: an error raised by the storage engine, or the
    [Error] constructor that [throw Error] throws. *)
Inductive Exn : Type :=
| StorageError (msg : string)
| ErrorConstructor.

#[local] Set Warnings "-register-all".

(** JavaScript values as they travel between the request, the query builder,
    the storage driver and the response. *)
Inductive Value : Type :=
| VNull
| VBool (b : bool)
| VNum (n : JS.number)
| VStr (s : string)
| VDate (t : Z)
| VArr (items : list Value)
| VObj (fields : list (string * Value))
| VExn (e : Exn).

(** An object is the list of its property writes, oldest first: a later write
    of a key wins (the semantics of object spread and of object literals),
    so [o ++ o'] is [{...o, ...o'}]. *)
Definition Obj : Type := list (string * Value).

Fixpoint obj_get (k : string) (o : Obj) : option Value :=
  match o with
  | [] => None
  | (k', v) :: r =>
      match obj_get k r with
      | Some x => Some x
      | None => if String.eqb k' k then Some v else None
      end
  end.

(** Reading a property, [undefined] and [null] both showing as [VNull]. *)
Definition prop (k : string) (o : Obj) : Value :=
  match obj_get k o with Some v => v | None => VNull end.

(** An integer as a value. *)
Definition int (z : Z) : Value := VNum (JS.Fin (inject_Z z)).

(* ------------------------------------------------------------------ *)
(** ** LIKE patterns *)

Module Like.

Definition lower (c : ascii) : ascii :=
  let n := nat_of_ascii c in
  if ((65 <=? n)%nat && (n <=? 90)%nat)%bool then ascii_of_nat (n + 32) else c.

(** [like p t]: the text [t] matches the pattern [p].  [%] stands for any
    run of characters, [_] for any one character, and a backslash makes the
    character after it literal.  A pattern that stops after a backslash
    matches nothing (the engine rejects it; no handler builds one, since
    every pattern of the handlers ends in [%]). *)
Fixpoint like (p : list ascii) : list ascii -> bool :=
  match p with
  | [] => fun t => match t with [] => true | _ => false end
  | c :: p' =>
      if Ascii.eqb c "%" then
        fix star (t : list ascii) : bool :=
          (like p' t || match t with [] => false | _ :: t' => star t' end)%bool
      else if Ascii.eqb c "_" then
        fun t => match t with [] => false | _ :: t' => like p' t' end
      else if Ascii.eqb c "\" then
        match p' with
        | [] => fun _ => false
        | e :: p'' =>
            fun t => match t with
                     | [] => false
                     | x :: t' => (Ascii.eqb x e && like p'' t')%bool
                     end
        end
      else
        fun t => match t with
                 | [] => false
                 | x :: t' => (Ascii.eqb x c && like p' t')%bool
                 end
  end.

(** [text ILIKE pattern]: LIKE on the lower-cased text and pattern. *)
Definition ilike (text pattern : string) : bool :=
  like (map lower (list_ascii_of_string pattern))
       (map lower (list_ascii_of_string text)).

(** [s.replace(/[%_]/g, "\\$&")]: a backslash in front of every [%] and [_]. *)
Fixpoint escape_chars (s : list ascii) : list ascii :=
  match s with
  | [] => []
  | c :: r =>
      if (Ascii.eqb c "%" || Ascii.eqb c "_")%bool
      then "\"%char :: c :: escape_chars r
      else c :: escape_chars r
  end.

Definition escape (s : string) : string :=
  string_of_list_ascii (escape_chars (list_ascii_of_string s)).

(** The text has no backslash. *)
Definition no_backslash (s : list ascii) : bool :=
  forallb (fun c => negb (Ascii.eqb c "\")) s.

(** The template literal [`%${s}%`]. *)
Definition wrap (s : string) : string := ("%" ++ s ++ "%")%string.

End Like.


(* ------------------------------------------------------------------ *)
(** ** Query plans and the relational engine *)

Module Sql.

(** The tables of [db/schema]. *)
Inductive Table : Type := departments | subjects | classes | enrollments | user.

Definition table_eqb (a b : Table) : bool :=
  match a, b with
  | departments, departments | subjects, subjects | classes, classes
  | enrollments, enrollments | user, user => true
  | _, _ => false
  end.

(** A column reference such as [subjects.departmentId]. *)
Definition Column : Type := (Table * string)%type.

(** Conditions, as built by [eq], [ilike], [or] and [and]. *)
Inductive Cond : Type :=
| Eq (a b : Column)
| EqParam (a : Column) (v : Value)
| ILike (a : Column) (pattern : string)
| Or (c1 c2 : Cond)
| And (cs : list Cond).

(** The entries of a selection object. *)
Inductive Item : Type :=
| Spread (t : Table)                       (* ...getTableColumns(t) *)
| Nested (name : string) (t : Table)       (* name: { ...getTableColumns(t) } *)
| Field (name : string) (c : Column)       (* name: t.c *)
| CountStar (name : string)                (* name: sql count of all rows *)
| CountOf (name : string) (c : Column)     (* name: sql count of t.c *)
| CountDistinct (name : string) (c : Column). (* name: sql count of distinct t.c *)

(** A select query as the builder chain leaves it.  [fields = None] is
    [db.select()] without a selection; every [orderBy] entry is wrapped in
    [desc(...)], the only ordering the handlers use. *)
Record Select : Type := mkSelect {
  fields : option (list Item);
  from : Table;
  joins : list (Table * Cond);
  whereCond : option Cond;
  groupBy : list Column;
  orderBy : list Column;
  limit : option JS.number;
  offset : option JS.number
}.

(** [db.insert(t).values(v).returning(r)]. *)
Record Insert : Type := mkInsert {
  into : Table;
  values : Obj;
  returning : list (string * Column)
}.

Inductive Stmt : Type :=
| SelectStmt (q : Select)
| InsertStmt (i : Insert).

(** *** The builder chain *)

Definition select (fs : list Item) (t : Table) : Select :=
  mkSelect (Some fs) t [] None [] [] None None.

Definition select_all (t : Table) : Select :=
  mkSelect None t [] None [] [] None None.

Definition leftJoin (t : Table) (on : Cond) (q : Select) : Select :=
  mkSelect (fields q) (from q) (joins q ++ [(t, on)]) (whereCond q)
           (groupBy q) (orderBy q) (limit q) (offset q).

(** [.where(c)]; [.where(undefined)] leaves the query unfiltered. *)
Definition where_ (c : option Cond) (q : Select) : Select :=
  mkSelect (fields q) (from q) (joins q) c
           (groupBy q) (orderBy q) (limit q) (offset q).

Definition groupBy_ (cols : list Column) (q : Select) : Select :=
  mkSelect (fields q) (from q) (joins q) (whereCond q)
           cols (orderBy q) (limit q) (offset q).

Definition orderByDesc (c : Column) (q : Select) : Select :=
  mkSelect (fields q) (from q) (joins q) (whereCond q)
           (groupBy q) [c] (limit q) (offset q).

Definition limit_ (n : JS.number) (q : Select) : Select :=
  mkSelect (fields q) (from q) (joins q) (whereCond q)
           (groupBy q) (orderBy q) (Some n) (offset q).

Definition offset_ (n : JS.number) (q : Select) : Select :=
  mkSelect (fields q) (from q) (joins q) (whereCond q)
           (groupBy q) (orderBy q) (limit q) (Some n).

(** The same query with its [limit] and [offset] taken off. *)
Definition unbounded (q : Select) : Select :=
  mkSelect (fields q) (from q) (joins q) (whereCond q)
           (groupBy q) (orderBy q) None None.

Notation "q |> f" := (f q) (at level 50, left associativity, only parsing).

(** *** Reference semantics

    The storage engine is a collaborator of the handlers; what follows is
    the usual relational reading of the plans above (PostgreSQL's, where a
    choice has to be made), over tables given as lists of rows in heap
    order. *)

Definition Row : Type := Obj.
Definition Database : Type := Table -> list Row.

(** A row of the join under construction: for every table in scope its row,
    or [None] where a left join found no partner. *)
Definition Env : Type := list (Table * option Row).

Fixpoint env_get (t : Table) (e : Env) : option (option Row) :=
  match e with
  | [] => None
  | (t', r) :: rest => if table_eqb t' t then Some r else env_get t rest
  end.

Definition cell (e : Env) (c : Column) : Value :=
  match env_get (fst c) e with
  | Some (Some r) => prop (snd c) r
  | _ => VNull
  end.

(** SQL equality: unknown as soon as one side is NULL. *)
Definition sql_eq (a b : Value) : option bool :=
  match a, b with
  | VNull, _ | _, VNull => None
  | VNum x, VNum y => Some (JS.eqb x y)
  | VStr x, VStr y => Some (String.eqb x y)
  | VBool x, VBool y => Some (Bool.eqb x y)
  | VDate x, VDate y => Some (x =? y)
  | _, _ => Some false
  end.

Definition sql_ilike (a : Value) (pattern : string) : option bool :=
  match a with
  | VNull => None
  | VStr s => Some (Like.ilike s pattern)
  | _ => Some false
  end.

Definition and3 (a b : option bool) : option bool :=
  match a, b with
  | Some false, _ | _, Some false => Some false
  | Some true, Some true => Some true
  | _, _ => None
  end.

Definition or3 (a b : option bool) : option bool :=
  match a, b with
  | Some true, _ | _, Some true => Some true
  | Some false, Some false => Some false
  | _, _ => None
  end.

Fixpoint eval (e : Env) (c : Cond) : option bool :=
  match c with
  | Eq a b => sql_eq (cell e a) (cell e b)
  | EqParam a v => sql_eq (cell e a) v
  | ILike a p => sql_ilike (cell e a) p
  | Or c1 c2 => or3 (eval e c1) (eval e c2)
  | And cs =>
      (fix all (l : list Cond) : option bool :=
         match l with
         | [] => Some true
         | c' :: r => and3 (eval e c') (all r)
         end) cs
  end.

(** The row carries [v] in the column [col], as the engine compares. *)
Definition row_matches (col : string) (v : Value) (r : Row) : bool :=
  match sql_eq (prop col r) v with Some true => true | _ => false end.

(** A row passes a condition when the condition is true, not unknown. *)
Definition holds (c : Cond) (e : Env) : bool :=
  match eval e c with Some true => true | _ => false end.

Definition holds_opt (c : option Cond) (e : Env) : bool :=
  match c with Some c' => holds c' e | None => true end.

(** One left join: every row so far is paired with each partner that passes
    the [on] condition, or padded with NULLs when there is none. *)
Definition join1 (d : Database) (envs : list Env) (j : Table * Cond) : list Env :=
  flat_map
    (fun e =>
       match filter (fun r => holds (snd j) (e ++ [(fst j, Some r)])) (d (fst j)) with
       | [] => [e ++ [(fst j, None)]]
       | partners => map (fun r => e ++ [(fst j, Some r)]) partners
       end)
    envs.

Definition scan (d : Database) (t : Table) : list Env :=
  map (fun r => [(t, Some r)]) (d t).

(** FROM, the joins in order, then WHERE. *)
Definition matching (d : Database) (q : Select) : list Env :=
  filter (holds_opt (whereCond q)) (fold_left (join1 d) (joins q) (scan d (from q))).

(** *** Grouping *)

(** Grouping keys compare with NULLs equal to each other. *)
Definition same_value (a b : Value) : bool :=
  match a, b with
  | VNull, VNull => true
  | _, _ => match sql_eq a b with Some true => true | _ => false end
  end.

Fixpoint same_key (k1 k2 : list Value) : bool :=
  match k1, k2 with
  | [], [] => true
  | a :: r1, b :: r2 => same_value a b && same_key r1 r2
  | _, _ => false
  end.

(** A group: its first row, which stands for the grouped columns, and all
    its rows. *)
Definition Group : Type := (Env * list Env)%type.

Fixpoint add_to_groups (cols : list Column) (e : Env) (gs : list Group) : list Group :=
  match gs with
  | [] => [(e, [e])]
  | (rep, members) :: r =>
      if same_key (map (cell rep) cols) (map (cell e) cols)
      then (rep, members ++ [e]) :: r
      else (rep, members) :: add_to_groups cols e r
  end.

Definition group_rows (cols : list Column) (envs : list Env) : list Group :=
  fold_left (fun gs e => add_to_groups cols e gs) envs [].

Definition is_aggregate (it : Item) : bool :=
  match it with
  | CountStar _ | CountOf _ _ | CountDistinct _ _ => true
  | _ => false
  end.

Definition selection (q : Select) : list Item :=
  match fields q with
  | Some fs => fs
  | None =>
      match joins q with
      | [] => [Spread (from q)]
      | js => map (fun t => Nested "" t) (from q :: map fst js)
      end
  end.

(** The groups a query is evaluated over: those of GROUP BY; the whole
    result as one group when there are aggregates but no GROUP BY; one group
    per row otherwise. *)
Definition groups (q : Select) (envs : list Env) : list Group :=
  match groupBy q with
  | _ :: _ => group_rows (groupBy q) envs
  | [] =>
      if existsb is_aggregate (selection q)
      then [(match envs with e :: _ => e | [] => [] end, envs)]
      else map (fun e => (e, [e])) envs
  end.

Definition not_null (v : Value) : bool :=
  match v with VNull => false | _ => true end.

Fixpoint distinct (vs : list Value) : list Value :=
  match vs with
  | [] => []
  | v :: r => v :: filter (fun w => negb (same_value v w)) (distinct r)
  end.

Definition count (n : nat) : Value := int (Z.of_nat n).

(** The output row of a group. *)
Definition project_item (g : Group) (o : Obj) (it : Item) : Obj :=
  match it with
  | Spread t =>
      match env_get t (fst g) with
      | Some (Some r) => o ++ r
      | _ => o
      end
  | Nested name t =>
      o ++ [(name, match env_get t (fst g) with
                   | Some (Some r) => VObj r
                   | _ => VNull
                   end)]
  | Field name c => o ++ [(name, cell (fst g) c)]
  | CountStar name => o ++ [(name, count (List.length (snd g)))]
  | CountOf name c =>
      o ++ [(name, count (List.length (filter not_null (map (fun e => cell e c) (snd g)))))]
  | CountDistinct name c =>
      o ++ [(name, count (List.length
                            (distinct (filter not_null (map (fun e => cell e c) (snd g))))))]
  end.

Definition project (items : list Item) (g : Group) : Row :=
  fold_left (project_item g) items [].

(** *** Ordering *)

Definition kind (v : Value) : Z :=
  match v with
  | VBool _ => 0
  | VNum _ => 1
  | VDate _ => 2
  | VStr _ => 3
  | VArr _ => 4
  | VObj _ => 5
  | VExn _ => 6
  | VNull => 7
  end.

(** The sort order of numbers, with NaN above every other number. *)
Definition num_leb (a b : JS.number) : bool :=
  match a, b with
  | _, JS.NaN => true
  | JS.NaN, _ => false
  | JS.NInf, _ => true
  | _, JS.NInf => false
  | _, JS.PInf => true
  | JS.PInf, _ => false
  | JS.Fin x, JS.Fin y => Qle_bool x y
  end.

(** The sort order of values; NULL sorts above everything, so it comes first
    in a descending sort. *)
Definition value_leb (a b : Value) : bool :=
  match a, b with
  | VNum x, VNum y => num_leb x y
  | VDate x, VDate y => x <=? y
  | VStr x, VStr y => String.leb x y
  | VBool x, VBool y => implb x y
  | _, _ => kind a <=? kind b
  end.

(** [desc_leb ka kb]: a row with ordering key [ka] may come before a row
    with key [kb] when every key column is sorted descending. *)
Fixpoint desc_leb (ka kb : list Value) : bool :=
  match ka, kb with
  | x :: ra, y :: rb =>
      if value_leb y x then (if value_leb x y then desc_leb ra rb else true)
      else false
  | _, _ => true
  end.

Definition order_key (cols : list Column) (g : Group) : list Value :=
  map (cell (fst g)) cols.

Fixpoint insert_desc (cols : list Column) (g : Group) (sorted : list Group) : list Group :=
  match sorted with
  | [] => [g]
  | h :: r =>
      if desc_leb (order_key cols g) (order_key cols h)
      then g :: h :: r
      else h :: insert_desc cols g r
  end.

(** ORDER BY ... DESC as a stable insertion sort: rows with equal keys stay
    in the order in which they were produced.  (The engine promises nothing
    about that order; the model fixes one.) *)
Definition sort_desc (cols : list Column) (gs : list Group) : list Group :=
  fold_right (insert_desc cols) [] gs.

(** *** What the engine rejects *)

Definition in_scope (scope : list Table) (t : Table) : bool :=
  existsb (table_eqb t) scope.

Fixpoint cond_tables (c : Cond) : list Table :=
  match c with
  | Eq a b => [fst a; fst b]
  | EqParam a _ => [fst a]
  | ILike a _ => [fst a]
  | Or c1 c2 => cond_tables c1 ++ cond_tables c2
  | And cs => flat_map cond_tables cs
  end.

Definition is_integer (n : JS.number) : bool :=
  match n with
  | JS.Fin q => Pos.eqb (Qden q) 1
  | _ => false
  end.

(** A bound parameter has to read as a value of the column's type; of the
    parameters the handlers bind, only a number can fail to: the numeric
    columns are integer keys. *)
Definition bindable (v : Value) : bool :=
  match v with
  | VNum n => is_integer n
  | _ => true
  end.

Fixpoint cond_params_ok (c : Cond) : bool :=
  match c with
  | Eq _ _ => true
  | EqParam _ v => bindable v
  | ILike _ _ => true
  | Or c1 c2 => cond_params_ok c1 && cond_params_ok c2
  | And cs => forallb cond_params_ok cs
  end.

Definition cond_ok (scope : list Table) (c : Cond) : bool :=
  forallb (in_scope scope) (cond_tables c) && cond_params_ok c.

(** The joins in order: an alias may be used once, and an [on] condition
    sees the tables to its left and the one being joined. *)
Fixpoint joins_ok (scope : list Table) (js : list (Table * Cond)) : bool :=
  match js with
  | [] => true
  | (t, on) :: r =>
      negb (in_scope scope t) && cond_ok (scope ++ [t]) on && joins_ok (scope ++ [t]) r
  end.

Definition item_tables (it : Item) : list Table :=
  match it with
  | Spread t | Nested _ t => [t]
  | Field _ c | CountOf _ c | CountDistinct _ c => [fst c]
  | CountStar _ => []
  end.

(** LIMIT and OFFSET take a non-negative integer. *)
Definition bound_ok (n : option JS.number) : bool :=
  match n with
  | None => true
  | Some m => is_integer m && JS.leb (JS.Fin 0) m
  end.

Definition well_formed (q : Select) : bool :=
  let scope := from q :: map fst (joins q) in
  joins_ok [from q] (joins q)
  && match whereCond q with Some c => cond_ok scope c | None => true end
  && forallb (in_scope scope) (flat_map item_tables (selection q))
  && forallb (in_scope scope) (map fst (groupBy q))
  && forallb (in_scope scope) (map fst (orderBy q))
  && bound_ok (limit q) && bound_ok (offset q).

Definition to_nat (n : option JS.number) (default : nat) : nat :=
  match n with
  | Some (JS.Fin q) => Z.to_nat (Qfloor q)
  | _ => default
  end.

(** OFFSET then LIMIT. *)
Definition window {A : Type} (off lim : option JS.number) (l : list A) : list A :=
  let rest := skipn (to_nat off 0) l in
  match lim with
  | Some _ => firstn (to_nat lim 0) rest
  | None => rest
  end.

(** Running a select: rejected plans raise; otherwise FROM/JOIN/WHERE, GROUP
    BY, ORDER BY, OFFSET/LIMIT and the projection, in that order. *)
Definition run_select (d : Database) (q : Select) : Exn + list Row :=
  if well_formed q then
    inr (map (project (selection q))
             (window (offset q) (limit q)
                     (sort_desc (orderBy q) (groups q (matching d q)))))
  else inl (StorageError "query rejected").

(** The key a new row gets: one past the largest integer key of the table. *)
Definition next_id (rows : list Row) : Z :=
  1 + fold_right (fun r m =>
                    match prop "id" r with
                    | VNum (JS.Fin q) => Z.max (Qfloor q) m
                    | _ => m
                    end) 0 rows.

(** The row an insert creates: the given values over a generated key. *)
Definition inserted_row (d : Database) (i : Insert) : Row :=
  [("id", int (next_id (d (into i))))] ++ values i.

(** Running an insert: the answer is the [returning] projection of the
    created row.  Constraints of the schema are not modelled, and the grown
    table is not threaded on: no handler reads after its insert. *)
Definition run_insert (d : Database) (i : Insert) : Exn + list Row :=
  inr [map (fun '(name, c) => (name, prop (snd c) (inserted_row d i))) (returning i)].

Definition Engine : Type := Stmt -> Exn + list Row.

(** A working engine over a database. *)
Definition postgres (d : Database) : Engine :=
  fun s =>
    match s with
    | SelectStmt q => run_select d q
    | InsertStmt i => run_insert d i
    end.

(** An engine in which every statement fails with [e]. *)
Definition failing (e : Exn) : Engine := fun _ => inl e.

End Sql.

(* ------------------------------------------------------------------ *)
(** ** Requests, responses and the handler monad *)

Module Http.

Fixpoint lookup (k : string) (l : list (string * string)) : option string :=
  match l with
  | [] => None
  | (k', v) :: r => if String.eqb k' k then Some v else lookup k r
  end.

(** A request after routing and parsing.  A query parameter is absent or a
    single string (repeated and bracketed parameters, which the parser turns
    into arrays and objects, are outside the model). *)
Record Request : Type := mkRequest {
  params : list (string * string);
  query : list (string * string);
  body : Obj
}.

Record Response : Type := mkResponse {
  status : Z;
  payload : Value
}.

(** [res.status(s).json(b)]. *)
Definition json (s : Z) (b : Obj) : Response := mkResponse s (VObj b).

(** A destructured query parameter: the string the client sent, or the
    numeric default of the destructuring pattern. *)
Inductive Arg : Type :=
| Given (s : string)
| Default (z : Z).

Definition arg (name : string) (req : Request) (default : Z) : Arg :=
  match lookup name (query req) with
  | Some s => Given s
  | None => Default default
  end.

(** Unary plus, [+a]. *)
Definition plus (a : Arg) : JS.number :=
  match a with
  | Given s => JS.toNumber s
  | Default z => JS.of_Z z
  end.

(** [String(a)]. *)
Definition String_ (a : Arg) : string :=
  match a with
  | Given s => s
  | Default z => JS.string_of_Z z
  end.

(** [Number(req.params.id)]; [Number(undefined)] is NaN. *)
Definition Number_ (o : option string) : JS.number :=
  match o with
  | Some s => JS.toNumber s
  | None => JS.NaN
  end.

(** A string-valued parameter that is present and not empty, the test made
    by [if (search)]. *)
Definition truthy (o : option string) : option string :=
  match o with
  | Some "" => None
  | _ => o
  end.

(** [o === s] for a parameter that may be absent. *)
Definition strict_eq (o : option string) (s : string) : bool :=
  match o with
  | Some x => String.eqb x s
  | None => false
  end.

Definition str_or_null (o : option string) : Value :=
  match o with
  | Some s => VStr s
  | None => VNull
  end.

(** Coercion of a value to a number, as division applies it. *)
Definition to_number (v : Value) : JS.number :=
  match v with
  | VNum n => n
  | VStr s => JS.toNumber s
  | VNull => JS.Fin 0
  | VBool b => JS.Fin (if b then 1 else 0)
  | VDate t => JS.of_Z t
  | _ => JS.NaN
  end.

(** [rows[0]?.count ?? 0]. *)
Definition first_count (rows : list Sql.Row) : Value :=
  match rows with
  | r :: _ => match prop "count" r with VNull => int 0 | v => v end
  | [] => int 0
  end.

(** [Math.ceil(totalCount / limitPerPage)]. *)
Definition totalPages (totalCount : Value) (limitPerPage : JS.number) : Value :=
  VNum (JS.ceil (JS.div (to_number totalCount) limitPerPage)).

Definition rows_value (rows : list Sql.Row) : Value := VArr (map VObj rows).

(** What a handler leaves behind besides its response. *)
Inductive Event : Type :=
| Issued (s : Sql.Stmt)                   (* a statement sent to the storage *)
| ConsoleError (msg : string) (e : Exn).  (* console.error of msg and e *)

(** A handler computation: it reads the storage engine, leaves a trace and
    ends in a value or in a thrown exception. *)
Definition M (A : Type) : Type := Sql.Engine -> list Event * (Exn + A).

Definition ret {A : Type} (a : A) : M A := fun _ => ([], inr a).

Definition bind {A B : Type} (m : M A) (k : A -> M B) : M B :=
  fun eng =>
    match m eng with
    | (t, inl e) => (t, inl e)
    | (t, inr a) => let (t', r) := k a eng in (t ++ t', r)
    end.

Definition throw {A : Type} (e : Exn) : M A := fun _ => ([], inl e).

(** [await db. ...]: the statement is issued, and its failure is thrown. *)
Definition exec (s : Sql.Stmt) : M (list Sql.Row) :=
  fun eng => ([Issued s], eng s).

Definition console_error (msg : string) (e : Exn) : M unit :=
  fun _ => ([ConsoleError msg e], inr tt).

(** [try { body } catch (e) { handler }]. *)
Definition try_catch {A : Type} (body : M A) (handler : Exn -> M A) : M A :=
  fun eng =>
    match body eng with
    | (t, inl e) => let (t', r) := handler e eng in (t ++ t', r)
    | done => done
    end.

Notation "x <- m ;; k" := (bind m (fun x => k))
  (at level 61, m at next level, right associativity).
Notation "m ;;; k" := (bind m (fun _ => k))
  (at level 61, right associativity).

(** The statements a run issued, in order. *)
Definition issued (t : list Event) : list Sql.Stmt :=
  flat_map (fun ev => match ev with Issued s => [s] | _ => [] end) t.

Definition logged (t : list Event) : list (string * Exn) :=
  flat_map (fun ev => match ev with ConsoleError m e => [(m, e)] | _ => [] end) t.

End Http.

(* ------------------------------------------------------------------ *)
(** ** src/routes/subjects.ts *)

Module SubjectsRoutes.
Import Sql Http.

(** GET /subjects *)
Definition get_subjects (req : Request) : M Response :=
  try_catch
    (let search := lookup "search" (query req) in
     let department := lookup "department" (query req) in
     let page := arg "page" req 1 in
     let limit := arg "limit" req 10 in
     let currentPage :=
       JS.max (JS.Fin 1) (JS.or_else (JS.parseInt10 (String_ page)) (JS.Fin 1)) in
     let limitPerPage :=
       JS.min (JS.max (JS.Fin 1) (JS.or_else (JS.parseInt10 (String_ limit)) (JS.Fin 10)))
              (JS.Fin 100) in
     let offset := JS.mul (JS.sub currentPage (JS.Fin 1)) limitPerPage in
     let filterConditions :=
       match truthy search with
       | Some s => [Or (ILike (subjects, "name") (Like.wrap s))
                       (ILike (subjects, "code") (Like.wrap s))]
       | None => []
       end ++
       match truthy department with
       | Some dep => [ILike (departments, "name") (Like.wrap (Like.escape dep))]
       | None => []
       end in
     let whereClause :=
       match filterConditions with [] => None | _ => Some (And filterConditions) end in
     countResult <- exec (SelectStmt
       (select [CountStar "count"] subjects
        |> leftJoin departments (Eq (subjects, "departmentId") (departments, "id"))
        |> where_ whereClause)) ;;
     let totalCount := first_count countResult in
     subjectsList <- exec (SelectStmt
       (select [Spread subjects; Nested "department" departments] subjects
        |> leftJoin departments (Eq (subjects, "departmentId") (departments, "id"))
        |> where_ whereClause
        |> orderByDesc (subjects, "createdAt")
        |> limit_ limitPerPage
        |> offset_ offset)) ;;
     ret (json 200
       [("data", rows_value subjectsList);
        ("pagination", VObj
           [("page", VNum currentPage);
            ("limit", VNum limitPerPage);
            ("total", totalCount);
            ("totalPages", totalPages totalCount limitPerPage)])]))
    (fun e =>
       console_error "GET /subjects error: " e ;;;
       ret (json 500 [("error", VStr "Failed to get subjects")])).

(** POST /subjects *)
Definition post_subjects (req : Request) : M Response :=
  try_catch
    (created <- exec (InsertStmt
       (mkInsert subjects
          [("departmentId", prop "departmentId" (body req));
           ("name", prop "name" (body req));
           ("code", prop "code" (body req));
           ("description", prop "description" (body req))]
          [("id", (subjects, "id"))])) ;;
     match created with
     | [] => throw ErrorConstructor
     | createdSubject :: _ => ret (json 201 [("data", VObj createdSubject)])
     end)
    (fun e =>
       console_error "POST /subjects error: " e ;;;
       ret (json 500 [("error", VStr "Failed to create subject")])).

(** GET /subjects/:id *)
Definition get_subject (req : Request) : M Response :=
  try_catch
    (let subjectId := Number_ (lookup "id" (params req)) in
     if negb (JS.isFinite subjectId) then
       ret (json 400 [("error", VStr "Invalid subject id.")])
     else
       found <- exec (SelectStmt
         (select [Spread subjects; Nested "department" departments] subjects
          |> leftJoin departments (Eq (subjects, "departmentId") (departments, "id"))
          |> where_ (Some (EqParam (subjects, "id") (VNum subjectId))))) ;;
       match found with
       | [] => ret (json 404 [("error", VStr "Subject not found.")])
       | subject :: _ =>
           classesCount <- exec (SelectStmt
             (select [CountStar "count"] subjects
              |> where_ (Some (EqParam (subjects, "id") (VNum subjectId))))) ;;
           ret (json 200
             [("data", VObj
                [("subject", VObj subject);
                 ("totals", VObj [("classes", first_count classesCount)])])])
       end)
    (fun e =>
       console_error "GET /subjects/:id error: " e ;;;
       ret (json 500 [("error", VStr "Failed to get subject details")])).

(** GET /subjects/:id/classes *)
Definition get_subject_classes (req : Request) : M Response :=
  try_catch
    (let subjectId := Number_ (lookup "id" (params req)) in
     let page := arg "page" req 1 in
     let limit := arg "limit" req 10 in
     if negb (JS.isFinite subjectId) then
       ret (json 400 [("error", VStr "Invalid subject id.")])
     else
       let currentPage := JS.max (JS.Fin 1) (plus page) in
       let limitPerPage := JS.max (JS.Fin 1) (plus limit) in
       let offset := JS.mul (JS.sub currentPage (JS.Fin 1)) limitPerPage in
       countResult <- exec (SelectStmt
         (select [CountStar "count"] classes
          |> where_ (Some (EqParam (classes, "subjectId") (VNum subjectId))))) ;;
       let totalCount := first_count countResult in
       classesList <- exec (SelectStmt
         (select [Spread classes; Nested "teacher" user] classes
          |> leftJoin user (Eq (classes, "teacherId") (user, "id"))
          |> where_ (Some (EqParam (classes, "subjectId") (VNum subjectId)))
          |> orderByDesc (classes, "createdAt")
          |> limit_ limitPerPage
          |> offset_ offset)) ;;
       ret (json 200
         [("data", rows_value classesList);
          ("pagination", VObj
             [("page", VNum currentPage);
              ("limit", VNum limitPerPage);
              ("total", totalCount);
              ("totalPages", totalPages totalCount limitPerPage)])]))
    (fun e =>
       console_error "GET /subjects/:id/classes error: " e ;;;
       ret (json 500 [("error", VStr "Failed to get subject classes")])).

Definition baseSelect : list Item :=
  [Field "id" (user, "id");
   Field "name" (user, "name");
   Field "email" (user, "email");
   Field "emailVerified" (user, "emailVerified");
   Field "image" (user, "image");
   Field "role" (user, "role");
   Field "imageCldPubId" (user, "imageCldPubId");
   Field "createdAt" (user, "createdAt");
   Field "updatedAt" (user, "updatedAt")].

Definition groupByFields : list Column :=
  [(user, "id"); (user, "name"); (user, "email"); (user, "emailVerified");
   (user, "image"); (user, "role"); (user, "imageCldPubId");
   (user, "createdAt"); (user, "updatedAt")].

(** GET /subjects/:id/users *)
Definition get_subject_users (req : Request) : M Response :=
  try_catch
    (let subjectId := Number_ (lookup "id" (params req)) in
     let role := lookup "role" (query req) in
     let page := arg "page" req 1 in
     let limit := arg "limit" req 10 in
     if negb (JS.isFinite subjectId) then
       ret (json 400 [("error", VStr "Invalid subject id.")])
     else if negb (strict_eq role "teacher") && negb (strict_eq role "student") then
       ret (json 400 [("error", VStr "Invalid role")])
     else
       let currentPage := JS.max (JS.Fin 1) (plus page) in
       let limitPerPage := JS.max (JS.Fin 1) (plus limit) in
       let offset := JS.mul (JS.sub currentPage (JS.Fin 1)) limitPerPage in
       let inSubject :=
         Some (And [EqParam (user, "role") (str_or_null role);
                    EqParam (classes, "subjectId") (VNum subjectId)]) in
       countResult <- exec (SelectStmt
         (if strict_eq role "teacher" then
            select [CountDistinct "count" (user, "id")] classes
            |> leftJoin classes (Eq (user, "id") (classes, "teacherId"))
            |> where_ inSubject
          else
            select [CountDistinct "count" (user, "id")] user
            |> leftJoin enrollments (Eq (user, "id") (enrollments, "studentId"))
            |> leftJoin classes (Eq (enrollments, "classId") (classes, "id"))
            |> where_ inSubject)) ;;
       let totalCount := first_count countResult in
       usersList <- exec (SelectStmt
         (if strict_eq role "teacher" then
            select baseSelect user
            |> leftJoin classes (Eq (user, "id") (classes, "teacherId"))
            |> where_ inSubject
            |> groupBy_ groupByFields
            |> orderByDesc (user, "createdAt")
            |> limit_ limitPerPage
            |> offset_ offset
          else
            select baseSelect user
            |> leftJoin enrollments (Eq (user, "id") (enrollments, "studentId"))
            |> leftJoin classes (Eq (enrollments, "classId") (classes, "id"))
            |> where_ inSubject
            |> groupBy_ groupByFields
            |> orderByDesc (user, "createdAt")
            |> limit_ limitPerPage
            |> offset_ offset)) ;;
       ret (json 200
         [("data", rows_value usersList);
          ("pagination", VObj
             [("page", VNum currentPage);
              ("limit", VNum limitPerPage);
              ("total", totalCount);
              ("totalPages", totalPages totalCount limitPerPage)])]))
    (fun e =>
       console_error "GET /subjects/:id/users error: " e ;;;
       ret (json 500 [("error", VStr "Failed to get subject users")])).

End SubjectsRoutes.

(* ------------------------------------------------------------------ *)
(** ** src/routes/departments.ts *)

Module DepartmentsRoutes.
Import Sql Http.

(** GET /departments *)
Definition get_departments (req : Request) : M Response :=
  try_catch
    (let search := lookup "search" (query req) in
     let page := arg "page" req 1 in
     let limit := arg "limit" req 10 in
     let currentPage := JS.max (JS.Fin 1) (plus page) in
     let limitPerPage := JS.max (JS.Fin 1) (plus limit) in
     let offset := JS.mul (JS.sub currentPage (JS.Fin 1)) limitPerPage in
     let filterConditions :=
       match truthy search with
       | Some s => [Or (ILike (departments, "name") (Like.wrap s))
                       (ILike (departments, "code") (Like.wrap s))]
       | None => []
       end in
     let whereClause :=
       match filterConditions with [] => None | _ => Some (And filterConditions) end in
     countResult <- exec (SelectStmt
       (select [CountStar "count"] departments
        |> where_ whereClause)) ;;
     let totalCount := first_count countResult in
     departmentsList <- exec (SelectStmt
       (select [Spread departments; CountOf "totalSubjects" (subjects, "id")] departments
        |> leftJoin subjects (Eq (departments, "id") (subjects, "departmentId"))
        |> where_ whereClause
        |> groupBy_ [(departments, "id")]
        |> orderByDesc (departments, "id")
        |> limit_ limitPerPage
        |> offset_ offset)) ;;
     ret (json 200
       [("data", rows_value departmentsList);
        ("pagination", VObj
           [("page", VNum currentPage);
            ("limit", VNum limitPerPage);
            ("total", totalCount);
            ("totalPages", totalPages totalCount limitPerPage)])]))
    (fun e =>
       console_error "GET /departments error:" e ;;;
       ret (json 500 [("message", VStr "Failed to fetch departments.")])).

End DepartmentsRoutes.

(* ------------------------------------------------------------------ *)
(** ** src/routes/classes.ts *)

Module ClassesRoutes.
Import Sql Http.

(** GET /classes *)
Definition get_classes (req : Request) : M Response :=
  try_catch
    (let search := lookup "search" (query req) in
     let subject := lookup "subject" (query req) in
     let teacher := lookup "teacher" (query req) in
     let page := arg "page" req 1 in
     let limit := arg "limit" req 10 in
     let currentPage := JS.max (JS.Fin 1) (plus page) in
     let limitPerPage := JS.max (JS.Fin 1) (plus limit) in
     let offset := JS.mul (JS.sub currentPage (JS.Fin 1)) limitPerPage in
     let filterConditions :=
       match truthy search with
       | Some s => [Or (ILike (classes, "name") (Like.wrap s))
                       (ILike (classes, "inviteCode") (Like.wrap s))]
       | None => []
       end ++
       match truthy subject with
       | Some sub => [ILike (subjects, "name") (Like.wrap (Like.escape sub))]
       | None => []
       end ++
       match truthy teacher with
       | Some t => [ILike (user, "name") (Like.wrap (Like.escape t))]
       | None => []
       end in
     let whereClause :=
       match filterConditions with [] => None | _ => Some (And filterConditions) end in
     countResult <- exec (SelectStmt
       (select [CountStar "count"] classes
        |> leftJoin subjects (Eq (classes, "subjectId") (subjects, "id"))
        |> leftJoin user (Eq (classes, "teacherId") (user, "id"))
        |> where_ whereClause)) ;;
     let totalCount := first_count countResult in
     classesList <- exec (SelectStmt
       (select [Spread classes; Nested "subject" subjects; Nested "teacher" user] classes
        |> leftJoin subjects (Eq (classes, "subjectId") (subjects, "id"))
        |> leftJoin user (Eq (classes, "teacherId") (user, "id"))
        |> where_ whereClause
        |> orderByDesc (classes, "createdAt")
        |> limit_ limitPerPage
        |> offset_ offset)) ;;
     ret (json 200
       [("data", rows_value classesList);
        ("pagination", VObj
           [("page", VNum currentPage);
            ("limit", VNum limitPerPage);
            ("total", totalCount);
            ("totalPages", totalPages totalCount limitPerPage)])]))
    (fun e =>
       console_error "GET /classes error " e ;;;
       ret (json 500 [("errror", VStr "Failed to get classes")])).

(** GET /classes/:id.  The handler has no try/catch. *)
Definition get_class (req : Request) : M Response :=
  let classId := Number_ (lookup "id" (params req)) in
  if negb (JS.isFinite classId) then
    ret (json 400 [("error", VStr "No Class found.")])
  else
    found <- exec (SelectStmt
      (select [Spread classes; Nested "subject" subjects;
               Nested "department" departments; Nested "teacher" user] classes
       |> leftJoin subjects (Eq (classes, "subjectId") (subjects, "id"))
       |> leftJoin user (Eq (classes, "teacherId") (user, "id"))
       |> leftJoin departments (Eq (subjects, "departmentId") (departments, "id"))
       |> where_ (Some (EqParam (classes, "id") (VNum classId))))) ;;
    match found with
    | [] => ret (json 404 [("error", VStr "No Class found.")])
    | classDetails :: _ => ret (json 200 [("data", VObj classDetails)])
    end.

(** One draw of [Math.random()], a double in [0, 1), given by the digits of
    its base-36 expansion after the point (none for 0); a digit is taken
    modulo 36. *)
Definition Random : Type := list nat.

Definition alphabet36 : list ascii :=
  list_ascii_of_string "0123456789abcdefghijklmnopqrstuvwxyz".

Definition digit36 (n : nat) : ascii := nth (n mod 36) alphabet36 "0"%char.


(** [r.toString(36)] for a draw [r]. *)
Definition toString36 (r : Random) : list ascii :=
  match r with
  | [] => ["0"%char]
  | _ => "0"%char :: "."%char :: map digit36 r
  end.

(** [s.substring(a, b)] for [0 <= a <= b]. *)
Definition substring (a b : nat) (s : list ascii) : list ascii :=
  firstn (b - a) (skipn a s).

(** [Math.random().toString(36).substring(2, 9)]. *)
Definition inviteCode (r : Random) : string :=
  string_of_list_ascii (substring 2 9 (toString36 r)).

(** POST /classes *)
Definition post_classes (r : Random) (req : Request) : M Response :=
  try_catch
    (created <- exec (InsertStmt
       (mkInsert classes
          (body req ++ [("inviteCode", VStr (inviteCode r)); ("schedules", VArr [])])
          [("id", (classes, "id"))])) ;;
     match created with
     | [] => throw ErrorConstructor
     | createdClass :: _ => ret (json 201 [("data", VObj createdClass)])
     end)
    (fun e =>
       console_error "POST /classes error " e ;;;
       ret (json 500 [("error", VExn e)])).

End ClassesRoutes.

(* ------------------------------------------------------------------ *)
(** ** The users router *)

Module UsersRoutes.
Import Sql Http.

(** GET /users *)
Definition get_users (req : Request) : M Response :=
  try_catch
    (let search := lookup "search" (query req) in
     let role := lookup "role" (query req) in
     let page := arg "page" req 1 in
     let limit := arg "limit" req 10 in
     let currentPage :=
       JS.max (JS.Fin 1) (JS.or_else (JS.parseInt10 (String_ page)) (JS.Fin 1)) in
     let limitPerPage :=
       JS.min (JS.max (JS.Fin 1) (JS.or_else (JS.parseInt10 (String_ limit)) (JS.Fin 10)))
              (JS.Fin 100) in
     let offset := JS.mul (JS.sub currentPage (JS.Fin 1)) limitPerPage in
     let filterConditions :=
       match truthy search with
       | Some s => [Or (ILike (user, "name") (Like.wrap s))
                       (ILike (user, "email") (Like.wrap s))]
       | None => []
       end ++
       match truthy role with
       | Some r => [EqParam (user, "role") (VStr r)]
       | None => []
       end in
     let whereClause :=
       match filterConditions with [] => None | _ => Some (And filterConditions) end in
     countResult <- exec (SelectStmt
       (select [CountStar "count"] user
        |> where_ whereClause)) ;;
     let totalCount := first_count countResult in
     usersList <- exec (SelectStmt
       (select [Spread user] user
        |> orderByDesc (user, "createdAt")
        |> limit_ limitPerPage
        |> offset_ offset)) ;;
     ret (json 200
       [("data", rows_value usersList);
        ("pagination", VObj
           [("page", VNum currentPage);
            ("limit", VNum limitPerPage);
            ("total", totalCount);
            ("totalPages", totalPages totalCount limitPerPage)])]))
    (fun e =>
       console_error "GET /users error: " e ;;;
       ret (json 500 [("error", VStr "Failed to get users")])).

(** GET /users/:id *)
Definition get_user (req : Request) : M Response :=
  try_catch
    (let userId := lookup "id" (params req) in
     found <- exec (SelectStmt
       (select_all user
        |> where_ (Some (EqParam (user, "id") (str_or_null userId))))) ;;
     match found with
     | [] => ret (json 404 [("error", VStr "User not found.")])
     | userRecord :: _ => ret (json 200 [("data", VObj userRecord)])
     end)
    (fun e =>
       console_error "GET /user/:id error:" e ;;;
       ret (json 500 [("error", VStr "Failed to fetch user.")])).

(** The envelope of a user who is neither teacher nor student. *)
Definition empty_envelope : Response :=
  json 200
    [("data", VArr []);
     ("pagination", VObj
        [("page", int 1); ("limit", int 0); ("total", int 0); ("totalPages", int 0)])].

(** [userRecord.role !== r]. *)
Definition role_is_not (userRecord : Row) (r : string) : bool :=
  match prop "role" userRecord with
  | VStr x => negb (String.eqb x r)
  | _ => true
  end.

Definition departmentColumns : list Column :=
  [(departments, "id"); (departments, "code"); (departments, "name");
   (departments, "description"); (departments, "createdAt"); (departments, "updatedAt")].

(** GET /users/:id/departments *)
Definition get_user_departments (req : Request) : M Response :=
  try_catch
    (let userId := lookup "id" (params req) in
     let page := arg "page" req 1 in
     let limit := arg "limit" req 10 in
     found <- exec (SelectStmt
       (select [Field "id" (user, "id"); Field "role" (user, "role")] user
        |> where_ (Some (EqParam (user, "id") (str_or_null userId))))) ;;
     match found with
     | [] => ret (json 404 [("error", VStr "User not found.")])
     | userRecord :: _ =>
         if role_is_not userRecord "teacher" && role_is_not userRecord "student" then
           ret empty_envelope
         else
           let currentPage := JS.max (JS.Fin 1) (plus page) in
           let limitPerPage := JS.max (JS.Fin 1) (plus limit) in
           let offset := JS.mul (JS.sub currentPage (JS.Fin 1)) limitPerPage in
           let teaching := negb (role_is_not userRecord "teacher") in
           countResult <- exec (SelectStmt
             (if teaching then
                select [CountDistinct "count" (departments, "id")] departments
                |> leftJoin subjects (Eq (subjects, "departmentId") (departments, "id"))
                |> leftJoin classes (Eq (classes, "subjectId") (subjects, "id"))
                |> where_ (Some (EqParam (classes, "teacherId") (str_or_null userId)))
              else
                select [CountDistinct "count" (departments, "id")] departments
                |> leftJoin subjects (Eq (subjects, "departmentId") (departments, "id"))
                |> leftJoin classes (Eq (classes, "subjectId") (subjects, "id"))
                |> leftJoin enrollments (Eq (enrollments, "classId") (classes, "id"))
                |> where_ (Some (EqParam (enrollments, "studentId") (str_or_null userId))))) ;;
           let totalCount := first_count countResult in
           departmentsList <- exec (SelectStmt
             (if teaching then
                select [Spread departments] departments
                |> leftJoin subjects (Eq (subjects, "departmentId") (departments, "id"))
                |> leftJoin classes (Eq (classes, "subjectId") (subjects, "id"))
                |> where_ (Some (EqParam (classes, "teacherId") (str_or_null userId)))
                |> groupBy_ departmentColumns
                |> orderByDesc (departments, "createdAt")
                |> limit_ limitPerPage
                |> offset_ offset
              else
                select [Spread departments] departments
                |> leftJoin subjects (Eq (subjects, "departmentId") (departments, "id"))
                |> leftJoin classes (Eq (classes, "subjectId") (subjects, "id"))
                |> leftJoin enrollments (Eq (enrollments, "classId") (classes, "id"))
                |> where_ (Some (EqParam (enrollments, "studentId") (str_or_null userId)))
                |> groupBy_ departmentColumns
                |> orderByDesc (departments, "createdAt")
                |> limit_ limitPerPage
                |> offset_ offset)) ;;
           ret (json 200
             [("data", rows_value departmentsList);
              ("pagination", VObj
                 [("page", VNum currentPage);
                  ("limit", VNum limitPerPage);
                  ("total", totalCount);
                  ("totalPages", totalPages totalCount limitPerPage)])])
     end)
    (fun e =>
       console_error "GET /users/:id/departments error:" e ;;;
       ret (json 500 [("error", VStr "Failed to fetch user departments")])).

Definition subjectColumns : list Column :=
  [(subjects, "id"); (subjects, "departmentId"); (subjects, "name");
   (subjects, "code"); (subjects, "description"); (subjects, "createdAt");
   (subjects, "updatedAt")].

(** GET /users/:id/subjects *)
Definition get_user_subjects (req : Request) : M Response :=
  try_catch
    (let userId := lookup "id" (params req) in
     let page := arg "page" req 1 in
     let limit := arg "limit" req 10 in
     found <- exec (SelectStmt
       (select [Field "id" (user, "id"); Field "role" (user, "role")] user
        |> where_ (Some (EqParam (user, "id") (str_or_null userId))))) ;;
     match found with
     | [] => ret (json 404 [("error", VStr "User not found.")])
     | userRecord :: _ =>
         if role_is_not userRecord "teacher" && role_is_not userRecord "student" then
           ret empty_envelope
         else
           let currentPage := JS.max (JS.Fin 1) (plus page) in
           let limitPerPage := JS.max (JS.Fin 1) (plus limit) in
           let offset := JS.mul (JS.sub currentPage (JS.Fin 1)) limitPerPage in
           let teaching := negb (role_is_not userRecord "teacher") in
           countResult <- exec (SelectStmt
             (if teaching then
                select [CountDistinct "count" (subjects, "id")] subjects
                |> leftJoin classes (Eq (classes, "subjectId") (subjects, "id"))
                |> where_ (Some (EqParam (classes, "teacherId") (str_or_null userId)))
              else
                select [CountDistinct "count" (subjects, "id")] subjects
                |> leftJoin classes (Eq (classes, "subjectId") (subjects, "id"))
                |> leftJoin enrollments (Eq (enrollments, "classId") (classes, "id"))
                |> where_ (Some (EqParam (enrollments, "studentId") (str_or_null userId))))) ;;
           let totalCount := first_count countResult in
           subjectsList <- exec (SelectStmt
             (if teaching then
                select [Spread subjects; Nested "department" departments] subjects
                |> leftJoin departments (Eq (subjects, "departmentId") (departments, "id"))
                |> leftJoin classes (Eq (classes, "subjectId") (subjects, "id"))
                |> where_ (Some (EqParam (classes, "teacherId") (str_or_null userId)))
                |> groupBy_ (subjectColumns ++ departmentColumns)
                |> orderByDesc (subjects, "createdAt")
                |> limit_ limitPerPage
                |> offset_ offset
              else
                select [Spread subjects; Nested "department" departments] subjects
                |> leftJoin departments (Eq (subjects, "departmentId") (departments, "id"))
                |> leftJoin classes (Eq (classes, "subjectId") (subjects, "id"))
                |> leftJoin enrollments (Eq (enrollments, "classId") (classes, "id"))
                |> where_ (Some (EqParam (enrollments, "studentId") (str_or_null userId)))
                |> groupBy_ (subjectColumns ++ departmentColumns)
                |> orderByDesc (subjects, "createdAt")
                |> limit_ limitPerPage
                |> offset_ offset)) ;;
           ret (json 200
             [("data", rows_value subjectsList);
              ("pagination", VObj
                 [("page", VNum currentPage);
                  ("limit", VNum limitPerPage);
                  ("total", totalCount);
                  ("totalPages", totalPages totalCount limitPerPage)])])
     end)
    (fun e =>
       console_error "GET /users/:id/subjects error:" e ;;;
       ret (json 500 [("error", VStr "Failed to fetch user departments")])).

End UsersRoutes.

(* ------------------------------------------------------------------ *)
(** ** A sample catalog *)

Module Sample.
Import Sql Http.

Definition department (id : Z) (code name : string) (created : Z) : Row :=
  [("id", int id); ("code", VStr code); ("name", VStr name);
   ("description", VNull); ("createdAt", VDate created); ("updatedAt", VDate created)].

Definition subject (id dept : Z) (code name : string) (created : Z) : Row :=
  [("id", int id); ("departmentId", int dept); ("name", VStr name); ("code", VStr code);
   ("description", VNull); ("createdAt", VDate created); ("updatedAt", VDate created)].

Definition class (id subj : Z) (teacher name code : string) (created : Z) : Row :=
  [("id", int id); ("subjectId", int subj); ("teacherId", VStr teacher);
   ("name", VStr name); ("inviteCode", VStr code); ("schedules", VArr []);
   ("createdAt", VDate created); ("updatedAt", VDate created)].

Definition person (id name email role : string) (created : Z) : Row :=
  [("id", VStr id); ("name", VStr name); ("email", VStr email);
   ("emailVerified", VBool true); ("image", VNull); ("role", VStr role);
   ("imageCldPubId", VNull); ("createdAt", VDate created); ("updatedAt", VDate created)].

Definition enrollment (student : string) (class_id : Z) : Row :=
  [("studentId", VStr student); ("classId", int class_id)].

(** Department CS with subject Algorithms; two classes of the subject taught
    by teacher t1; student s1 enrolled in one of them; an administrator. *)
Definition campus : Database :=
  fun t =>
    match t with
    | departments => [department 1 "CS" "CS" 100]
    | subjects => [subject 10 1 "CS201" "Algorithms" 200]
    | classes => [class 100 10 "t1" "Algo A" "abc1234" 300;
                  class 101 10 "t1" "Algo B" "def5678" 301]
    | user => [person "t1" "Tina" "tina@example.org" "teacher" 50;
               person "s1" "Sam" "sam@example.org" "student" 60;
               person "a1" "Ada" "ada@example.org" "admin" 70]
    | enrollments => [enrollment "s1" 100]
    end.

(** Two departments whose names differ where one has a percent sign, each
    with one subject. *)
Definition hubs : Database :=
  fun t =>
    match t with
    | departments => [department 1 "H50" "50%-Hub" 100; department 2 "H500" "500-Hub" 101]
    | subjects => [subject 10 1 "HB1" "Robotics" 200; subject 11 2 "HB2" "Ceramics" 201]
    | _ => []
    end.

(** Three subjects created at the same instant, stored in the order 1, 3, 2,
    and two departments of which the one with the larger key is older. *)
Definition ties : Database :=
  fun t =>
    match t with
    | departments => [department 1 "NEW" "Newer" 200; department 2 "OLD" "Older" 100]
    | subjects => [subject 1 1 "S1" "One" 500; subject 3 1 "S3" "Three" 500;
                   subject 2 1 "S2" "Two" 500]
    | _ => []
    end.

Definition get (path_id : option string) (q : list (string * string)) : Request :=
  mkRequest (match path_id with Some i => [("id", i)] | None => [] end) q [].

End Sample.

(* ------------------------------------------------------------------ *)
(** ** Reading a run *)

Module Run.
Import Sql Http.

(** The response a run ended in, if it sent one. *)
Definition response {A : Type} (r : list Event * (Exn + A)) : option A :=
  match snd r with inr a => Some a | inl _ => None end.

Definition selects (t : list Event) : list Select :=
  flat_map (fun s => match s with SelectStmt q => [q] | _ => [] end) (issued t).

(** The count query and the list query of a listing run: its last two
    selects. *)
Definition count_and_list (t : list Event) : option (Select * Select) :=
  match rev (selects t) with
  | l :: c :: _ => Some (c, l)
  | _ => None
  end.

(** A property of the response body. *)
Definition field (k : string) (v : Value) : Value :=
  match v with VObj o => prop k o | _ => VNull end.

(** The [data] array of a response; empty when there is none. *)
Definition data (r : Response) : list Value :=
  match field "data" (payload r) with VArr items => items | _ => [] end.

Definition pagination (k : string) (r : Response) : Value :=
  field k (field "pagination" (payload r)).

(** The number of rows the list query of a listing run returns once its
    [limit] and [offset] are taken off. *)
Definition listing_size (d : Database) (t : list Event) : option nat :=
  match count_and_list t with
  | Some (_, l) =>
      match run_select d (unbounded l) with
      | inr rows => Some (List.length rows)
      | inl _ => None
      end
  | None => None
  end.

(** The [id]s of the rows in [data], in order. *)
Definition ids (r : Response) : list Value := map (field "id") (data r).

End Run.

(* ------------------------------------------------------------------ *)
(** ** The listing endpoints *)

Module Listing.
Import Sql Http.

(** The paginated listing endpoints. *)
Inductive Endpoint : Type :=
| Subjects            (* GET /subjects *)
| SubjectClasses      (* GET /subjects/:id/classes *)
| SubjectUsers        (* GET /subjects/:id/users *)
| Departments         (* GET /departments *)
| Classes             (* GET /classes *)
| Users               (* GET /users *)
| UserDepartments     (* GET /users/:id/departments *)
| UserSubjects.       (* GET /users/:id/subjects *)

Definition handler (e : Endpoint) : Request -> M Response :=
  match e with
  | Subjects => SubjectsRoutes.get_subjects
  | SubjectClasses => SubjectsRoutes.get_subject_classes
  | SubjectUsers => SubjectsRoutes.get_subject_users
  | Departments => DepartmentsRoutes.get_departments
  | Classes => ClassesRoutes.get_classes
  | Users => UsersRoutes.get_users
  | UserDepartments => UsersRoutes.get_user_departments
  | UserSubjects => UsersRoutes.get_user_subjects
  end.





(** The query both handlers under /users/:id start with. *)
Definition user_lookup (userId : option string) : Select :=
  select [Field "id" (user, "id"); Field "role" (user, "role")] user
  |> where_ (Some (EqParam (user, "id") (str_or_null userId))).

(** The two queries of GET /subjects/:id, for the path id read as [n]. *)
Definition subject_detail (n : JS.number) : Select :=
  select [Spread subjects; Nested "department" departments] subjects
  |> leftJoin departments (Eq (subjects, "departmentId") (departments, "id"))
  |> where_ (Some (EqParam (subjects, "id") (VNum n))).

Definition subject_count (n : JS.number) : Select :=
  select [CountStar "count"] subjects
  |> where_ (Some (EqParam (subjects, "id") (VNum n))).






(** A key column: no two rows carry the same value in it. *)
Fixpoint unique_key (col : string) (rows : list Row) : bool :=
  match rows with
  | [] => true
  | r :: rest =>
      forallb (fun r' => negb (same_value (prop col r) (prop col r'))) rest
      && unique_key col rest
  end.

End Listing.

(* ------------------------------------------------------------------ *)
(** ** All routes *)

Module Routes.
Import Sql Http.

(** The routes of the three routers and of the users router. *)
Inductive Route : Type :=
| GetSubjects | PostSubjects | GetSubject | GetSubjectClasses | GetSubjectUsers
| GetDepartments
| GetClasses | GetClass | PostClasses
| GetUsers | GetUser | GetUserDepartments | GetUserSubjects.

(** The handler of a route; [rnd] is the draw of [Math.random()] that only
    POST /classes makes. *)
Definition serve (r : Route) (rnd : ClassesRoutes.Random) : Request -> M Response :=
  match r with
  | GetSubjects => SubjectsRoutes.get_subjects
  | PostSubjects => SubjectsRoutes.post_subjects
  | GetSubject => SubjectsRoutes.get_subject
  | GetSubjectClasses => SubjectsRoutes.get_subject_classes
  | GetSubjectUsers => SubjectsRoutes.get_subject_users
  | GetDepartments => DepartmentsRoutes.get_departments
  | GetClasses => ClassesRoutes.get_classes
  | GetClass => ClassesRoutes.get_class
  | PostClasses => ClassesRoutes.post_classes rnd
  | GetUsers => UsersRoutes.get_users
  | GetUser => UsersRoutes.get_user
  | GetUserDepartments => UsersRoutes.get_user_departments
  | GetUserSubjects => UsersRoutes.get_user_subjects
  end.

Definition is_post (r : Route) : bool :=
  match r with
  | PostSubjects | PostClasses => true
  | _ => false
  end.

(** The routes that read a numeric id from the path. *)
Definition numeric_id (r : Route) : bool :=
  match r with
  | GetSubject | GetSubjectClasses | GetSubjectUsers | GetClass => true
  | _ => false
  end.

Definition is_select (s : Stmt) : bool :=
  match s with SelectStmt _ => true | InsertStmt _ => false end.



End Routes.

(* ------------------------------------------------------------------ *)
(** ** Reading joined rows *)

Module Joined.
Import Sql Http.

(** A joined row, or null where the left join found no partner. *)
Definition embed (o : option Row) : Value :=
  match o with
  | Some r => VObj r
  | None => VNull
  end.

(** The first partner a left join finds for the row [e]. *)
Definition first_partner (d : Database) (e : Env) (j : Table * Cond) : option Row :=
  find (fun r => holds (snd j) (e ++ [(fst j, Some r)])) (d (fst j)).

(** The first row a chain of left joins makes of the row [e]. *)
Definition first_row (d : Database) (js : list (Table * Cond)) (e : Env) : Env :=
  fold_left (fun e' j => e' ++ [(fst j, first_partner d e' j)]) js e.

(** The row of the table [t] stands first in the joined row. *)
Definition based (t : Table) (e : Env) : Prop :=
  exists (r : option Row) (rest : Env), e = (t, r) :: rest.

(** [v ILIKE pattern], false on NULL. *)
Definition text_ilike (v : Value) (pattern : string) : bool :=
  match v with
  | VStr s => Like.ilike s pattern
  | _ => false
  end.

(** The users that GET /users counts for a request: those whose name or
    email matches the search text, when there is one, and whose role is the
    role asked for, when there is one. *)
Definition user_filter (req : Request) (u : Row) : bool :=
  match truthy (lookup "search" (query req)) with
  | Some s => text_ilike (prop "name" u) (Like.wrap s)
              || text_ilike (prop "email" u) (Like.wrap s)
  | None => true
  end
  && match truthy (lookup "role" (query req)) with
     | Some r => row_matches "role" (VStr r) u
     | None => true
     end.

(** The departments that GET /departments counts for a request. *)
Definition department_filter (req : Request) (r : Row) : bool :=
  match truthy (lookup "search" (query req)) with
  | Some s => text_ilike (prop "name" r) (Like.wrap s)
              || text_ilike (prop "code" r) (Like.wrap s)
  | None => true
  end.

End Joined.

(* ------------------------------------------------------------------ *)
(** ** Properties *)

Example toNumber_samples :
  map JS.toNumber ["10"; " 7 "; ""; "abc"; "-3"; "2.5"; "1e3"; "0x10"; "Infinity"; "1e999"; "12px"; "."; "+.5e1"]
  = [JS.Fin 10; JS.Fin 7; JS.Fin 0; JS.NaN; JS.Fin (-3); JS.Fin (5 # 2); JS.Fin 1000;
     JS.Fin 16; JS.PInf; JS.PInf; JS.NaN; JS.NaN; JS.Fin 5].
Proof. vm_compute. reflexivity. Qed.

Example parseInt10_samples :
  map JS.parseInt10 ["10"; " 42abc"; "abc"; ""; "-5"; "0"; "3.9"; "+8"]
  = [JS.Fin 10; JS.Fin 42; JS.NaN; JS.NaN; JS.Fin (-5); JS.Fin 0; JS.Fin 3; JS.Fin 8].
Proof. vm_compute. reflexivity. Qed.

Example ilike_samples :
  map (fun '(t, p) => Like.ilike t p)
      [("Algorithms", "%algo%"); ("Algorithms", "%x%"); ("50%-Hub", "%50\%-%");
       ("500-Hub", "%50\%-%"); ("500-Hub", "%50%-%"); ("abc", "a_c"); ("ac", "a_c");
       ("a_c", "a\_c"); ("abc", "a\_c"); ("", "%%")]
  = [true; false; true; false; true; true; false; true; false; true].
Proof. vm_compute. reflexivity. Qed.

Example escape_sample : Like.escape "50%_a\" = "50\%\_a\".
Proof. reflexivity. Qed.

Section Evaluations.
Import Sql Http Sample.

(** *** Count and list of one request *)

(** C1.  The count query and the list query of a request are meant to share
    filter and joins, so that [total] is the size of the unbounded listing.
    GET /users?role=teacher breaks this: the count query carries the role
    filter, the list query carries no filter at all, and on the sample
    catalog [total] is 1 while the listing has 3 rows. *)
Theorem get_users_total_disagrees_with_listing :
  let run := UsersRoutes.get_users (get None [("role", "teacher")]) (postgres campus) in
  option_map (fun cl => (whereCond (fst cl), whereCond (snd cl))) (Run.count_and_list (fst run))
    = Some (Some (And [EqParam (user, "role") (VStr "teacher")]), None)
  /\ option_map (Run.pagination "total") (Run.response run) = Some (int 1)
  /\ Run.listing_size campus (fst run) = Some 3%nat.
Proof. vm_compute. repeat split. Qed.

(** The teacher branch of GET /subjects/:id/users counts over [classes]
    joined to [classes], not over [user] joined to [classes] as its list
    query does; the engine rejects the count query and the request ends in
    500 before any listing is made. *)
Lemma get_subject_users_teacher_count_is_rejected :
  let run := SubjectsRoutes.get_subject_users (get (Some "10") [("role", "teacher")])
                                              (postgres campus) in
  map (fun q => (from q, map fst (joins q))) (Run.selects (fst run)) = [(classes, [classes])]
  /\ option_map status (Run.response run) = Some 500.
Proof. vm_compute. repeat split. Qed.

(** The student branch of the same endpoint does what the scenario of the
    specification expects. *)
Lemma get_subject_users_student_scenario :
  let run := SubjectsRoutes.get_subject_users (get (Some "10") [("role", "student")])
                                              (postgres campus) in
  option_map Run.ids (Run.response run) = Some [VStr "s1"]
  /\ option_map (Run.pagination "total") (Run.response run) = Some (int 1)
  /\ Run.listing_size campus (fst run) = Some 1%nat.
Proof. vm_compute. repeat split. Qed.

(** *** Pagination *)


(** *** Wildcards *)

(** C3.  The free-text search parameter is embedded without escaping:
    searching the departments for [50%-Hub] also returns the department
    named [500-Hub], its percent sign acting as a wildcard.  The department
    filter of GET /subjects, which escapes, returns only the subject of the
    department literally named [50%-Hub]. *)
Theorem search_text_acts_as_wildcard :
  option_map Run.ids
    (Run.response (DepartmentsRoutes.get_departments (get None [("search", "50%-Hub")])
                                                     (postgres hubs)))
    = Some [int 2; int 1]
  /\ option_map Run.ids
       (Run.response (SubjectsRoutes.get_subjects (get None [("department", "50%-Hub")])
                                                  (postgres hubs)))
     = Some [int 10].
Proof. vm_compute. repeat split. Qed.

(** The escaping leaves a backslash of the input alone, so a backslash in
    front of a percent sign turns into an escaped backslash followed by a
    live wildcard: the filter text [\%] matches a name that has a backslash
    but no percent sign. *)
Lemma escaped_backslash_frees_wildcard :
  Like.escape "\%" = "\\%"
  /\ Like.ilike "R\D" (Like.wrap (Like.escape "\%")) = true.
Proof. vm_compute. repeat split. Qed.

(** *** Unknown ids *)

(** C5.  The listings under a subject do not look the subject up: for the
    subject id 999, which the sample catalog does not have, both answer 200
    with an empty page instead of 404. *)
Theorem subject_listings_of_unknown_subject_answer_200 :
  let classes_run := SubjectsRoutes.get_subject_classes (get (Some "999") []) (postgres campus) in
  let users_run := SubjectsRoutes.get_subject_users (get (Some "999") [("role", "student")])
                                                    (postgres campus) in
  option_map (fun r => (status r, Run.data r, Run.pagination "total" r))
             (Run.response classes_run) = Some (200, [], int 0)
  /\ option_map (fun r => (status r, Run.data r, Run.pagination "total" r))
                (Run.response users_run) = Some (200, [], int 0).
Proof. vm_compute. repeat split. Qed.

(** The detail endpoints and the listings under a user do answer 404 for an
    id that is not stored. *)
Lemma unknown_ids_elsewhere_answer_404 :
  map (fun run => option_map status (Run.response run))
      [SubjectsRoutes.get_subject (get (Some "999") []) (postgres campus);
       ClassesRoutes.get_class (get (Some "999") []) (postgres campus);
       UsersRoutes.get_user (get (Some "nobody") []) (postgres campus);
       UsersRoutes.get_user_departments (get (Some "nobody") []) (postgres campus);
       UsersRoutes.get_user_subjects (get (Some "nobody") []) (postgres campus)]
  = [Some 404; Some 404; Some 404; Some 404; Some 404].
Proof. vm_compute. reflexivity. Qed.

(** *** Storage failures *)

(** C7.  GET /classes/:id has no try/catch: a storage failure leaves the
    handler as an uncaught exception, with nothing logged and no response
    sent.  POST /classes catches and logs, but puts the caught error itself
    into the body of its 500 response. *)
Theorem class_handlers_mishandle_storage_errors :
  forall (e : Exn) (r : ClassesRoutes.Random) (req : Request),
    let detail := ClassesRoutes.get_class (get (Some "100") []) (failing e) in
    let create := ClassesRoutes.post_classes r req (failing e) in
    snd detail = inl e
    /\ logged (fst detail) = []
    /\ snd create = inr (json 500 [("error", VExn e)])
    /\ logged (fst create) = [("POST /classes error ", e)].
Proof. intros e r req. repeat split. Qed.

(** *** Validation *)

(** C8.  GET /users sends its [role] filter to the storage unchecked:
    whatever the engine, the first thing the handler does with
    [role=bogus] is to issue the count query with that value bound. *)
Theorem get_users_binds_unchecked_role :
  forall eng : Engine,
    exists rest,
      issued (fst (UsersRoutes.get_users (get None [("role", "bogus")]) eng))
      = SelectStmt (select [CountStar "count"] user
                    |> where_ (Some (And [EqParam (user, "role") (VStr "bogus")])))
        :: rest.
Proof.
  intro eng.
  unfold UsersRoutes.get_users, try_catch, bind, exec. cbn.
  destruct (eng _) as [e | rows]; cbn.
  - eexists. reflexivity.
  - destruct (eng _); cbn; eexists; reflexivity.
Qed.

(** The endpoint that requires a role rejects the same value with 400
    before anything is issued, and a path id that is not a number is
    rejected likewise. *)
Lemma invalid_role_and_id_rejected_before_storage :
  forall eng : Engine,
    SubjectsRoutes.get_subject_users (get (Some "10") [("role", "bogus")]) eng
    = ([], inr (json 400 [("error", VStr "Invalid role")]))
    /\ SubjectsRoutes.get_subject (get (Some "abc") []) eng
       = ([], inr (json 400 [("error", VStr "Invalid subject id.")])).
Proof. intro eng. split; reflexivity. Qed.

End Evaluations.

(* ------------------------------------------------------------------ *)
(** ** Objects and lists *)

Lemma obj_get_app (k : string) (o o' : Obj) :
  obj_get k (o ++ o') =
  match obj_get k o' with
  | Some v => Some v
  | None => obj_get k o
  end.
Proof.
  induction o as [| [k' v] o IH]; simpl.
  - destruct (obj_get k o'); reflexivity.
  - rewrite IH. destruct (obj_get k o'); reflexivity.
Qed.

Lemma prop_app_miss (k : string) (o o' : Obj) :
  obj_get k o' = None -> prop k (o ++ o') = prop k o.
Proof. intro H. unfold prop. rewrite obj_get_app, H. reflexivity. Qed.

Lemma filter_map_swap {A B : Type} (f : A -> B) (p : B -> bool) (l : list A) :
  filter p (map f l) = map f (filter (fun a => p (f a)) l).
Proof.
  induction l as [| a l IH]; simpl; [reflexivity |].
  destruct (p (f a)); simpl; rewrite IH; reflexivity.
Qed.

Lemma find_filter_head {A : Type} (p : A -> bool) (l : list A) (a : A) :
  find p l = Some a -> exists rest, filter p l = a :: rest.
Proof.
  induction l as [| x l IH]; simpl; [discriminate |].
  destruct (p x) eqn:E.
  - intro H. injection H as ->. eexists. reflexivity.
  - exact IH.
Qed.

(* ------------------------------------------------------------------ *)
(** ** The invite code *)

Section InviteCode.
Import ClassesRoutes.







End InviteCode.

Section Creation.
Import Sql Http ClassesRoutes.


End Creation.
Section EngineFacts.
Import Sql Http Listing.

Lemma sort_desc_unordered (gs : list Group) : sort_desc [] gs = gs.
Proof.
  induction gs as [| g gs IH]; simpl; [reflexivity |].
  rewrite IH. destruct gs; reflexivity.
Qed.

Lemma run_user_lookup (d : Database) (userId : option string) :
  run_select d (user_lookup userId)
  = inr (map (fun r => [("id", prop "id" r); ("role", prop "role" r)])
             (filter (row_matches "id" (str_or_null userId)) (d user))).
Proof.
  unfold run_select.
  replace (well_formed (user_lookup userId)) with true
    by (destruct userId; reflexivity).
  f_equal.
  unfold matching, groups, scan. cbn -[prop sql_eq].
  fold (sort_desc [] (map (fun e : Env => (e, [e]))
          (filter
             (holds_opt (Some (EqParam (user, "id") (str_or_null userId))))
             (map (fun r : Row => [(user, Some r)]) (d user))))).
  rewrite sort_desc_unordered, filter_map_swap, !map_map.
  reflexivity.
Qed.

Lemma role_of_record (u : Row) (r : string) :
  UsersRoutes.role_is_not [("id", prop "id" u); ("role", prop "role" u)] r
  = UsersRoutes.role_is_not u r.
Proof. reflexivity. Qed.

End EngineFacts.

Section Roles.
Import Sql Http Listing Sample.

(** C4.  A role outside teacher and student (or no role at all) gets 400
    from GET /subjects/:id/users, before anything is issued.  For a stored
    user whose role is neither teacher nor student, GET /users/:id/subjects
    and GET /users/:id/departments issue the user lookup and nothing else,
    and answer 200 with the empty envelope: no data, total 0, totalPages 0
    and limit 0. *)
Theorem unrecognized_role_responses :
  forall (eng : Engine) (d : Database) (req_s req_u : Request) (id : string) (u : Row),
    strict_eq (lookup "role" (query req_s)) "teacher" = false ->
    strict_eq (lookup "role" (query req_s)) "student" = false ->
    lookup "id" (params req_u) = Some id ->
    find (row_matches "id" (VStr id)) (d user) = Some u ->
    UsersRoutes.role_is_not u "teacher" = true ->
    UsersRoutes.role_is_not u "student" = true ->
    (exists r, SubjectsRoutes.get_subject_users req_s eng = ([], inr r) /\ status r = 400)
    /\ UsersRoutes.get_user_subjects req_u (postgres d)
       = ([Issued (SelectStmt (user_lookup (Some id)))], inr UsersRoutes.empty_envelope)
    /\ UsersRoutes.get_user_departments req_u (postgres d)
       = ([Issued (SelectStmt (user_lookup (Some id)))], inr UsersRoutes.empty_envelope)
    /\ (status UsersRoutes.empty_envelope, Run.data UsersRoutes.empty_envelope,
        map (fun k => Run.pagination k UsersRoutes.empty_envelope)
            ["total"; "totalPages"; "limit"])
       = (200, [], [int 0; int 0; int 0]).
Proof.
  intros eng d req_s req_u id u Ht Hs Hid Hu Hnt Hns.
  apply find_filter_head in Hu as [rest Hrest].
  split; [| split; [| split]].
  - unfold SubjectsRoutes.get_subject_users, try_catch.
    destruct (JS.isFinite (Number_ (lookup "id" (params req_s)))); cbn [negb].
    + rewrite Ht, Hs. cbn. eexists. split; reflexivity.
    + cbn. eexists. split; reflexivity.
  - unfold UsersRoutes.get_user_subjects, try_catch, bind, exec.
    rewrite Hid. cbn [postgres].
    change (select _ _ |> where_ _) with (user_lookup (Some id)).
    rewrite run_user_lookup. cbn [str_or_null]. rewrite Hrest. cbn [map].
    rewrite !role_of_record, Hnt, Hns. reflexivity.
  - unfold UsersRoutes.get_user_departments, try_catch, bind, exec.
    rewrite Hid. cbn [postgres].
    change (select _ _ |> where_ _) with (user_lookup (Some id)).
    rewrite run_user_lookup. cbn [str_or_null]. rewrite Hrest. cbn [map].
    rewrite !role_of_record, Hnt, Hns. reflexivity.
  - reflexivity.
Qed.

Lemma unrecognized_role_responses_witness :
  (exists r, SubjectsRoutes.get_subject_users (get (Some "10") [("role", "admin")])
                                              (postgres campus) = ([], inr r)
             /\ status r = 400)
  /\ UsersRoutes.get_user_subjects (get (Some "a1") []) (postgres campus)
     = ([Issued (SelectStmt (user_lookup (Some "a1")))], inr UsersRoutes.empty_envelope)
  /\ UsersRoutes.get_user_departments (get (Some "a1") []) (postgres campus)
     = ([Issued (SelectStmt (user_lookup (Some "a1")))], inr UsersRoutes.empty_envelope)
  /\ (status UsersRoutes.empty_envelope, Run.data UsersRoutes.empty_envelope,
      map (fun k => Run.pagination k UsersRoutes.empty_envelope)
          ["total"; "totalPages"; "limit"])
     = (200, [], [int 0; int 0; int 0]).
Proof.
  apply (unrecognized_role_responses
           (postgres campus) campus (get (Some "10") [("role", "admin")])
           (get (Some "a1") []) "a1"
           (person "a1" "Ada" "ada@example.org" "admin" 70));
    reflexivity.
Defined.

End Roles.
Section SubjectDetail.
Import Sql Http Listing Sample.

Lemma sql_eq_number (a : Value) (q : Q) :
  sql_eq a (VNum (JS.Fin q)) = Some true ->
  exists qa, a = VNum (JS.Fin qa) /\ Qeq_bool qa q = true.
Proof.
  destruct a as [| b | n | s | t | l | o | e]; simpl; try discriminate.
  destruct n as [| | | qa]; simpl; try discriminate.
  intro H. injection H as H. eauto.
Qed.

Lemma row_matches_number (col : string) (q : Q) (r : Row) :
  row_matches col (VNum (JS.Fin q)) r = true ->
  exists qa, prop col r = VNum (JS.Fin qa) /\ Qeq_bool qa q = true.
Proof.
  unfold row_matches. intro H. apply sql_eq_number.
  destruct (sql_eq _ _) as [[|] |]; congruence.
Qed.

(** Two rows that match the same number carry the same key value. *)
Lemma matches_same_value (col : string) (q : Q) (a b : Row) :
  row_matches col (VNum (JS.Fin q)) a = true ->
  row_matches col (VNum (JS.Fin q)) b = true ->
  same_value (prop col a) (prop col b) = true.
Proof.
  intros Ha Hb.
  apply row_matches_number in Ha as [qa [Ea Ha]].
  apply row_matches_number in Hb as [qb [Eb Hb]].
  rewrite Ea, Eb. simpl.
  apply Qeq_bool_iff in Ha, Hb.
  replace (Qeq_bool qa qb) with true; [reflexivity |].
  symmetry. apply Qeq_bool_iff. rewrite Ha, Hb. reflexivity.
Qed.

Lemma unique_key_no_other (col : string) (q : Q) (r : Row) (rest : list Row) :
  forallb (fun r' => negb (same_value (prop col r) (prop col r'))) rest = true ->
  row_matches col (VNum (JS.Fin q)) r = true ->
  filter (row_matches col (VNum (JS.Fin q))) rest = [].
Proof.
  intros Hall Hr. induction rest as [| x rest IH]; simpl; [reflexivity |].
  simpl in Hall. apply andb_true_iff in Hall as [Hx Hrest].
  destruct (row_matches col (VNum (JS.Fin q)) x) eqn:Ex.
  - rewrite (matches_same_value col q r x Hr Ex) in Hx. discriminate.
  - auto.
Qed.

(** Under a key, exactly one row matches a value that some row carries. *)
Lemma unique_key_one_match (col : string) (q : Q) (rows : list Row) (s : Row) :
  unique_key col rows = true ->
  In s rows ->
  row_matches col (VNum (JS.Fin q)) s = true ->
  List.length (filter (row_matches col (VNum (JS.Fin q))) rows) = 1%nat.
Proof.
  induction rows as [| r rows IH]; intros Hkey Hin Hs; [destruct Hin |].
  simpl in Hkey. apply andb_true_iff in Hkey as [Hr Hrows].
  simpl. destruct (row_matches col (VNum (JS.Fin q)) r) eqn:Er.
  - rewrite (unique_key_no_other col q r rows Hr Er). reflexivity.
  - destruct Hin as [-> | Hin]; [congruence | auto].
Qed.

Lemma run_subject_count (d : Database) (z : Z) :
  run_select d (subject_count (JS.Fin (inject_Z z)))
  = inr [[("count",
           count (List.length (filter (row_matches "id" (int z)) (d subjects))))]].
Proof.
  unfold run_select.
  replace (well_formed _) with true by reflexivity.
  f_equal.
  unfold matching, groups, scan. cbn -[prop sql_eq inject_Z].
  rewrite filter_map_swap, length_map.
  reflexivity.
Qed.

Lemma join1_extends (d : Database) (j : Table * Cond) (envs : list Env) (e : Env) :
  In e envs ->
  exists x, In (e ++ [(fst j, x)]) (join1 d envs j).
Proof.
  intro Hin. unfold join1.
  destruct (filter (fun r => holds (snd j) (e ++ [(fst j, Some r)])) (d (fst j)))
    as [| r partners] eqn:E.
  - exists None. apply in_flat_map. exists e. split; [assumption |].
    rewrite E. left. reflexivity.
  - exists (Some r). apply in_flat_map. exists e. split; [assumption |].
    rewrite E. left. reflexivity.
Qed.

Lemma run_subject_detail_found (d : Database) (z : Z) (s : Row) :
  In s (d subjects) ->
  row_matches "id" (int z) s = true ->
  exists subject rest,
    run_select d (subject_detail (JS.Fin (inject_Z z))) = inr (subject :: rest).
Proof.
  intros Hin Hs.
  unfold run_select.
  replace (well_formed _) with true by reflexivity.
  unfold matching, groups, scan. cbn -[prop sql_eq inject_Z join1].
  fold (sort_desc [] (map (fun e : Env => (e, [e]))
       (filter
          (holds_opt (Some (EqParam (subjects, "id") (VNum (JS.Fin (inject_Z z))))))
          (join1 d (map (fun r : Row => [(subjects, Some r)]) (d subjects))
             (departments, Eq (subjects, "departmentId") (departments, "id")))))).
  rewrite sort_desc_unordered.
  destruct (join1_extends d (departments, Eq (subjects, "departmentId") (departments, "id"))
              (map (fun r : Row => [(subjects, Some r)]) (d subjects))
              [(subjects, Some s)]) as [x Hx].
  { apply (in_map (fun r : Row => [(subjects, Some r)])). assumption. }
  match goal with |- context [filter ?p ?l] =>
    assert (Hf : In ([(subjects, Some s)] ++ [(departments, x)]) (filter p l))
  end.
  { apply filter_In. split; [exact Hx |]. exact Hs. }
  match goal with |- context [filter ?p ?l] => destruct (filter p l) as [| e es] end.
  - destruct Hf.
  - cbn [map]. eauto.
Qed.

(** C9.  For a stored subject, GET /subjects/:id answers 200 and its
    [totals.classes] is the count of the rows of [subjects] whose id is the
    requested one: the second statement issued is that count, over
    [subjects] alone, and with [id] a key of [subjects] its value is 1,
    whatever the [classes] table holds. *)
Theorem subject_detail_counts_subject_rows :
  forall (d : Database) (req : Request) (id : string) (z : Z) (s : Row),
    lookup "id" (params req) = Some id ->
    JS.toNumber id = JS.Fin (inject_Z z) ->
    unique_key "id" (d subjects) = true ->
    In s (d subjects) ->
    row_matches "id" (int z) s = true ->
    exists subject : Row,
      SubjectsRoutes.get_subject req (postgres d)
      = ([Issued (SelectStmt (subject_detail (JS.Fin (inject_Z z))));
          Issued (SelectStmt (subject_count (JS.Fin (inject_Z z))))],
         inr (json 200
                [("data", VObj [("subject", VObj subject);
                                ("totals", VObj [("classes", int 1)])])]))
      /\ from (subject_count (JS.Fin (inject_Z z))) = subjects
      /\ joins (subject_count (JS.Fin (inject_Z z))) = [].
Proof.
  intros d req id z s Hid Hnum Hkey Hin Hs.
  destruct (run_subject_detail_found d z s Hin Hs) as [subject [rest Hfound]].
  exists subject. split; [| split; reflexivity].
  unfold SubjectsRoutes.get_subject, try_catch, bind, exec.
  rewrite Hid. cbn [Number_]. rewrite Hnum. cbn [JS.isFinite negb postgres].
  change (select [Spread subjects; Nested "department" departments] subjects
          |> leftJoin departments (Eq (subjects, "departmentId") (departments, "id"))
          |> where_ (Some (EqParam (subjects, "id") (VNum (JS.Fin (inject_Z z))))))
    with (subject_detail (JS.Fin (inject_Z z))).
  rewrite Hfound.
  change (select [CountStar "count"] subjects
          |> where_ (Some (EqParam (subjects, "id") (VNum (JS.Fin (inject_Z z))))))
    with (subject_count (JS.Fin (inject_Z z))).
  cbn [postgres].
  rewrite run_subject_count.
  pose proof (unique_key_one_match "id" (inject_Z z) (d subjects) s Hkey Hin Hs) as Hone.
  change (VNum (JS.Fin (inject_Z z))) with (int z) in Hone.
  rewrite Hone. reflexivity.
Qed.

Lemma subject_detail_counts_subject_rows_witness :
  exists subject : Row,
    SubjectsRoutes.get_subject (get (Some "10") []) (postgres campus)
    = ([Issued (SelectStmt (subject_detail (JS.Fin (inject_Z 10))));
        Issued (SelectStmt (subject_count (JS.Fin (inject_Z 10))))],
       inr (json 200
              [("data", VObj [("subject", VObj subject);
                              ("totals", VObj [("classes", int 1)])])]))
    /\ from (subject_count (JS.Fin (inject_Z 10))) = subjects
    /\ joins (subject_count (JS.Fin (inject_Z 10))) = [].
Proof.
  apply (subject_detail_counts_subject_rows
           campus (get (Some "10") []) "10" 10 (subject 10 1 "CS201" "Algorithms" 200)).
  - reflexivity.
  - vm_compute. reflexivity.
  - reflexivity.
  - simpl. left. reflexivity.
  - reflexivity.
Defined.

End SubjectDetail.
(* ------------------------------------------------------------------ *)
(** ** Ordering of the listings *)

Section Ordering.
Import Sql Http Listing.














End Ordering.
Section OrderedListings.
Import Sql Http Listing.

Lemma shows_base_column (t : Table) (k : string) (rest : list Item) (g : Group) :
  (forall o, prop k (fold_left (project_item g) rest o) = prop k o) ->
  prop k (project (Spread t :: rest) g) = cell (fst g) (t, k).
Proof.
  intro Hrest. unfold project. simpl fold_left. rewrite Hrest.
  unfold cell. simpl fst. simpl snd.
  destruct (env_get t (fst g)) as [[r |] |]; reflexivity.
Qed.

Lemma data_of_page (s : Z) (rows : list Row) (p : Value) :
  Run.data (json s [("data", rows_value rows); ("pagination", p)]) = map VObj rows.
Proof. reflexivity. Qed.

Lemma data_of_error (s : Z) (k : string) (v : Value) :
  k <> "data" -> Run.data (json s [(k, v)]) = [].
Proof.
  intro Hk. unfold Run.data, Run.field, json, prop. cbn [payload obj_get].
  destruct (String.eqb_spec k "data"); [contradiction | reflexivity].
Qed.
















End OrderedListings.
(* ------------------------------------------------------------------ *)
(** ** Pagination on the clamping path *)

Section Clamping.
Import Sql Http.

(** [Math.min(Math.max(1, x || 10), 100)] is a finite number between 1 and
    100, whatever [x] is. *)
Lemma clamp_in_range (x : JS.number) :
  exists q : Q,
    JS.min (JS.max (JS.Fin 1) (JS.or_else x (JS.Fin 10))) (JS.Fin 100) = JS.Fin q
    /\ (1 <= q)%Q /\ (q <= 100)%Q.
Proof.
  destruct x as [| | | q]; try (eexists; split; [reflexivity | split; discriminate]).
  unfold JS.or_else, JS.truthy.
  destruct (Qeq_bool q 0) eqn:E0; cbn [negb].
  - eexists; split; [reflexivity | split; discriminate].
  - unfold JS.max, JS.leb.
    destruct (Qle_bool 1 q) eqn:E1.
    + unfold JS.min, JS.leb.
      destruct (Qle_bool q 100) eqn:E100.
      * exists q. apply Qle_bool_iff in E1, E100. auto.
      * eexists; split; [reflexivity | split; discriminate].
    + eexists; split; [reflexivity | split; discriminate].
Qed.

(** GET /subjects and GET /users, the two handlers with [parseInt], a
    fallback and [Math.min]: whatever the request and the engine, every
    query they send with a limit has a limit between 1 and 100. *)
Lemma parsing_handlers_clamp_limit (req : Request) (eng : Engine) :
  Forall (fun q => forall n, limit q = Some n ->
                   exists x : Q, n = JS.Fin x /\ (1 <= x)%Q /\ (x <= 100)%Q)
         (Run.selects (fst (SubjectsRoutes.get_subjects req eng))
          ++ Run.selects (fst (UsersRoutes.get_users req eng))).
Proof.
  apply Forall_app. split.
  - unfold SubjectsRoutes.get_subjects, try_catch, bind, exec, ret, console_error.
    destruct (eng _) as [e | rows]; cbn [fst snd app].
    + repeat constructor. intros n Hn. discriminate Hn.
    + destruct (eng _) as [e | rows']; cbn [fst snd app].
      all: repeat (apply Forall_cons; [| try apply Forall_nil]).
      all: intros n Hn; try discriminate Hn.
      all: injection Hn as <-; apply clamp_in_range.
  - unfold UsersRoutes.get_users, try_catch, bind, exec, ret, console_error.
    destruct (eng _) as [e | rows]; cbn [fst snd app].
    + repeat constructor. intros n Hn. discriminate Hn.
    + destruct (eng _) as [e | rows']; cbn [fst snd app].
      all: repeat (apply Forall_cons; [| try apply Forall_nil]).
      all: intros n Hn; try discriminate Hn.
      all: injection Hn as <-; apply clamp_in_range.
Qed.

End Clamping.
Section Failures.
Import Sql Http Listing.



End Failures.
(* ------------------------------------------------------------------ *)
(** ** Count and list over one filter and one set of joins *)

Section CountAndList.
Import Sql Http Listing.

Lemma insert_desc_length (cols : list Column) (g : Group) (l : list Group) :
  List.length (insert_desc cols g l) = S (List.length l).
Proof.
  induction l as [| a l IH]; simpl; [reflexivity |].
  destruct (desc_leb _ _); simpl; congruence.
Qed.

Lemma sort_desc_length (cols : list Column) (gs : list Group) :
  List.length (sort_desc cols gs) = List.length gs.
Proof.
  induction gs as [| g gs IH]; simpl; [reflexivity |].
  rewrite insert_desc_length. congruence.
Qed.

Lemma run_count_star (d : Database) (c : Select) (rc : list Row) :
  fields c = Some [CountStar "count"] ->
  groupBy c = [] -> limit c = None -> offset c = None ->
  run_select d c = inr rc ->
  first_count rc = count (List.length (matching d c)).
Proof.
  intros Hf Hg Hlim Hoff Hc.
  unfold run_select in Hc.
  destruct (well_formed c); [| discriminate].
  injection Hc as <-.
  rewrite Hlim, Hoff. unfold groups, selection. rewrite Hf, Hg.
  reflexivity.
Qed.

Lemma run_unbounded_plain (d : Database) (l : Select) (rl : list Row) :
  groupBy l = [] -> existsb is_aggregate (selection l) = false ->
  run_select d (unbounded l) = inr rl ->
  List.length rl = List.length (matching d l).
Proof.
  intros Hgl Hagg Hl.
  unfold run_select in Hl.
  destruct (well_formed (unbounded l)); [| discriminate].
  injection Hl as <-.
  change (offset (unbounded l)) with (@None JS.number).
  change (limit (unbounded l)) with (@None JS.number).
  change (matching d (unbounded l)) with (matching d l).
  unfold groups.
  change (groupBy (unbounded l)) with (groupBy l).
  change (selection (unbounded l)) with (selection l).
  rewrite Hgl, Hagg.
  unfold window. cbn [to_nat skipn].
  rewrite length_map, sort_desc_length, length_map. reflexivity.
Qed.

(** The engine counts with [count star] exactly the rows that a query over
    the same table, joins and filter lists when it is neither grouped nor
    bounded. *)
Lemma count_star_is_listing_size (d : Database) (c l : Select) (rc rl : list Row) :
  fields c = Some [CountStar "count"] ->
  groupBy c = [] -> limit c = None -> offset c = None ->
  from c = from l -> joins c = joins l -> whereCond c = whereCond l ->
  groupBy l = [] -> existsb is_aggregate (selection l) = false ->
  run_select d c = inr rc ->
  run_select d (unbounded l) = inr rl ->
  first_count rc = count (List.length rl).
Proof.
  intros Hf Hg Hlim Hoff Hfrom Hjoins Hwhere Hgl Hagg Hc Hl.
  rewrite (run_count_star d c rc Hf Hg Hlim Hoff Hc).
  rewrite (run_unbounded_plain d l rl Hgl Hagg Hl).
  unfold matching. rewrite Hfrom, Hjoins, Hwhere. reflexivity.
Qed.

Ltac same_plan d :=
  unfold try_catch, bind, exec, ret, console_error;
  cbn [postgres];
  repeat
    first
      [ progress cbn [postgres]
      | match goal with
        | |- context [run_select d ?q] =>
            let H := fresh "Hrun" in destruct (run_select d q) as [? | ?] eqn:H
        end ];
  cbn [fst snd app];
  intros resp n Hresp Hstatus Hsize;
  injection Hresp as <-;
  try discriminate Hstatus;
  unfold Run.listing_size in Hsize;
  match type of Hsize with
  | context [Run.count_and_list ?t] =>
      let cl := eval cbv [Run.count_and_list Run.selects issued flat_map app rev] in
                (Run.count_and_list t) in
      change (Run.count_and_list t) with cl in Hsize
  end;
  cbv iota beta in Hsize;
  match type of Hsize with
  | context [run_select d (unbounded ?l)] =>
      let H := fresh "Hall" in
      destruct (run_select d (unbounded l)) as [? | ?] eqn:H;
      [ discriminate Hsize | ];
      injection Hsize as <-;
      match goal with
      | Hc : run_select d ?c = inr ?rc |- context [first_count ?rc] =>
          change (Run.pagination "total" _) with (first_count rc);
          apply (count_star_is_listing_size d c l); auto
      end
  end.

(** GET /subjects and GET /classes build both queries over one filter and
    one chain of joins: whenever they answer 200, [total] is the number of
    rows the list query has without its limit and offset. *)
Lemma total_is_listing_size (req : Request) (d : Database) :
  forall run,
    In run [SubjectsRoutes.get_subjects req (postgres d);
            ClassesRoutes.get_classes req (postgres d)] ->
    forall (resp : Response) (n : nat),
      snd run = inr resp -> status resp = 200 ->
      Run.listing_size d (fst run) = Some n ->
      Run.pagination "total" resp = count n.
Proof.
  intros run [<- | [<- | []]].
  - unfold SubjectsRoutes.get_subjects. same_plan d.
  - unfold ClassesRoutes.get_classes. same_plan d.
Qed.

End CountAndList.
(* ------------------------------------------------------------------ *)
(** ** Escaped filters *)

Section Escaping.
Import Like.

Lemma like_escaped (e : ascii) (p t : list ascii) :
  like ("\"%char :: e :: p) t =
  match t with
  | [] => false
  | x :: t' => (Ascii.eqb x e && like p t')%bool
  end.
Proof. reflexivity. Qed.

Lemma like_literal (c : ascii) (p t : list ascii) :
  Ascii.eqb c "%" = false -> Ascii.eqb c "_" = false -> Ascii.eqb c "\" = false ->
  like (c :: p) t =
  match t with
  | [] => false
  | x :: t' => (Ascii.eqb x c && like p t')%bool
  end.
Proof. intros H1 H2 H3. simpl. rewrite H1, H2, H3. reflexivity. Qed.

Lemma like_any (p t : list ascii) :
  like ("%"%char :: p) t =
  (like p t || match t with [] => false | _ :: t' => like ("%"%char :: p) t' end)%bool.
Proof. destruct t; reflexivity. Qed.

Lemma like_any_iff (p t : list ascii) :
  like ("%"%char :: p) t = true <->
  exists pre post, t = pre ++ post /\ like p post = true.
Proof.
  induction t as [| x t IH]; rewrite like_any.
  - rewrite orb_false_r. split.
    + intro H. exists [], []. auto.
    + intros [pre [post [E H]]]. symmetry in E. apply app_eq_nil in E as [_ ->]. exact H.
  - rewrite orb_true_iff, IH. split.
    + intros [H | [pre [post [-> H]]]].
      * exists [], (x :: t). auto.
      * exists (x :: pre), post. auto.
    + intros [[| y pre] [post [E H]]].
      * left. simpl in E. subst post. exact H.
      * right. injection E as -> ->. eauto.
Qed.

Lemma like_rest (t : list ascii) : like ["%"%char] t = true.
Proof.
  induction t as [| x t IH]; [reflexivity |].
  rewrite like_any, IH. apply orb_true_r.
Qed.

(** The escaped text matches itself and nothing else. *)
Lemma like_escape_chars (s p t : list ascii) :
  no_backslash s = true ->
  like (escape_chars s ++ p) t = true <->
  exists t', t = s ++ t' /\ like p t' = true.
Proof.
  revert t. induction s as [| c s IH]; intros t Hs.
  - simpl. split; [eauto | intros [t' [-> H]]; exact H].
  - simpl in Hs. apply andb_true_iff in Hs as [Hc Hs].
    apply negb_true_iff in Hc.
    assert (Hstep : like (escape_chars (c :: s) ++ p) t =
                    match t with
                    | [] => false
                    | x :: t' => (Ascii.eqb x c && like (escape_chars s ++ p) t')%bool
                    end).
    { cbn [escape_chars].
      destruct (Ascii.eqb c "%") eqn:E1; [reflexivity |].
      destruct (Ascii.eqb c "_") eqn:E2; [reflexivity |].
      cbn [orb app]. apply like_literal; assumption. }
    rewrite Hstep. destruct t as [| x t].
    + split; [discriminate | intros [t' [E _]]; discriminate E].
    + rewrite andb_true_iff, Ascii.eqb_eq, (IH t Hs). split.
      * intros [-> [t' [-> H]]]. exists t'. split; [reflexivity | exact H].
      * intros [t' [E H]]. injection E as -> ->.
        split; [reflexivity |]. exists t'. split; [reflexivity | exact H].
Qed.

Lemma lower_escape_chars (s : list ascii) :
  map lower (escape_chars s) = escape_chars (map lower s).
Proof.
  induction s as [| c s IH]; [reflexivity |].
  cbn [escape_chars map]. rewrite <- IH.
  destruct c as [[] [] [] [] [] [] [] []]; reflexivity.
Qed.

Lemma lower_no_backslash (s : list ascii) :
  no_backslash s = true -> no_backslash (map lower s) = true.
Proof.
  unfold no_backslash. induction s as [| c s IH]; [reflexivity |].
  cbn [forallb map]. rewrite !andb_true_iff. intros [Hc Hs]. split; [| auto].
  revert Hc. destruct c as [[] [] [] [] [] [] [] []]; simpl; congruence.
Qed.

Lemma list_ascii_of_append (a b : string) :
  list_ascii_of_string (a ++ b) = list_ascii_of_string a ++ list_ascii_of_string b.
Proof. induction a as [| c a IH]; simpl; congruence. Qed.

(** A filter that escapes is a plain case-insensitive substring test, as
    long as the text it is given has no backslash: the percent signs and
    underscores of the text stand for themselves. *)
Lemma escaped_filter_is_substring_test (s text : string) :
  no_backslash (list_ascii_of_string s) = true ->
  ilike text (wrap (escape s)) = true <->
  exists pre post,
    map lower (list_ascii_of_string text)
    = pre ++ map lower (list_ascii_of_string s) ++ post.
Proof.
  intro Hs. unfold ilike, wrap, escape.
  rewrite !list_ascii_of_append, list_ascii_of_string_of_list_ascii.
  rewrite !map_app, lower_escape_chars.
  change (map lower (list_ascii_of_string "%")) with ["%"%char].
  cbn [app]. rewrite like_any_iff. split.
  - intros [pre [post [E H]]].
    apply like_escape_chars in H as [t' [-> _]]; [eauto | apply lower_no_backslash, Hs].
  - intros [pre [post E]]. exists pre, (map lower (list_ascii_of_string s) ++ post).
    split; [exact E |].
    apply like_escape_chars; [apply lower_no_backslash, Hs |].
    exists post. split; [reflexivity | apply like_rest].
Qed.

End Escaping.

(* ------------------------------------------------------------------ *)
(** ** What every route does with the storage *)

Ltac unfold_route :=
  unfold Routes.serve,
    SubjectsRoutes.get_subjects, SubjectsRoutes.post_subjects, SubjectsRoutes.get_subject,
    SubjectsRoutes.get_subject_classes, SubjectsRoutes.get_subject_users,
    DepartmentsRoutes.get_departments,
    ClassesRoutes.get_classes, ClassesRoutes.get_class, ClassesRoutes.post_classes,
    UsersRoutes.get_users, UsersRoutes.get_user,
    UsersRoutes.get_user_departments, UsersRoutes.get_user_subjects,
    Http.try_catch, Http.bind, Http.exec, Http.ret, Http.throw, Http.console_error.

(** Case analysis on everything a run branches on: the answers of the
    engine [eng], the rows it returned and the tests of the handler. *)
Ltac walk eng :=
  repeat
    match goal with
    | |- context [eng ?s] => destruct (eng s) as [? | ?]
    | |- context [match ?l with [] => _ | _ :: _ => _ end] => is_var l; destruct l
    | |- context [if ?b then _ else _] => destruct b
    end.

Section Statements.
Import Sql Http Routes.

(** A GET route only reads: whatever the request and whatever the engine
    answers, it issues selects, three at most.  A POST route issues one
    statement, an insert. *)
Theorem routes_read_or_insert_once :
  forall (r : Route) (rnd : ClassesRoutes.Random) (req : Request) (eng : Engine),
    let stmts := issued (fst (serve r rnd req eng)) in
    if is_post r
    then exists i : Insert, stmts = [InsertStmt i]
    else forallb is_select stmts = true /\ (List.length stmts <= 3)%nat.
Proof.
  intros r rnd req eng.
  destruct r; cbn [is_post]; unfold_route; walk eng; cbn [fst snd app];
    first [ eexists; reflexivity | split; [reflexivity | cbn; lia] ].
Qed.

End Statements.

Section Paging.
Import Sql Http Listing.



End Paging.

Section PathIds.
Import Sql Http Routes.

(** A path id that does not read as a finite number is refused with 400
    before anything is sent to the storage, on each of the four routes
    that take a numeric id. *)
Theorem malformed_id_is_refused :
  forall (r : Route) (rnd : ClassesRoutes.Random) (req : Request) (eng : Engine),
    numeric_id r = true ->
    JS.isFinite (Number_ (lookup "id" (params req))) = false ->
    exists msg : string,
      serve r rnd req eng = ([], inr (json 400 [("error", VStr msg)])).
Proof.
  intros r rnd req eng Hr Hid.
  destruct r; try discriminate Hr; unfold_route; rewrite Hid; cbn [negb];
    eexists; reflexivity.
Qed.

Lemma malformed_id_is_refused_witness :
  exists msg : string,
    serve GetClass [] (Sample.get (Some "12abc") []) (postgres Sample.campus)
    = ([], inr (json 400 [("error", VStr msg)])).
Proof.
  apply (malformed_id_is_refused GetClass [] (Sample.get (Some "12abc") [])
                                 (postgres Sample.campus));
    reflexivity.
Defined.

End PathIds.

Section Creating.
Import Sql Http.



(** When the insert succeeds without returning a row, both creation routes
    throw the [Error] constructor and end in 500: POST /subjects with its
    fixed message, POST /classes with the thrown value in the body. *)
Theorem creation_without_returned_row_is_500 :
  forall (r : ClassesRoutes.Random) (req : Request) (eng : Engine),
    (forall i : Insert, eng (InsertStmt i) = inr []) ->
    snd (SubjectsRoutes.post_subjects req eng)
    = inr (json 500 [("error", VStr "Failed to create subject")])
    /\ logged (fst (SubjectsRoutes.post_subjects req eng))
       = [("POST /subjects error: ", ErrorConstructor)]
    /\ snd (ClassesRoutes.post_classes r req eng)
       = inr (json 500 [("error", VExn ErrorConstructor)])
    /\ logged (fst (ClassesRoutes.post_classes r req eng))
       = [("POST /classes error ", ErrorConstructor)].
Proof.
  intros r req eng Hnone.
  unfold SubjectsRoutes.post_subjects, ClassesRoutes.post_classes,
    try_catch, bind, exec, throw.
  rewrite !Hnone. repeat split.
Qed.

Lemma creation_without_returned_row_is_500_witness :
  snd (SubjectsRoutes.post_subjects (mkRequest [] [] []) (fun _ => inr []))
  = inr (json 500 [("error", VStr "Failed to create subject")])
  /\ logged (fst (SubjectsRoutes.post_subjects (mkRequest [] [] []) (fun _ => inr [])))
     = [("POST /subjects error: ", ErrorConstructor)]
  /\ snd (ClassesRoutes.post_classes [] (mkRequest [] [] []) (fun _ => inr []))
     = inr (json 500 [("error", VExn ErrorConstructor)])
  /\ logged (fst (ClassesRoutes.post_classes [] (mkRequest [] [] []) (fun _ => inr [])))
     = [("POST /classes error ", ErrorConstructor)].
Proof.
  apply (creation_without_returned_row_is_500 [] (mkRequest [] [] []) (fun _ => inr [])).
  intro i. reflexivity.
Defined.

End Creating.

Section TotalPages.
Import Sql Http.

Lemma Qred_inject_Z (z : Z) : Qred (inject_Z z) = inject_Z z.
Proof.
  unfold Qred, inject_Z.
  pose proof (Z.ggcd_gcd z 1) as Hg.
  pose proof (Z.ggcd_correct_divisors z 1) as Hd.
  destruct (Z.ggcd z 1) as [g [a b]]. cbn [fst snd] in *.
  rewrite Z.gcd_1_r in Hg. subst g. destruct Hd as [Ha Hb].
  rewrite Z.mul_1_l in Ha, Hb. subst a b. reflexivity.
Qed.

Lemma norm_within (q : Q) (b : Z) :
  (0 <= q)%Q -> (q <= inject_Z b)%Q -> b < 2 ^ 53 ->
  JS.norm q = JS.Fin (Qred q).
Proof.
  intros H0 Hb Hsmall. unfold JS.norm.
  assert (Hlt : (q < JS.overflow_bound)%Q).
  { eapply Qle_lt_trans; [exact Hb |].
    unfold JS.overflow_bound. rewrite <- Zlt_Qlt.
    eapply Z.lt_trans; [exact Hsmall | reflexivity]. }
  replace (Qle_bool JS.overflow_bound q) with false.
  - replace (Qle_bool q (- JS.overflow_bound)) with false; [reflexivity |].
    symmetry. apply not_true_is_false. intro H. apply Qle_bool_iff in H.
    apply (Qlt_irrefl 0). eapply Qle_lt_trans; [exact H0 |].
    eapply Qle_lt_trans; [exact H | reflexivity].
  - symmetry. apply not_true_is_false. intro H. apply Qle_bool_iff in H.
    apply (Qlt_irrefl q). eapply Qlt_le_trans; [exact Hlt | exact H].
Qed.

Lemma ceiling_of_quotient (t : Z) (p : positive) :
  Qceiling (inject_Z t / inject_Z (Zpos p)) = - ((- t) / Zpos p).
Proof.
  unfold Qceiling, Qfloor, Qdiv, Qmult, Qinv, Qopp, inject_Z. cbn [Qnum Qden].
  rewrite Z.mul_1_r, Pos.mul_1_l. reflexivity.
Qed.

(** [Math.ceil(totalCount / limitPerPage)] for a count [t] and a limit [l]
    of at least 1 is the number [n] of pages of [l] rows that hold [t]
    rows: [n] pages are enough and [n - 1] are not.  In particular it is 0
    exactly when there is no row. *)
Theorem totalPages_covers_the_rows :
  forall t l : Z,
    0 <= t < 2 ^ 53 -> 1 <= l ->
    exists n : Z,
      totalPages (int t) (JS.Fin (inject_Z l)) = int n
      /\ (n - 1) * l < t <= n * l
      /\ (n = 0 <-> t = 0).
Proof.
  intros t l [Ht0 Htb] Hl.
  destruct l as [| p | p]; try lia.
  set (n := - ((- t) / Zpos p)).
  assert (Hn : (n - 1) * Zpos p < t <= n * Zpos p).
  { pose proof (Z.div_mod (- t) (Zpos p) ltac:(lia)) as Hdm.
    pose proof (Z.mod_pos_bound (- t) (Zpos p) ltac:(lia)) as Hmod.
    unfold n. nia. }
  assert (Hn0 : 0 <= n <= t) by nia.
  exists n. split; [| split; [exact Hn | nia]].
  unfold totalPages, to_number, int, JS.div.
  replace (Qeq_bool (inject_Z (Zpos p)) 0) with false by reflexivity.
  set (q := (inject_Z t / inject_Z (Zpos p))%Q).
  assert (Hq0 : (0 <= q)%Q).
  { unfold q. apply Qle_shift_div_l; [reflexivity |].
    rewrite Qmult_0_l. change (inject_Z 0 <= inject_Z t)%Q.
    rewrite <- Zle_Qle. exact Ht0. }
  assert (Hqt : (q <= inject_Z t)%Q).
  { unfold q. apply Qle_shift_div_r; [reflexivity |].
    rewrite <- inject_Z_mult, <- Zle_Qle. nia. }
  rewrite (norm_within q t Hq0 Hqt Htb).
  unfold JS.ceil, JS.of_Z.
  rewrite (Qceiling_comp (Qred q) q (Qred_correct q)).
  unfold q. rewrite ceiling_of_quotient. fold n.
  rewrite (norm_within (inject_Z n) t).
  - rewrite Qred_inject_Z. reflexivity.
  - change (inject_Z 0 <= inject_Z n)%Q. rewrite <- Zle_Qle. lia.
  - rewrite <- Zle_Qle. lia.
  - exact Htb.
Qed.

Lemma totalPages_covers_the_rows_witness :
  exists n : Z,
    totalPages (int 21) (JS.Fin (inject_Z 10)) = int n
    /\ (n - 1) * 10 < 21 <= n * 10
    /\ (n = 0 <-> 21 = 0).
Proof.
  apply (totalPages_covers_the_rows 21 10); [split; [lia | reflexivity] | lia].
Defined.

End TotalPages.

(* ------------------------------------------------------------------ *)
(** ** Joins and filters of the engine *)

Section JoinFacts.
Import Sql Http Joined.

Variable d : Database.

Lemma join1_cons (e : Env) (envs : list Env) (j : Table * Cond) :
  join1 d (e :: envs) j = join1 d [e] j ++ join1 d envs j.
Proof. unfold join1. cbn [flat_map]. rewrite app_nil_r. reflexivity. Qed.

(** The rows one row turns into: itself with a partner or with a gap, the
    first of them with the first partner. *)
Lemma join1_one (e : Env) (j : Table * Cond) :
  exists more : list Env,
    join1 d [e] j = (e ++ [(fst j, first_partner d e j)]) :: more
    /\ Forall (fun e' => exists x, e' = e ++ [(fst j, x)]) more.
Proof.
  unfold join1, first_partner. cbn [flat_map]. rewrite app_nil_r.
  induction (d (fst j)) as [| r rows IH]; cbn [filter find].
  - exists []. split; [reflexivity | constructor].
  - destruct (holds (snd j) (e ++ [(fst j, Some r)])).
    + eexists. split; [reflexivity |].
      apply Forall_forall. intros e' He'. apply in_map_iff in He' as [x [<- _]]. eauto.
    + exact IH.
Qed.

Lemma join1_based (t : Table) (envs : list Env) (j : Table * Cond) :
  Forall (based t) envs -> Forall (based t) (join1 d envs j).
Proof.
  induction envs as [| e envs IH]; intro H; [constructor |].
  inversion H as [| ? ? He Hrest]; subst.
  rewrite join1_cons. apply Forall_app. split; [| auto].
  destruct (join1_one e j) as [more [-> Hmore]].
  destruct He as [r [rest ->]].
  constructor; [eexists; eexists; reflexivity |].
  eapply Forall_impl; [| exact Hmore].
  intros e' [x ->]. eexists; eexists; reflexivity.
Qed.

(** A filter that reads the base row alone can be applied before a join. *)
Lemma filter_join1 (t : Table) (p : Env -> bool) (p0 : option Row -> bool)
      (envs : list Env) (j : Table * Cond) :
  (forall r rest, p ((t, r) :: rest) = p0 r) ->
  Forall (based t) envs ->
  filter p (join1 d envs j) = join1 d (filter p envs) j.
Proof.
  intros Hp. induction envs as [| e envs IH]; intro H; [reflexivity |].
  inversion H as [| ? ? He Hrest]; subst.
  rewrite join1_cons, filter_app, (IH Hrest).
  destruct He as [r [rest ->]].
  destruct (join1_one ((t, r) :: rest) j) as [more [Hone Hmore]].
  cbn [filter]. rewrite (Hp r rest), Hone.
  assert (Hmore' : filter p more = if p0 r then more else []).
  { clear Hone. induction Hmore as [| e' more [x ->] _ IHm]; cbn [filter app].
    - destruct (p0 r); reflexivity.
    - rewrite Hp, IHm. destruct (p0 r); reflexivity. }
  cbn [filter app]. rewrite Hp, Hmore'.
  destruct (p0 r).
  - rewrite (join1_cons _ (filter p envs)), Hone. reflexivity.
  - reflexivity.
Qed.

Lemma filter_joins (t : Table) (p : Env -> bool) (p0 : option Row -> bool)
      (js : list (Table * Cond)) (envs : list Env) :
  (forall r rest, p ((t, r) :: rest) = p0 r) ->
  Forall (based t) envs ->
  filter p (fold_left (join1 d) js envs) = fold_left (join1 d) js (filter p envs).
Proof.
  intro Hp. revert envs. induction js as [| j js IH]; intros envs H; [reflexivity |].
  cbn [fold_left]. rewrite (IH _ (join1_based t envs j H)).
  rewrite (filter_join1 t p p0 envs j Hp H). reflexivity.
Qed.


(** The first row of a chain of joins comes from the first row joined. *)
Lemma joins_head (js : list (Table * Cond)) (e : Env) (envs : list Env) :
  exists more : list Env,
    fold_left (join1 d) js (e :: envs) = first_row d js e :: more.
Proof.
  revert e envs. induction js as [| j js IH]; intros e envs.
  - exists envs. reflexivity.
  - cbn [fold_left]. rewrite join1_cons.
    destruct (join1_one e j) as [more [-> _]].
    cbn [app]. apply IH.
Qed.

Lemma scan_based (t : Table) : Forall (based t) (scan d t).
Proof.
  unfold scan. apply Forall_forall. intros e He.
  apply in_map_iff in He as [r [<- _]]. eexists; eexists; reflexivity.
Qed.

(** What matches a query whose filter compares a column of the base table
    with a parameter: the rows of the base table that carry the value,
    each taken through the joins. *)
Lemma matching_by_base_column (q : Select) (col : string) (v : Value) :
  whereCond q = Some (EqParam (from q, col) v) ->
  matching d q
  = fold_left (join1 d) (joins q)
              (map (fun r => [(from q, Some r)]) (filter (row_matches col v) (d (from q)))).
Proof.
  intro Hw. unfold matching. rewrite Hw.
  rewrite (filter_joins (from q) _
             (fun r => match r with Some r' => row_matches col v r' | None => false end)).
  - unfold scan. rewrite filter_map_swap. f_equal. f_equal.
    apply filter_ext. intro r.
    unfold holds_opt, holds, row_matches. cbn [eval].
    unfold cell. cbn [fst snd env_get].
    replace (table_eqb (from q) (from q)) with true by (destruct (from q); reflexivity).
    reflexivity.
  - intros r rest. unfold holds_opt, holds, row_matches. cbn [eval].
    unfold cell. cbn [fst snd env_get].
    replace (table_eqb (from q) (from q)) with true by (destruct (from q); reflexivity).
    destruct r; reflexivity.
  - apply scan_based.
Qed.

End JoinFacts.

Section Lookups.
Import Sql Http Joined Routes.

(** A query without grouping, ordering or bounds returns one row for each
    row that matches, in order. *)
Lemma run_plain (d : Database) (q : Select) :
  well_formed q = true ->
  groupBy q = [] -> orderBy q = [] -> limit q = None -> offset q = None ->
  existsb is_aggregate (selection q) = false ->
  run_select d q = inr (map (fun e => project (selection q) (e, [e])) (matching d q)).
Proof.
  intros Hwf Hg Ho Hl Hoff Hagg. unfold run_select, groups.
  rewrite Hwf, Hg, Ho, Hl, Hoff, Hagg, sort_desc_unordered.
  unfold window. cbn [to_nat skipn]. rewrite map_map. reflexivity.
Qed.



(** A lookup by a column of the base table returns first the first row of
    the base table that carries the value, taken through the joins. *)
Lemma run_lookup_first (d : Database) (q : Select) (col : string) (v : Value) (row : Row) :
  well_formed q = true ->
  groupBy q = [] -> orderBy q = [] -> limit q = None -> offset q = None ->
  existsb is_aggregate (selection q) = false ->
  whereCond q = Some (EqParam (from q, col) v) ->
  find (row_matches col v) (d (from q)) = Some row ->
  exists more : list Row,
    run_select d q
    = inr (project (selection q)
                   (first_row d (joins q) [(from q, Some row)],
                    [first_row d (joins q) [(from q, Some row)]])
           :: more).
Proof.
  intros Hwf Hg Ho Hl Hoff Hagg Hw Hfind.
  rewrite (run_plain d q Hwf Hg Ho Hl Hoff Hagg).
  rewrite (matching_by_base_column d q col v Hw).
  apply find_filter_head in Hfind as [rest ->]. cbn [map].
  destruct (joins_head d (joins q) [(from q, Some row)]
                       (map (fun r => [(from q, Some r)]) rest)) as [more Hmore].
  exists (map (fun e => project (selection q) (e, [e])) more).
  f_equal.
  exact (f_equal (map (fun e => project (selection q) (e, [e]))) Hmore).
Qed.



(** GET /users/:id answers 200 with the first stored user that carries
    the id, all its columns as they are stored. *)
Theorem get_user_returns_stored_row :
  forall (req : Request) (d : Database) (u : Row),
    find (row_matches "id" (str_or_null (lookup "id" (params req)))) (d user) = Some u ->
    snd (UsersRoutes.get_user req (postgres d)) = inr (json 200 [("data", VObj u)]).
Proof.
  intros req d u Hu.
  unfold UsersRoutes.get_user, try_catch, bind, exec. cbn [postgres].
  match goal with |- context [run_select d ?q] =>
    destruct (run_lookup_first d q "id" (str_or_null (lookup "id" (params req))) u)
      as [more ->]
  end; try reflexivity; try exact Hu.
  destruct (lookup "id" (params req)); reflexivity.
Qed.

Lemma get_user_returns_stored_row_witness :
  snd (UsersRoutes.get_user (Sample.get (Some "s1") []) (postgres Sample.campus))
  = inr (json 200 [("data", VObj (Sample.person "s1" "Sam" "sam@example.org" "student" 60))]).
Proof.
  apply (get_user_returns_stored_row (Sample.get (Some "s1") []) Sample.campus).
  reflexivity.
Defined.

End Lookups.

Section Details.
Import Sql Http Joined Routes.

Lemma Qeq_bool_sym (x y : Q) : Qeq_bool x y = Qeq_bool y x.
Proof.
  destruct (Qeq_bool x y) eqn:E1, (Qeq_bool y x) eqn:E2; try reflexivity.
  - apply Qeq_bool_iff in E1. symmetry in E1. apply Qeq_bool_iff in E1. congruence.
  - apply Qeq_bool_iff in E2. symmetry in E2. apply Qeq_bool_iff in E2. congruence.
Qed.

Lemma sql_eq_sym (a b : Value) : sql_eq a b = sql_eq b a.
Proof.
  destruct a as [| x | x | x | x | x | x | x], b as [| y | y | y | y | y | y | y];
    try reflexivity; cbn [sql_eq]; f_equal.
  - destruct x, y; reflexivity.
  - destruct x as [| | | p], y as [| | | q]; try reflexivity. apply Qeq_bool_sym.
  - apply String.eqb_sym.
  - apply Z.eqb_sym.
Qed.

Lemma find_ext {A : Type} (p p' : A -> bool) (l : list A) :
  (forall a, p a = p' a) -> find p l = find p' l.
Proof.
  intro H. induction l as [| a l IH]; [reflexivity |].
  cbn [find]. rewrite H, IH. reflexivity.
Qed.

Lemma find_nothing {A : Type} (l : list A) : find (fun _ => false) l = None.
Proof. induction l; [reflexivity | assumption]. Qed.

(** The [on] condition of a join on a key, read on the partner row. *)
Lemma on_key (e : Env) (a b : Column) (r : Row) :
  env_get (fst b) e = None ->
  holds (Eq a b) (e ++ [(fst b, Some r)])
  = row_matches (snd b) (cell (e ++ [(fst b, Some r)]) a) r.
Proof.
  intro Hnew. unfold holds, row_matches. cbn [eval].
  rewrite (sql_eq_sym (cell _ a)).
  replace (cell (e ++ [(fst b, Some r)]) b) with (prop (snd b) r); [reflexivity |].
  unfold cell.
  replace (env_get (fst b) (e ++ [(fst b, Some r)])) with (Some (Some r)); [reflexivity |].
  induction e as [| [t x] e IH]; cbn [app env_get] in *.
  - replace (table_eqb (fst b) (fst b)) with true by (destruct (fst b); reflexivity).
    reflexivity.
  - destruct (table_eqb t (fst b)); [discriminate Hnew | apply IH; exact Hnew].
Qed.

(** GET /classes/:id answers 200 with the first stored class that carries
    the id, with three properties added: the first subject whose key is
    the class's [subjectId], the first user whose key is its [teacherId],
    and the first department whose key is that subject's [departmentId];
    each is null when there is none. *)
Theorem get_class_embeds_related_rows :
  forall (req : Request) (d : Database) (id : string) (z : Z) (c : Row),
    lookup "id" (params req) = Some id ->
    JS.toNumber id = JS.Fin (inject_Z z) ->
    find (row_matches "id" (int z)) (d classes) = Some c ->
    let subject := find (row_matches "id" (prop "subjectId" c)) (d subjects) in
    let teacher := find (row_matches "id" (prop "teacherId" c)) (d user) in
    let department :=
      match subject with
      | Some s => find (row_matches "id" (prop "departmentId" s)) (d departments)
      | None => None
      end in
    snd (ClassesRoutes.get_class req (postgres d))
    = inr (json 200
             [("data", VObj (c ++ [("subject", embed subject);
                                   ("department", embed department);
                                   ("teacher", embed teacher)]))]).
Proof.
  intros req d id z c Hid Hnum Hc subject teacher department.
  unfold ClassesRoutes.get_class, bind, exec.
  rewrite Hid. cbn [Number_]. rewrite Hnum. cbn [JS.isFinite negb postgres].
  match goal with |- context [run_select d ?q] =>
    destruct (run_lookup_first d q "id" (int z) c) as [more ->];
    [ reflexivity .. | exact Hc | ];
    change (from q) with classes;
    change (joins q) with
      [(subjects, Eq (classes, "subjectId") (subjects, "id"));
       (user, Eq (classes, "teacherId") (user, "id"));
       (departments, Eq (subjects, "departmentId") (departments, "id"))];
    change (selection q) with
      [Spread classes; Nested "subject" subjects;
       Nested "department" departments; Nested "teacher" user]
  end.
  cbn [fst snd ret]. unfold first_row, first_partner, project.
  cbn [app fold_left fst snd project_item env_get table_eqb].
  assert (Hs : find (fun r : Row =>
                       holds (Eq (classes, "subjectId") (subjects, "id"))
                             [(classes, Some c); (subjects, Some r)]) (d subjects)
               = subject).
  { apply find_ext. intro r.
    exact (on_key [(classes, Some c)] (classes, "subjectId") (subjects, "id") r eq_refl). }
  rewrite !Hs.
  assert (Ht : find (fun r : Row =>
                       holds (Eq (classes, "teacherId") (user, "id"))
                             [(classes, Some c); (subjects, subject); (user, Some r)])
                    (d user)
               = teacher).
  { apply find_ext. intro r.
    exact (on_key [(classes, Some c); (subjects, subject)]
                  (classes, "teacherId") (user, "id") r eq_refl). }
  rewrite !Ht.
  assert (Hd : find (fun r : Row =>
                       holds (Eq (subjects, "departmentId") (departments, "id"))
                             [(classes, Some c); (subjects, subject); (user, teacher);
                              (departments, Some r)])
                    (d departments)
               = department).
  { unfold department. clear Hs Ht. clearbody subject teacher.
    destruct subject as [s |].
    - apply find_ext. intro r.
      exact (on_key [(classes, Some c); (subjects, Some s); (user, teacher)]
                    (subjects, "departmentId") (departments, "id") r eq_refl).
    - transitivity (find (fun _ : Row => false) (d departments));
        [apply find_ext; intro r; reflexivity | apply find_nothing]. }
  rewrite Hd, <- !app_assoc. reflexivity.
Qed.

Lemma get_class_embeds_related_rows_witness :
  snd (ClassesRoutes.get_class (Sample.get (Some "101") []) (postgres Sample.campus))
  = inr (json 200
           [("data",
             VObj (Sample.class 101 10 "t1" "Algo B" "def5678" 301
                   ++ [("subject", embed (Some (Sample.subject 10 1 "CS201" "Algorithms" 200)));
                       ("department", embed (Some (Sample.department 1 "CS" "CS" 100)));
                       ("teacher",
                        embed (Some (Sample.person "t1" "Tina" "tina@example.org"
                                                   "teacher" 50)))]))]).
Proof.
  apply (get_class_embeds_related_rows (Sample.get (Some "101") []) Sample.campus "101" 101
           (Sample.class 101 10 "t1" "Algo B" "def5678" 301));
    reflexivity.
Defined.
(** GET /subjects/:id answers 200 with the first stored subject that
    carries the id, the first department whose key is its [departmentId]
    added as [department] (null when there is none), and with the number
    of subject rows that carry the id as [totals.classes]. *)
Theorem get_subject_embeds_department :
  forall (req : Request) (d : Database) (id : string) (z : Z) (s : Row),
    lookup "id" (params req) = Some id ->
    JS.toNumber id = JS.Fin (inject_Z z) ->
    find (row_matches "id" (int z)) (d subjects) = Some s ->
    snd (SubjectsRoutes.get_subject req (postgres d))
    = inr (json 200
             [("data", VObj
                [("subject",
                  VObj (s ++ [("department",
                               embed (find (row_matches "id" (prop "departmentId" s))
                                           (d departments)))]));
                 ("totals", VObj
                    [("classes",
                      count (List.length (filter (row_matches "id" (int z))
                                                 (d subjects))))])])]).
Proof.
  intros req d id z s Hid Hnum Hs.
  unfold SubjectsRoutes.get_subject, try_catch, bind, exec.
  rewrite Hid. cbn [Number_]. rewrite Hnum. cbn [JS.isFinite negb postgres].
  match goal with |- context [run_select d ?q] =>
    destruct (run_lookup_first d q "id" (int z) s) as [more ->];
    [ reflexivity .. | exact Hs | ];
    change (from q) with subjects;
    change (joins q) with
      [(departments, Eq (subjects, "departmentId") (departments, "id"))];
    change (selection q) with [Spread subjects; Nested "department" departments]
  end.
  cbn [postgres].
  change (select [CountStar "count"] subjects
          |> where_ (Some (EqParam (subjects, "id") (VNum (JS.Fin (inject_Z z))))))
    with (Listing.subject_count (JS.Fin (inject_Z z))).
  rewrite run_subject_count.
  cbn [fst snd ret app]. unfold first_row, first_partner, project.
  cbn [app fold_left fst snd project_item env_get table_eqb].
  replace (find (fun r : Row =>
                   holds (Eq (subjects, "departmentId") (departments, "id"))
                         [(subjects, Some s); (departments, Some r)]) (d departments))
    with (find (row_matches "id" (prop "departmentId" s)) (d departments)).
  - unfold first_count, prop. cbn [obj_get].
    destruct (List.length (filter (row_matches "id" (int z)) (d subjects))); reflexivity.
  - apply find_ext. intro r. symmetry.
    exact (on_key [(subjects, Some s)] (subjects, "departmentId") (departments, "id")
                  r eq_refl).
Qed.

Lemma get_subject_embeds_department_witness :
  snd (SubjectsRoutes.get_subject (Sample.get (Some "10") []) (postgres Sample.campus))
  = inr (json 200
           [("data", VObj
              [("subject",
                VObj (Sample.subject 10 1 "CS201" "Algorithms" 200
                      ++ [("department", embed (Some (Sample.department 1 "CS" "CS" 100)))]));
               ("totals", VObj [("classes", count 1)])])]).
Proof.
  apply (get_subject_embeds_department (Sample.get (Some "10") []) Sample.campus "10" 10
           (Sample.subject 10 1 "CS201" "Algorithms" 200));
    reflexivity.
Defined.

End Details.

(* ------------------------------------------------------------------ *)
(** ** Pages *)

(** Case analysis on a run against the reference engine over [d]. *)
Ltac walk_db d :=
  repeat
    first
      [ progress cbn [Sql.postgres]
      | match goal with
        | |- context [Sql.run_select d ?q] =>
            lazymatch q with
            | Sql.unbounded _ => fail
            | _ => let H := fresh "Hrun" in
                   destruct (Sql.run_select d q) as [? | ?] eqn:H
            end
        | |- context [match ?l with [] => _ | _ :: _ => _ end] => is_var l; destruct l
        | |- context [if ?b then _ else _] => destruct b
        end ].

Section Pages.
Import Sql Http Listing.

Lemma inr_eq {A B : Type} (x y : B) : @inr A B x = inr y -> x = y.
Proof. intro H. injection H as H. exact H. Qed.







End Pages.

(* ------------------------------------------------------------------ *)
(** ** What the totals count *)

Section Totals.
Import Sql Http Joined.

Lemma holds_or_ilike (e : Env) (a b : Column) (p : string) :
  holds (Or (ILike a p) (ILike b p)) e
  = text_ilike (cell e a) p || text_ilike (cell e b) p.
Proof.
  unfold holds. cbn [eval]. unfold sql_ilike, text_ilike.
  destruct (cell e a), (cell e b); cbn [or3 orb];
    repeat match goal with |- context [Like.ilike ?s ?p] => destruct (Like.ilike s p) end;
    reflexivity.
Qed.

Lemma holds_and_one (e : Env) (c : Cond) : holds (And [c]) e = holds c e.
Proof. unfold holds. cbn [eval]. destruct (eval e c) as [[|] |]; reflexivity. Qed.

Lemma holds_and_two (e : Env) (c1 c2 : Cond) :
  holds (And [c1; c2]) e = holds c1 e && holds c2 e.
Proof.
  unfold holds. cbn [eval].
  destruct (eval e c1) as [[|] |], (eval e c2) as [[|] |]; reflexivity.
Qed.

Lemma holds_eq_param (t : Table) (col : string) (v : Value) (r : Row) :
  holds (EqParam (t, col) v) [(t, Some r)] = row_matches col v r.
Proof.
  unfold holds, row_matches. cbn [eval]. unfold cell. cbn [fst snd env_get].
  replace (table_eqb t t) with true by (destruct t; reflexivity). reflexivity.
Qed.

Lemma cell_of_base (t : Table) (col : string) (r : Row) :
  cell [(t, Some r)] (t, col) = prop col r.
Proof.
  unfold cell. cbn [fst snd env_get].
  replace (table_eqb t t) with true by (destruct t; reflexivity). reflexivity.
Qed.

(** A count over one table without joins counts the rows of the table
    that pass the filter. *)
Lemma count_of_table (d : Database) (c : Select) (rc : list Row) :
  fields c = Some [CountStar "count"] ->
  groupBy c = [] -> limit c = None -> offset c = None -> joins c = [] ->
  run_select d c = inr rc ->
  first_count rc
  = count (List.length (filter (fun r => holds_opt (whereCond c) [(from c, Some r)])
                               (d (from c)))).
Proof.
  intros Hf Hg Hl Ho Hj Hrun.
  rewrite (run_count_star d c rc Hf Hg Hl Ho Hrun).
  unfold matching, scan. rewrite Hj. cbn [fold_left].
  rewrite filter_map_swap, length_map. reflexivity.
Qed.

(** The [total] of GET /users is the number of stored users whose name or
    email matches the search text and whose role is the one asked for,
    each test applying only when its parameter is given and not empty. *)
Theorem get_users_total_counts_filtered_users :
  forall (req : Request) (d : Database) (resp : Response),
    snd (UsersRoutes.get_users req (postgres d)) = inr resp ->
    status resp = 200 ->
    Run.pagination "total" resp
    = count (List.length (filter (user_filter req) (d user))).
Proof.
  intros req d resp.
  unfold UsersRoutes.get_users, try_catch, bind, exec, ret, console_error, user_filter.
  destruct (truthy (lookup "search" (query req))) as [s |];
    destruct (truthy (lookup "role" (query req))) as [r |];
    cbn [app]; walk_db d; cbn [fst snd app].
  all: intros Hresp Hstatus; apply inr_eq in Hresp; subst resp; try discriminate Hstatus.
  all: match goal with
       | H : run_select ?d0 ?q = inr ?rc |- context [first_count ?rc] =>
           change (Run.pagination "total" _) with (first_count rc);
           rewrite (count_of_table d0 q rc eq_refl eq_refl eq_refl eq_refl eq_refl H)
       end.
  all: f_equal; f_equal; apply filter_ext; intro u.
  all: cbn [whereCond from select where_ holds_opt];
       rewrite ?holds_and_two, ?holds_and_one, ?holds_or_ilike, ?holds_eq_param,
               ?cell_of_base, ?andb_true_r;
       reflexivity.
Qed.

Lemma get_users_total_counts_filtered_users_witness :
  Run.pagination "total"
    (json 200
       [("data", rows_value [Sample.person "a1" "Ada" "ada@example.org" "admin" 70;
                             Sample.person "s1" "Sam" "sam@example.org" "student" 60;
                             Sample.person "t1" "Tina" "tina@example.org" "teacher" 50]);
        ("pagination", VObj [("page", int 1); ("limit", int 10); ("total", int 1);
                             ("totalPages", int 1)])])
  = count (List.length
             (filter (user_filter (Sample.get None [("search", "SAM"); ("role", "student")]))
                     (Sample.campus user))).
Proof.
  apply (get_users_total_counts_filtered_users
           (Sample.get None [("search", "SAM"); ("role", "student")]) Sample.campus);
    reflexivity.
Defined.

(** The [total] of GET /departments is the number of stored departments
    whose name or code matches the search text; all of them when no search
    text is given. *)
Theorem get_departments_total_counts_matches :
  forall (req : Request) (d : Database) (resp : Response),
    snd (DepartmentsRoutes.get_departments req (postgres d)) = inr resp ->
    status resp = 200 ->
    Run.pagination "total" resp
    = count (List.length (filter (department_filter req) (d departments))).
Proof.
  intros req d resp.
  unfold DepartmentsRoutes.get_departments, try_catch, bind, exec, ret, console_error,
    department_filter.
  destruct (truthy (lookup "search" (query req))) as [s |];
    cbn [app]; walk_db d; cbn [fst snd app].
  all: intros Hresp Hstatus; apply inr_eq in Hresp; subst resp; try discriminate Hstatus.
  all: match goal with
       | H : run_select ?d0 ?q = inr ?rc |- context [first_count ?rc] =>
           change (Run.pagination "total" _) with (first_count rc);
           rewrite (count_of_table d0 q rc eq_refl eq_refl eq_refl eq_refl eq_refl H)
       end.
  all: f_equal; f_equal; apply filter_ext; intro u.
  all: cbn [whereCond from select where_ holds_opt];
       rewrite ?holds_and_one, ?holds_or_ilike, ?cell_of_base;
       reflexivity.
Qed.

Lemma get_departments_total_counts_matches_witness :
  Run.pagination "total"
    (json 200
       [("data", rows_value [Sample.department 2 "H500" "500-Hub" 101
                             ++ [("totalSubjects", int 1)]]);
        ("pagination", VObj [("page", int 1); ("limit", int 10); ("total", int 1);
                             ("totalPages", int 1)])])
  = count (List.length
             (filter (department_filter (Sample.get None [("search", "500")]))
                     (Sample.hubs departments))).
Proof.
  apply (get_departments_total_counts_matches
           (Sample.get None [("search", "500")]) Sample.hubs);
    reflexivity.
Defined.

End Totals.

(* ------------------------------------------------------------------ *)
(** ** Instances *)

Section Instances.
Import Sql Http Listing.


Lemma total_is_listing_size_witness :
  option_map (Run.pagination "total")
             (Run.response (SubjectsRoutes.get_subjects (Sample.get None [("search", "t")])
                                                        (postgres Sample.ties)))
  = Some (count 2).
Proof.
  exact (f_equal (@Some Value)
           (total_is_listing_size
              (Sample.get None [("search", "t")]) Sample.ties _
              (or_introl eq_refl) _ 2%nat eq_refl eq_refl eq_refl)).
Defined.

Lemma escaped_filter_is_substring_test_witness :
  Like.ilike "The 50%-hub" (Like.wrap (Like.escape "50%-Hub")) = true <->
  exists pre post,
    map Like.lower (list_ascii_of_string "The 50%-hub")
    = pre ++ map Like.lower (list_ascii_of_string "50%-Hub") ++ post.
Proof.
  apply (escaped_filter_is_substring_test "50%-Hub" "The 50%-hub").
  reflexivity.
Defined.

(** The teachers of a subject are never listed: with [role=teacher] and a
    numeric id, GET /subjects/:id/users sends a count over [classes] joined
    to [classes] that names [user] without having it in scope; the engine
    rejects it and the request ends in 500, whatever the database holds. *)
Theorem subject_teachers_always_500 :
  forall (req : Request) (d : Database),
    lookup "role" (query req) = Some "teacher" ->
    JS.isFinite (Number_ (lookup "id" (params req))) = true ->
    snd (SubjectsRoutes.get_subject_users req (postgres d))
    = inr (json 500 [("error", VStr "Failed to get subject users")])
    /\ map (fun q => (from q, map fst (joins q)))
           (Run.selects (fst (SubjectsRoutes.get_subject_users req (postgres d))))
       = [(classes, [classes])].
Proof.
  intros req d Hrole Hid.
  unfold SubjectsRoutes.get_subject_users, try_catch, bind, exec.
  rewrite Hrole, Hid. cbn [negb strict_eq]. split; reflexivity.
Qed.

Lemma subject_teachers_always_500_witness :
  snd (SubjectsRoutes.get_subject_users (Sample.get (Some "10") [("role", "teacher")])
                                        (postgres Sample.campus))
  = inr (json 500 [("error", VStr "Failed to get subject users")])
  /\ map (fun q => (from q, map fst (joins q)))
         (Run.selects (fst (SubjectsRoutes.get_subject_users
                              (Sample.get (Some "10") [("role", "teacher")])
                              (postgres Sample.campus))))
     = [(classes, [classes])].
Proof.
  apply (subject_teachers_always_500 (Sample.get (Some "10") [("role", "teacher")])
                                     Sample.campus);
    reflexivity.
Defined.

End Instances.

(* ------------------------------------------------------------------ *)
(** ** What a role-scoped listing shows *)

Section RoleScoped.
Import Sql Http Joined Listing.

Variable d : Database.

(** A row that leaves a join is a row that entered it, extended by a gap
    or by a stored partner that passes the [on] condition. *)
Lemma join1_in (envs : list Env) (j : Table * Cond) (e : Env) :
  In e (join1 d envs j) ->
  exists (e0 : Env) (x : option Row),
    In e0 envs /\ e = e0 ++ [(fst j, x)]
    /\ (forall r, x = Some r -> In r (d (fst j)) /\ holds (snd j) e = true).
Proof.
  unfold join1. intro H. apply in_flat_map in H as [e0 [He0 H]].
  exists e0.
  destruct (filter (fun r => holds (snd j) (e0 ++ [(fst j, Some r)])) (d (fst j)))
    as [| p ps] eqn:E.
  - destruct H as [<- | []]. exists None. repeat split; try assumption; discriminate.
  - rewrite <- E in H. apply in_map_iff in H as [r [<- Hr]].
    apply filter_In in Hr as [Hin Hon].
    exists (Some r). split; [assumption | split; [reflexivity |]].
    intros r' Hr'. injection Hr' as <-. auto.
Qed.

Lemma scan_in (t : Table) (e : Env) :
  In e (scan d t) -> exists r, In r (d t) /\ e = [(t, Some r)].
Proof. unfold scan. intro H. apply in_map_iff in H as [r [<- Hr]]. eauto. Qed.

Lemma add_to_groups_reps (P : Env -> Prop) (cols : list Column) (e : Env) (gs : list Group) :
  P e -> Forall (fun g => P (fst g)) gs ->
  Forall (fun g => P (fst g)) (add_to_groups cols e gs).
Proof.
  intros He H. induction H as [| [rep members] gs Hg Hgs IH]; cbn [add_to_groups].
  - repeat constructor. exact He.
  - destruct (same_key _ _); constructor; assumption.
Qed.

Lemma group_rows_reps (P : Env -> Prop) (cols : list Column) (envs : list Env) :
  Forall P envs -> Forall (fun g => P (fst g)) (group_rows cols envs).
Proof.
  unfold group_rows. intro H.
  assert (Hgen : forall gs, Forall (fun g => P (fst g)) gs ->
                            Forall (fun g => P (fst g))
                                   (fold_left (fun gs e => add_to_groups cols e gs) envs gs)).
  { induction H as [| e envs He Henvs IH]; intros gs Hgs; [exact Hgs |].
    cbn [fold_left]. apply IH. apply add_to_groups_reps; assumption. }
  apply Hgen. constructor.
Qed.

Lemma insert_desc_in (cols : list Column) (g x : Group) (l : list Group) :
  In x (insert_desc cols g l) -> x = g \/ In x l.
Proof.
  induction l as [| h l IH]; cbn [insert_desc].
  - intros [<- | []]. left. reflexivity.
  - destruct (desc_leb _ _).
    + intros [<- | H]; [left; reflexivity | right; exact H].
    + intros [<- | H]; [right; left; reflexivity |].
      destruct (IH H) as [-> | Hl]; [left; reflexivity | right; right; exact Hl].
Qed.

Lemma sort_desc_in (cols : list Column) (x : Group) (gs : list Group) :
  In x (sort_desc cols gs) -> In x gs.
Proof.
  induction gs as [| g gs IH]; cbn [sort_desc fold_right]; [auto |].
  intro H. apply insert_desc_in in H as [-> | H]; [left; reflexivity | right; auto].
Qed.

Lemma firstn_in {A : Type} (n : nat) (l : list A) (x : A) : In x (firstn n l) -> In x l.
Proof.
  revert l. induction n as [| n IH]; intros [| a l]; cbn [firstn]; try contradiction.
  intros [<- | H]; [left; reflexivity | right; auto].
Qed.

Lemma skipn_in {A : Type} (n : nat) (l : list A) (x : A) : In x (skipn n l) -> In x l.
Proof.
  revert l. induction n as [| n IH]; intros l; [auto |].
  destruct l as [| a l]; cbn [skipn]; [auto |]. intro H. right. auto.
Qed.

Lemma window_in {A : Type} (off lim : option JS.number) (l : list A) (x : A) :
  In x (window off lim l) -> In x l.
Proof.
  unfold window. destruct lim; intro H; [apply firstn_in in H |]; apply skipn_in in H; exact H.
Qed.

(** Every row of a grouped query shows a group whose first row matches
    the query. *)
Lemma run_grouped_in (q : Select) (rows : list Row) (row : Row) :
  groupBy q <> [] ->
  run_select d q = inr rows ->
  In row rows ->
  exists g : Group, In (fst g) (matching d q) /\ row = project (selection q) g.
Proof.
  intros Hg Hrun Hin. unfold run_select in Hrun.
  destruct (well_formed q); [| discriminate]. injection Hrun as <-.
  apply in_map_iff in Hin as [g [<- Hg']]. exists g. split; [| reflexivity].
  apply window_in, sort_desc_in in Hg'.
  unfold groups in Hg'. destruct (groupBy q) as [| c cs] eqn:E; [congruence |].
  assert (Hreps : Forall (fun g' : Group => In (fst g') (matching d q))
                         (group_rows (c :: cs) (matching d q))).
  { apply (group_rows_reps (fun e : Env => In e (matching d q))).
    apply Forall_forall. auto. }
  rewrite Forall_forall in Hreps. apply Hreps. exact Hg'.
Qed.

End RoleScoped.

Section RoleScopedListings.
Import Sql Http Joined Listing.

Lemma holds_eq_param_cell (e : Env) (c : Column) (v : Value) :
  holds (EqParam c v) e = true ->
  exists r, env_get (fst c) e = Some (Some r) /\ row_matches (snd c) v r = true.
Proof.
  unfold holds, row_matches. cbn [eval]. unfold cell.
  destruct (env_get (fst c) e) as [[r |] |]; cbn [sql_eq]; try discriminate.
  intro H. exists r. split; [reflexivity | exact H].
Qed.

Lemma holds_eq_cells (e : Env) (a b : Column) :
  holds (Eq a b) e = true -> sql_eq (cell e a) (cell e b) = Some true.
Proof.
  unfold holds. cbn [eval]. destruct (sql_eq _ _) as [[|] |]; congruence.
Qed.

(** GET /users/:id/subjects for a teacher lists only subjects the teacher
    teaches: every subject in [data] is the subject of a stored class whose
    [teacherId] is the user's id. *)
Theorem teacher_is_shown_subjects_taught :
  forall (req : Request) (d : Database) (id : string) (u : Row) (resp : Response),
    lookup "id" (params req) = Some id ->
    find (row_matches "id" (VStr id)) (d user) = Some u ->
    UsersRoutes.role_is_not u "teacher" = false ->
    snd (UsersRoutes.get_user_subjects req (postgres d)) = inr resp ->
    forall item : Value,
      In item (Run.data resp) ->
      exists cl : Row,
        In cl (d classes)
        /\ row_matches "teacherId" (VStr id) cl = true
        /\ row_matches "subjectId" (Run.field "id" item) cl = true.
Proof.
  intros req d id u resp Hid Hu Hteacher.
  apply find_filter_head in Hu as [others Hu].
  unfold UsersRoutes.get_user_subjects, try_catch, bind, exec, ret, console_error.
  rewrite Hid. cbn [postgres].
  change (select [Field "id" (user, "id"); Field "role" (user, "role")] user
          |> where_ (Some (EqParam (user, "id") (str_or_null (Some id)))))
    with (user_lookup (Some id)).
  rewrite run_user_lookup. cbn [str_or_null]. rewrite Hu. cbn [map].
  rewrite !role_of_record, Hteacher. cbn [andb negb].
  walk_db d; cbn [fst snd app].
  all: intros Hresp item Hitem; apply inr_eq in Hresp; subst resp.
  all: try (rewrite data_of_error in Hitem by discriminate; destruct Hitem).
  rewrite data_of_page in Hitem. apply in_map_iff in Hitem as [row [<- Hrow]].
  match goal with
  | H : run_select d ?q = inr ?rows, Hr : In row ?rows |- _ =>
      destruct (run_grouped_in d q rows row ltac:(discriminate) H Hr) as [g [Hg ->]];
      unfold matching in Hg;
      change (whereCond q) with (Some (EqParam (classes, "teacherId") (VStr id))) in Hg;
      change (joins q) with
        [(departments, Eq (subjects, "departmentId") (departments, "id"));
         (classes, Eq (classes, "subjectId") (subjects, "id"))] in Hg;
      change (from q) with subjects in Hg;
      change (selection q) with [Spread subjects; Nested "department" departments]
  end.
  apply filter_In in Hg as [Hjoined Hwhere]. cbn [fold_left] in Hjoined.
  apply join1_in in Hjoined as [e1 [x2 [Hjoined [He Hx2]]]].
  apply join1_in in Hjoined as [e0 [x1 [Hscan [He1 _]]]].
  apply scan_in in Hscan as [s [Hs He0]].
  cbn [fst snd] in *. subst e0 e1. cbn [app] in He.
  cbn [holds_opt] in Hwhere. rewrite He in Hwhere.
  apply holds_eq_param_cell in Hwhere as [cl [Hcl Hteaches]].
  cbn [fst snd env_get table_eqb] in Hcl. injection Hcl as ->.
  destruct (Hx2 cl eq_refl) as [Hin Hon].
  exists cl. split; [exact Hin | split; [exact Hteaches |]].
  rewrite He in Hon. apply holds_eq_cells in Hon.
  cbn [Run.field].
  rewrite (shows_base_column subjects "id" [Nested "department" departments] g)
    by (intro o; cbn [fold_left project_item]; apply prop_app_miss; reflexivity).
  rewrite He. unfold row_matches.
  change (cell [(subjects, Some s); (departments, x1); (classes, Some cl)] (subjects, "id"))
    with (prop "id" s).
  change (cell [(subjects, Some s); (departments, x1); (classes, Some cl)]
               (classes, "subjectId")) with (prop "subjectId" cl) in Hon.
  change (cell [(subjects, Some s); (departments, x1); (classes, Some cl)] (subjects, "id"))
    with (prop "id" s) in Hon.
  rewrite Hon. reflexivity.
Qed.

Lemma sql_eq_not_null (a b : Value) : sql_eq a b = Some true -> b <> VNull.
Proof. intros H ->. destruct a; discriminate H. Qed.

(** GET /users/:id/subjects for a student lists only subjects the student
    is enrolled in: every subject in [data] is the subject of a stored
    class for which an enrollment of the student is stored. *)
Theorem student_is_shown_subjects_enrolled :
  forall (req : Request) (d : Database) (id : string) (u : Row) (resp : Response),
    lookup "id" (params req) = Some id ->
    find (row_matches "id" (VStr id)) (d user) = Some u ->
    UsersRoutes.role_is_not u "teacher" = true ->
    UsersRoutes.role_is_not u "student" = false ->
    snd (UsersRoutes.get_user_subjects req (postgres d)) = inr resp ->
    forall item : Value,
      In item (Run.data resp) ->
      exists en cl : Row,
        In en (d enrollments)
        /\ row_matches "studentId" (VStr id) en = true
        /\ In cl (d classes)
        /\ row_matches "classId" (prop "id" cl) en = true
        /\ row_matches "subjectId" (Run.field "id" item) cl = true.
Proof.
  intros req d id u resp Hid Hu Hteacher Hstudent.
  apply find_filter_head in Hu as [others Hu].
  unfold UsersRoutes.get_user_subjects, try_catch, bind, exec, ret, console_error.
  rewrite Hid. cbn [postgres].
  change (select [Field "id" (user, "id"); Field "role" (user, "role")] user
          |> where_ (Some (EqParam (user, "id") (str_or_null (Some id)))))
    with (user_lookup (Some id)).
  rewrite run_user_lookup. cbn [str_or_null]. rewrite Hu. cbn [map].
  rewrite !role_of_record, Hteacher, Hstudent. cbn [andb negb].
  walk_db d; cbn [fst snd app].
  all: intros Hresp item Hitem; apply inr_eq in Hresp; subst resp.
  all: try (rewrite data_of_error in Hitem by discriminate; destruct Hitem).
  rewrite data_of_page in Hitem. apply in_map_iff in Hitem as [row [<- Hrow]].
  match goal with
  | H : run_select d ?q = inr ?rows, Hr : In row ?rows |- _ =>
      destruct (run_grouped_in d q rows row ltac:(discriminate) H Hr) as [g [Hg ->]];
      unfold matching in Hg;
      change (whereCond q) with (Some (EqParam (enrollments, "studentId") (VStr id))) in Hg;
      change (joins q) with
        [(departments, Eq (subjects, "departmentId") (departments, "id"));
         (classes, Eq (classes, "subjectId") (subjects, "id"));
         (enrollments, Eq (enrollments, "classId") (classes, "id"))] in Hg;
      change (from q) with subjects in Hg;
      change (selection q) with [Spread subjects; Nested "department" departments]
  end.
  apply filter_In in Hg as [Hjoined Hwhere]. cbn [fold_left] in Hjoined.
  apply join1_in in Hjoined as [e2 [x3 [Hjoined [He Hx3]]]].
  apply join1_in in Hjoined as [e1 [x2 [Hjoined [He2 Hx2]]]].
  apply join1_in in Hjoined as [e0 [x1 [Hscan [He1 _]]]].
  apply scan_in in Hscan as [s [Hs He0]].
  cbn [fst snd] in *. subst e0 e1 e2. cbn [app] in He, Hx2.
  cbn [holds_opt] in Hwhere. rewrite He in Hwhere.
  apply holds_eq_param_cell in Hwhere as [en [Hen Henrolled]].
  cbn [fst snd env_get table_eqb] in Hen. injection Hen as ->.
  destruct (Hx3 en eq_refl) as [Hin_en Hon3].
  rewrite He in Hon3. apply holds_eq_cells in Hon3.
  change (cell [(subjects, Some s); (departments, x1); (classes, x2);
                (enrollments, Some en)] (enrollments, "classId"))
    with (prop "classId" en) in Hon3.
  destruct x2 as [cl |];
    [| apply sql_eq_not_null in Hon3; exfalso; apply Hon3; reflexivity].
  change (cell [(subjects, Some s); (departments, x1); (classes, Some cl);
                (enrollments, Some en)] (classes, "id"))
    with (prop "id" cl) in Hon3.
  destruct (Hx2 cl eq_refl) as [Hin_cl Hon2]. apply holds_eq_cells in Hon2.
  change (cell [(subjects, Some s); (departments, x1); (classes, Some cl)]
               (classes, "subjectId")) with (prop "subjectId" cl) in Hon2.
  change (cell [(subjects, Some s); (departments, x1); (classes, Some cl)] (subjects, "id"))
    with (prop "id" s) in Hon2.
  exists en, cl. repeat split; try assumption.
  - unfold row_matches. rewrite Hon3. reflexivity.
  - cbn [Run.field].
    rewrite (shows_base_column subjects "id" [Nested "department" departments] g)
      by (intro o; cbn [fold_left project_item]; apply prop_app_miss; reflexivity).
    rewrite He. unfold row_matches.
    change (cell [(subjects, Some s); (departments, x1); (classes, Some cl);
                  (enrollments, Some en)] (subjects, "id"))
      with (prop "id" s).
    rewrite Hon2. reflexivity.
Qed.

Lemma holds_and_pair (e : Env) (c1 c2 : Cond) :
  holds (And [c1; c2]) e = true -> holds c1 e = true /\ holds c2 e = true.
Proof.
  unfold holds. cbn [eval].
  destruct (eval e c1) as [[|] |], (eval e c2) as [[|] |]; cbn [and3]; auto; discriminate.
Qed.

(** GET /subjects/:id/users with [role=student] lists only students of the
    subject: every user in [data] has the role student and an enrollment
    in a stored class whose [subjectId] is the id of the path. *)
Theorem subject_students_are_enrolled :
  forall (req : Request) (d : Database) (resp : Response),
    lookup "role" (query req) = Some "student" ->
    snd (SubjectsRoutes.get_subject_users req (postgres d)) = inr resp ->
    forall item : Value,
      In item (Run.data resp) ->
      Run.field "role" item = VStr "student"
      /\ exists en cl : Row,
           In en (d enrollments)
           /\ row_matches "studentId" (Run.field "id" item) en = true
           /\ In cl (d classes)
           /\ row_matches "classId" (prop "id" cl) en = true
           /\ row_matches "subjectId" (VNum (Number_ (lookup "id" (params req)))) cl = true.
Proof.
  intros req d resp Hrole.
  unfold SubjectsRoutes.get_subject_users, try_catch, bind, exec, ret, console_error.
  rewrite Hrole. cbn [strict_eq str_or_null].
  change (String.eqb "student" "teacher") with false.
  change (String.eqb "student" "student") with true.
  cbn [negb andb].
  walk_db d; cbn [fst snd app].
  all: intros Hresp item Hitem; apply inr_eq in Hresp; subst resp.
  all: try (rewrite data_of_error in Hitem by discriminate; destruct Hitem).
  rewrite data_of_page in Hitem. apply in_map_iff in Hitem as [row [<- Hrow]].
  match goal with
  | H : run_select d ?q = inr ?rows, Hr : In row ?rows |- _ =>
      destruct (run_grouped_in d q rows row ltac:(discriminate) H Hr) as [g [Hg ->]];
      unfold matching in Hg;
      change (whereCond q) with
        (Some (And [EqParam (user, "role") (VStr "student");
                    EqParam (classes, "subjectId")
                            (VNum (Number_ (lookup "id" (params req))))])) in Hg;
      change (joins q) with
        [(enrollments, Eq (user, "id") (enrollments, "studentId"));
         (classes, Eq (enrollments, "classId") (classes, "id"))] in Hg;
      change (from q) with user in Hg;
      change (selection q) with SubjectsRoutes.baseSelect
  end.
  apply filter_In in Hg as [Hjoined Hwhere]. cbn [fold_left] in Hjoined.
  apply join1_in in Hjoined as [e1 [x2 [Hjoined [He Hx2]]]].
  apply join1_in in Hjoined as [e0 [x1 [Hscan [He1 Hx1]]]].
  apply scan_in in Hscan as [u [Hu He0]].
  cbn [fst snd] in *. subst e0 e1. cbn [app] in He, Hx1.
  cbn [holds_opt] in Hwhere. rewrite He in Hwhere.
  apply holds_and_pair in Hwhere as [Hstudent Hsubject].
  apply holds_eq_param_cell in Hstudent as [u' [Hu' Hstudent]].
  cbn [fst snd env_get table_eqb] in Hu'. injection Hu' as <-.
  apply holds_eq_param_cell in Hsubject as [cl [Hcl Hsubject]].
  cbn [fst snd env_get table_eqb] in Hcl. injection Hcl as ->.
  destruct (Hx2 cl eq_refl) as [Hin_cl Hon2].
  rewrite He in Hon2. apply holds_eq_cells in Hon2.
  change (cell [(user, Some u); (enrollments, x1); (classes, Some cl)] (classes, "id"))
    with (prop "id" cl) in Hon2.
  destruct x1 as [en |];
    [| destruct (prop "id" cl); discriminate Hon2].
  change (cell [(user, Some u); (enrollments, Some en); (classes, Some cl)]
               (enrollments, "classId")) with (prop "classId" en) in Hon2.
  destruct (Hx1 en eq_refl) as [Hin_en Hon1]. apply holds_eq_cells in Hon1.
  change (cell [(user, Some u); (enrollments, Some en)] (user, "id"))
    with (prop "id" u) in Hon1.
  change (cell [(user, Some u); (enrollments, Some en)] (enrollments, "studentId"))
    with (prop "studentId" en) in Hon1.
  assert (Hid : Run.field "id" (VObj (project SubjectsRoutes.baseSelect g)) = prop "id" u).
  { cbn [Run.field]. unfold project, SubjectsRoutes.baseSelect.
    cbn [fold_left project_item app]. rewrite He. reflexivity. }
  assert (Hr : Run.field "role" (VObj (project SubjectsRoutes.baseSelect g)) = prop "role" u).
  { cbn [Run.field]. unfold project, SubjectsRoutes.baseSelect.
    cbn [fold_left project_item app]. rewrite He. reflexivity. }
  cbn [snd] in Hsubject. rewrite Hid, Hr. split.
  - cbn [snd] in Hstudent. revert Hstudent. unfold row_matches.
    destruct (prop "role" u) as [| vb | vn | r | vt | va | vo | vx];
      cbn [sql_eq]; try discriminate.
    destruct (String.eqb_spec r "student"); congruence.
  - exists en, cl. repeat split; try assumption.
    + unfold row_matches. rewrite sql_eq_sym, Hon1. reflexivity.
    + unfold row_matches. rewrite Hon2. reflexivity.
Qed.

Lemma teacher_is_shown_subjects_taught_witness :
  exists cl : Row,
    In cl (Sample.campus classes)
    /\ row_matches "teacherId" (VStr "t1") cl = true
    /\ row_matches "subjectId"
         (Run.field "id"
            (VObj (Sample.subject 10 1 "CS201" "Algorithms" 200
                   ++ [("department", VObj (Sample.department 1 "CS" "CS" 100))])))
         cl = true.
Proof.
  apply (teacher_is_shown_subjects_taught
           (Sample.get (Some "t1") []) Sample.campus "t1"
           (Sample.person "t1" "Tina" "tina@example.org" "teacher" 50) _
           eq_refl eq_refl eq_refl eq_refl).
  vm_compute. left. reflexivity.
Defined.

Lemma student_is_shown_subjects_enrolled_witness :
  exists en cl : Row,
    In en (Sample.campus enrollments)
    /\ row_matches "studentId" (VStr "s1") en = true
    /\ In cl (Sample.campus classes)
    /\ row_matches "classId" (prop "id" cl) en = true
    /\ row_matches "subjectId"
         (Run.field "id"
            (VObj (Sample.subject 10 1 "CS201" "Algorithms" 200
                   ++ [("department", VObj (Sample.department 1 "CS" "CS" 100))])))
         cl = true.
Proof.
  apply (student_is_shown_subjects_enrolled
           (Sample.get (Some "s1") []) Sample.campus "s1"
           (Sample.person "s1" "Sam" "sam@example.org" "student" 60) _
           eq_refl eq_refl eq_refl eq_refl eq_refl).
  vm_compute. left. reflexivity.
Defined.

Lemma subject_students_are_enrolled_witness :
  Run.field "role" (VObj (Sample.person "s1" "Sam" "sam@example.org" "student" 60))
  = VStr "student"
  /\ exists en cl : Row,
       In en (Sample.campus enrollments)
       /\ row_matches "studentId"
            (Run.field "id" (VObj (Sample.person "s1" "Sam" "sam@example.org" "student" 60)))
            en = true
       /\ In cl (Sample.campus classes)
       /\ row_matches "classId" (prop "id" cl) en = true
       /\ row_matches "subjectId"
            (VNum (Number_ (lookup "id" (params (Sample.get (Some "10")
                                                            [("role", "student")])))))
            cl = true.
Proof.
  apply (subject_students_are_enrolled
           (Sample.get (Some "10") [("role", "student")]) Sample.campus _
           eq_refl eq_refl).
  vm_compute. left. reflexivity.
Defined.

End RoleScopedListings.

(* ------------------------------------------------------------------ *)
(** ** What a filtered listing shows *)

Section FilteredListings.
Import Sql Http Joined Listing.

(** Every row of a query without grouping shows a row that matches it. *)
Lemma run_plain_in (d : Database) (q : Select) (rows : list Row) (row : Row) :
  groupBy q = [] -> existsb is_aggregate (selection q) = false ->
  run_select d q = inr rows ->
  In row rows ->
  exists e : Env, In e (matching d q) /\ row = project (selection q) (e, [e]).
Proof.
  intros Hg Hagg Hrun Hin. unfold run_select in Hrun.
  destruct (well_formed q); [| discriminate]. injection Hrun as <-.
  apply in_map_iff in Hin as [g [<- Hg']].
  apply window_in, sort_desc_in in Hg'.
  unfold groups in Hg'. rewrite Hg, Hagg in Hg'.
  apply in_map_iff in Hg' as [e [<- He]]. eauto.
Qed.

Lemma holds_and_all (e : Env) (cs : list Cond) :
  holds (And cs) e = true -> Forall (fun c => holds c e = true) cs.
Proof.
  unfold holds. cbn [eval].
  induction cs as [| c cs IH]; [constructor |].
  destruct (eval e c) as [[|] |] eqn:Ec.
  - intro H. constructor; [rewrite Ec; reflexivity |].
    apply IH. revert H.
    match goal with |- context [and3 (Some true) ?r] => destruct r as [[|] |] end;
      cbn [and3]; auto.
  - match goal with |- context [and3 (Some false) ?r] => destruct r as [[|] |] end;
      discriminate.
  - match goal with |- context [and3 None ?r] => destruct r as [[|] |] end;
      discriminate.
Qed.

Lemma holds_ilike (e : Env) (a : Column) (p : string) :
  holds (ILike a p) e = text_ilike (cell e a) p.
Proof.
  unfold holds. cbn [eval]. unfold sql_ilike, text_ilike.
  destruct (cell e a) as [| | | s | | | |]; try reflexivity.
  destruct (Like.ilike s p); reflexivity.
Qed.

Lemma shows_nested (items rest : list Item) (name : string) (t : Table) (g : Group) :
  (forall o, prop name (fold_left (project_item g) rest o) = prop name o) ->
  prop name (project (items ++ Nested name t :: rest) g)
  = match env_get t (fst g) with
    | Some (Some r) => VObj r
    | _ => VNull
    end.
Proof.
  intro Hrest.
  unfold project. rewrite fold_left_app. cbn [fold_left project_item]. rewrite Hrest.
  unfold prop. rewrite obj_get_app. cbn [obj_get]. rewrite String.eqb_refl. reflexivity.
Qed.

(** GET /subjects lists only subjects that pass the filters given: the
    name or the code matches the search text, and the name of the
    department shown with the subject matches the escaped department
    text. *)
Theorem get_subjects_shows_matching_subjects :
  forall (req : Request) (d : Database) (resp : Response),
    snd (SubjectsRoutes.get_subjects req (postgres d)) = inr resp ->
    forall item : Value,
      In item (Run.data resp) ->
      (forall s, truthy (lookup "search" (query req)) = Some s ->
                 text_ilike (Run.field "name" item) (Like.wrap s)
                 || text_ilike (Run.field "code" item) (Like.wrap s) = true)
      /\ (forall dep, truthy (lookup "department" (query req)) = Some dep ->
                      text_ilike (Run.field "name" (Run.field "department" item))
                                 (Like.wrap (Like.escape dep)) = true).
Proof.
  intros req d resp.
  unfold SubjectsRoutes.get_subjects, try_catch, bind, exec, ret, console_error.
  destruct (truthy (lookup "search" (query req))) as [s |];
    destruct (truthy (lookup "department" (query req))) as [dep |];
    cbn [app]; walk_db d; cbn [fst snd app].
  all: intros Hresp item Hitem; apply inr_eq in Hresp; subst resp.
  all: try (rewrite data_of_error in Hitem by discriminate; destruct Hitem).
  all: rewrite data_of_page in Hitem; apply in_map_iff in Hitem as [row [<- Hrow]].
  all: match goal with
       | H : run_select ?d0 ?q = inr ?rows, Hr : In ?row0 ?rows |- _ =>
           destruct (run_plain_in d0 q rows row0 eq_refl eq_refl H Hr) as [e [He ->]];
           unfold matching in He;
           change (joins q) with
             [(departments, Eq (subjects, "departmentId") (departments, "id"))] in He;
           change (from q) with subjects in He;
           change (selection q) with [Spread subjects; Nested "department" departments]
       end.
  all: apply filter_In in He as [Hjoined Hwhere]; cbn [fold_left] in Hjoined.
  all: apply join1_in in Hjoined as [e0 [x1 [Hscan [He _]]]].
  all: apply scan_in in Hscan as [sub [Hsub He0]].
  all: cbn [fst snd] in *; subst e0 e; cbn [app] in *.
  all: cbn [whereCond where_ holds_opt] in Hwhere.
  all: try (apply holds_and_all in Hwhere).
  all: split; [intros s' Hs' | intros dep' Hdep']; try discriminate.
  all: try (injection Hs' as <-); try (injection Hdep' as <-).
  all: repeat match goal with
              | H : Forall _ (_ :: _) |- _ => inversion H; subst; clear H
              end.
  all: repeat match goal with
              | H : holds (Or _ _) _ = true |- _ => rewrite holds_or_ilike in H
              | H : holds (ILike _ _) _ = true |- _ => rewrite holds_ilike in H
              end.
  all: cbn [Run.field].
  all: rewrite ?(shows_base_column subjects "name" [Nested "department" departments])
         by (intro o; cbn [fold_left project_item]; apply prop_app_miss; reflexivity).
  all: rewrite ?(shows_base_column subjects "code" [Nested "department" departments])
         by (intro o; cbn [fold_left project_item]; apply prop_app_miss; reflexivity).
  all: rewrite ?(shows_nested [Spread subjects] [] "department" departments)
         by (intro o; reflexivity).
  all: try assumption.
  all: destruct x1 as [dept |]; [assumption |].
  all: match goal with H : text_ilike (cell _ (departments, _)) _ = true |- _ =>
         discriminate H end.
Qed.

Lemma get_subjects_shows_matching_subjects_witness :
  let item := VObj (Sample.subject 10 1 "HB1" "Robotics" 200
                    ++ [("department", VObj (Sample.department 1 "H50" "50%-Hub" 100))]) in
  text_ilike (Run.field "name" item) (Like.wrap "hb")
  || text_ilike (Run.field "code" item) (Like.wrap "hb") = true
  /\ text_ilike (Run.field "name" (Run.field "department" item))
                (Like.wrap (Like.escape "50%")) = true.
Proof.
  intro item.
  destruct (get_subjects_shows_matching_subjects
              (Sample.get None [("search", "hb"); ("department", "50%")]) Sample.hubs _
              eq_refl item) as [Hsearch Hdepartment].
  - vm_compute. left. reflexivity.
  - split; [apply Hsearch | apply Hdepartment]; reflexivity.
Defined.

(** GET /classes lists only classes that pass the filters given: the
    name or the invite code matches the search text, the name of the
    subject shown with the class matches the escaped subject text, and the
    name of the teacher shown with the class matches the escaped teacher
    text. *)
Theorem get_classes_shows_matching_classes :
  forall (req : Request) (d : Database) (resp : Response),
    snd (ClassesRoutes.get_classes req (postgres d)) = inr resp ->
    forall item : Value,
      In item (Run.data resp) ->
      (forall s, truthy (lookup "search" (query req)) = Some s ->
                 text_ilike (Run.field "name" item) (Like.wrap s)
                 || text_ilike (Run.field "inviteCode" item) (Like.wrap s) = true)
      /\ (forall sub, truthy (lookup "subject" (query req)) = Some sub ->
                      text_ilike (Run.field "name" (Run.field "subject" item))
                                 (Like.wrap (Like.escape sub)) = true)
      /\ (forall t, truthy (lookup "teacher" (query req)) = Some t ->
                    text_ilike (Run.field "name" (Run.field "teacher" item))
                               (Like.wrap (Like.escape t)) = true).
Proof.
  intros req d resp.
  unfold ClassesRoutes.get_classes, try_catch, bind, exec, ret, console_error.
  destruct (truthy (lookup "search" (query req))) as [s |];
    destruct (truthy (lookup "subject" (query req))) as [sub |];
    destruct (truthy (lookup "teacher" (query req))) as [t |];
    cbn [app]; walk_db d; cbn [fst snd app].
  all: intros Hresp item Hitem; apply inr_eq in Hresp; subst resp.
  all: try (rewrite data_of_error in Hitem by discriminate; destruct Hitem).
  all: rewrite data_of_page in Hitem; apply in_map_iff in Hitem as [row [<- Hrow]].
  all: match goal with
       | H : run_select ?d0 ?q = inr ?rows, Hr : In ?row0 ?rows |- _ =>
           destruct (run_plain_in d0 q rows row0 eq_refl eq_refl H Hr) as [e [He ->]];
           unfold matching in He;
           change (joins q) with
             [(subjects, Eq (classes, "subjectId") (subjects, "id"));
              (user, Eq (classes, "teacherId") (user, "id"))] in He;
           change (from q) with classes in He;
           change (selection q)
             with [Spread classes; Nested "subject" subjects; Nested "teacher" user]
       end.
  all: apply filter_In in He as [Hjoined Hwhere]; cbn [fold_left] in Hjoined.
  all: apply join1_in in Hjoined as [e1 [x2 [Hjoined [He _]]]].
  all: apply join1_in in Hjoined as [e0 [x1 [Hscan [He1 _]]]].
  all: apply scan_in in Hscan as [c [Hc He0]].
  all: cbn [fst snd] in *; subst e0 e1 e; cbn [app] in *.
  all: cbn [whereCond where_ holds_opt] in Hwhere.
  all: try (apply holds_and_all in Hwhere).
  all: split; [intros s' Hs' | split; [intros sub' Hsub' | intros t' Ht']];
         try discriminate.
  all: try (injection Hs' as <-); try (injection Hsub' as <-); try (injection Ht' as <-).
  all: repeat match goal with
              | H : Forall _ (_ :: _) |- _ => inversion H; subst; clear H
              end.
  all: repeat match goal with
              | H : holds (Or _ _) _ = true |- _ => rewrite holds_or_ilike in H
              | H : holds (ILike _ _) _ = true |- _ => rewrite holds_ilike in H
              end.
  all: cbn [Run.field].
  all: rewrite ?(shows_base_column classes "name"
                   [Nested "subject" subjects; Nested "teacher" user])
         by (intro o; cbn [fold_left project_item];
             rewrite !prop_app_miss by reflexivity; reflexivity).
  all: rewrite ?(shows_base_column classes "inviteCode"
                   [Nested "subject" subjects; Nested "teacher" user])
         by (intro o; cbn [fold_left project_item];
             rewrite !prop_app_miss by reflexivity; reflexivity).
  all: rewrite ?(shows_nested [Spread classes] [Nested "teacher" user] "subject" subjects)
         by (intro o; cbn [fold_left project_item]; apply prop_app_miss; reflexivity).
  all: rewrite ?(shows_nested [Spread classes; Nested "subject" subjects] []
                   "teacher" user)
         by (intro o; reflexivity).
  all: try assumption.
  all: cbn [fst env_get table_eqb].
  all: try (destruct x1 as [sb |]; [assumption |];
            match goal with H : text_ilike (cell _ (subjects, _)) _ = true |- _ =>
              discriminate H end).
  all: destruct x2 as [tc |]; [assumption |];
         match goal with H : text_ilike (cell _ (user, _)) _ = true |- _ =>
           discriminate H end.
Qed.

Lemma get_classes_shows_matching_classes_witness :
  let item := VObj (Sample.class 101 10 "t1" "Algo B" "def5678" 301
                    ++ [("subject", VObj (Sample.subject 10 1 "CS201" "Algorithms" 200));
                        ("teacher",
                         VObj (Sample.person "t1" "Tina" "tina@example.org" "teacher" 50))]) in
  text_ilike (Run.field "name" item) (Like.wrap "DEF")
  || text_ilike (Run.field "inviteCode" item) (Like.wrap "DEF") = true
  /\ text_ilike (Run.field "name" (Run.field "subject" item))
                (Like.wrap (Like.escape "algo")) = true
  /\ text_ilike (Run.field "name" (Run.field "teacher" item))
                (Like.wrap (Like.escape "tin")) = true.
Proof.
  intro item.
  destruct (get_classes_shows_matching_classes
              (Sample.get None [("search", "DEF"); ("subject", "algo"); ("teacher", "tin")])
              Sample.campus _ eq_refl item) as [Hsearch [Hsubject Hteacher]].
  - vm_compute. left. reflexivity.
  - split; [apply Hsearch | split; [apply Hsubject | apply Hteacher]]; reflexivity.
Defined.

End FilteredListings.

(* ------------------------------------------------------------------ *)
(** ** The departments of a user *)

Section UserDepartments.
Import Sql Http Joined Listing.

(** GET /users/:id/departments for a teacher lists only departments the
    teacher teaches in: every department in [data] is the department of a
    stored subject that is the subject of a stored class whose
    [teacherId] is the user's id. *)
Theorem teacher_is_shown_departments_taught :
  forall (req : Request) (d : Database) (id : string) (u : Row) (resp : Response),
    lookup "id" (params req) = Some id ->
    find (row_matches "id" (VStr id)) (d user) = Some u ->
    UsersRoutes.role_is_not u "teacher" = false ->
    snd (UsersRoutes.get_user_departments req (postgres d)) = inr resp ->
    forall item : Value,
      In item (Run.data resp) ->
      exists sb cl : Row,
        In sb (d subjects)
        /\ row_matches "departmentId" (Run.field "id" item) sb = true
        /\ In cl (d classes)
        /\ row_matches "subjectId" (prop "id" sb) cl = true
        /\ row_matches "teacherId" (VStr id) cl = true.
Proof.
  intros req d id u resp Hid Hu Hteacher.
  apply find_filter_head in Hu as [others Hu].
  unfold UsersRoutes.get_user_departments, try_catch, bind, exec, ret, console_error.
  rewrite Hid. cbn [postgres].
  change (select [Field "id" (user, "id"); Field "role" (user, "role")] user
          |> where_ (Some (EqParam (user, "id") (str_or_null (Some id)))))
    with (user_lookup (Some id)).
  rewrite run_user_lookup. cbn [str_or_null]. rewrite Hu. cbn [map].
  rewrite !role_of_record, Hteacher. cbn [andb negb].
  walk_db d; cbn [fst snd app].
  all: intros Hresp item Hitem; apply inr_eq in Hresp; subst resp.
  all: try (rewrite data_of_error in Hitem by discriminate; destruct Hitem).
  rewrite data_of_page in Hitem. apply in_map_iff in Hitem as [row [<- Hrow]].
  match goal with
  | H : run_select d ?q = inr ?rows, Hr : In row ?rows |- _ =>
      destruct (run_grouped_in d q rows row ltac:(discriminate) H Hr) as [g [Hg ->]];
      unfold matching in Hg;
      change (whereCond q) with (Some (EqParam (classes, "teacherId") (VStr id))) in Hg;
      change (joins q) with
        [(subjects, Eq (subjects, "departmentId") (departments, "id"));
         (classes, Eq (classes, "subjectId") (subjects, "id"))] in Hg;
      change (from q) with departments in Hg;
      change (selection q) with [Spread departments]
  end.
  apply filter_In in Hg as [Hjoined Hwhere]. cbn [fold_left] in Hjoined.
  apply join1_in in Hjoined as [e1 [x2 [Hjoined [He Hx2]]]].
  apply join1_in in Hjoined as [e0 [x1 [Hscan [He1 Hx1]]]].
  apply scan_in in Hscan as [dp [Hdp He0]].
  cbn [fst snd] in *. subst e0 e1. cbn [app] in He, Hx1.
  cbn [holds_opt] in Hwhere. rewrite He in Hwhere.
  apply holds_eq_param_cell in Hwhere as [cl [Hcl Hteaches]].
  cbn [fst snd env_get table_eqb] in Hcl. injection Hcl as ->.
  destruct (Hx2 cl eq_refl) as [Hin_cl Hon2].
  rewrite He in Hon2. apply holds_eq_cells in Hon2.
  change (cell [(departments, Some dp); (subjects, x1); (classes, Some cl)]
               (classes, "subjectId")) with (prop "subjectId" cl) in Hon2.
  destruct x1 as [sb |];
    [| apply sql_eq_not_null in Hon2; exfalso; apply Hon2; reflexivity].
  change (cell [(departments, Some dp); (subjects, Some sb); (classes, Some cl)]
               (subjects, "id")) with (prop "id" sb) in Hon2.
  destruct (Hx1 sb eq_refl) as [Hin_sb Hon1]. apply holds_eq_cells in Hon1.
  change (cell [(departments, Some dp); (subjects, Some sb)] (subjects, "departmentId"))
    with (prop "departmentId" sb) in Hon1.
  change (cell [(departments, Some dp); (subjects, Some sb)] (departments, "id"))
    with (prop "id" dp) in Hon1.
  exists sb, cl. repeat split; try assumption.
  - cbn [Run.field].
    rewrite (shows_base_column departments "id" [] g) by (intro o; reflexivity).
    rewrite He. unfold row_matches.
    change (cell [(departments, Some dp); (subjects, Some sb); (classes, Some cl)]
                 (departments, "id")) with (prop "id" dp).
    rewrite Hon1. reflexivity.
  - unfold row_matches. rewrite Hon2. reflexivity.
Qed.

(** GET /users/:id/departments for a student lists only departments the
    student studies in: every department in [data] is the department of a
    stored subject that is the subject of a stored class for which an
    enrollment of the student is stored. *)
Theorem student_is_shown_departments_enrolled :
  forall (req : Request) (d : Database) (id : string) (u : Row) (resp : Response),
    lookup "id" (params req) = Some id ->
    find (row_matches "id" (VStr id)) (d user) = Some u ->
    UsersRoutes.role_is_not u "teacher" = true ->
    UsersRoutes.role_is_not u "student" = false ->
    snd (UsersRoutes.get_user_departments req (postgres d)) = inr resp ->
    forall item : Value,
      In item (Run.data resp) ->
      exists sb cl en : Row,
        In sb (d subjects)
        /\ row_matches "departmentId" (Run.field "id" item) sb = true
        /\ In cl (d classes)
        /\ row_matches "subjectId" (prop "id" sb) cl = true
        /\ In en (d enrollments)
        /\ row_matches "classId" (prop "id" cl) en = true
        /\ row_matches "studentId" (VStr id) en = true.
Proof.
  intros req d id u resp Hid Hu Hteacher Hstudent.
  apply find_filter_head in Hu as [others Hu].
  unfold UsersRoutes.get_user_departments, try_catch, bind, exec, ret, console_error.
  rewrite Hid. cbn [postgres].
  change (select [Field "id" (user, "id"); Field "role" (user, "role")] user
          |> where_ (Some (EqParam (user, "id") (str_or_null (Some id)))))
    with (user_lookup (Some id)).
  rewrite run_user_lookup. cbn [str_or_null]. rewrite Hu. cbn [map].
  rewrite !role_of_record, Hteacher, Hstudent. cbn [andb negb].
  walk_db d; cbn [fst snd app].
  all: intros Hresp item Hitem; apply inr_eq in Hresp; subst resp.
  all: try (rewrite data_of_error in Hitem by discriminate; destruct Hitem).
  rewrite data_of_page in Hitem. apply in_map_iff in Hitem as [row [<- Hrow]].
  match goal with
  | H : run_select d ?q = inr ?rows, Hr : In row ?rows |- _ =>
      destruct (run_grouped_in d q rows row ltac:(discriminate) H Hr) as [g [Hg ->]];
      unfold matching in Hg;
      change (whereCond q) with (Some (EqParam (enrollments, "studentId") (VStr id))) in Hg;
      change (joins q) with
        [(subjects, Eq (subjects, "departmentId") (departments, "id"));
         (classes, Eq (classes, "subjectId") (subjects, "id"));
         (enrollments, Eq (enrollments, "classId") (classes, "id"))] in Hg;
      change (from q) with departments in Hg;
      change (selection q) with [Spread departments]
  end.
  apply filter_In in Hg as [Hjoined Hwhere]. cbn [fold_left] in Hjoined.
  apply join1_in in Hjoined as [e2 [x3 [Hjoined [He Hx3]]]].
  apply join1_in in Hjoined as [e1 [x2 [Hjoined [He2 Hx2]]]].
  apply join1_in in Hjoined as [e0 [x1 [Hscan [He1 Hx1]]]].
  apply scan_in in Hscan as [dp [Hdp He0]].
  cbn [fst snd] in *. subst e0 e1 e2. cbn [app] in He, Hx1, Hx2.
  cbn [holds_opt] in Hwhere. rewrite He in Hwhere.
  apply holds_eq_param_cell in Hwhere as [en [Hen Henrolled]].
  cbn [fst snd env_get table_eqb] in Hen. injection Hen as ->.
  destruct (Hx3 en eq_refl) as [Hin_en Hon3].
  rewrite He in Hon3. apply holds_eq_cells in Hon3.
  change (cell [(departments, Some dp); (subjects, x1); (classes, x2);
                (enrollments, Some en)] (enrollments, "classId"))
    with (prop "classId" en) in Hon3.
  destruct x2 as [cl |];
    [| apply sql_eq_not_null in Hon3; exfalso; apply Hon3; reflexivity].
  change (cell [(departments, Some dp); (subjects, x1); (classes, Some cl);
                (enrollments, Some en)] (classes, "id"))
    with (prop "id" cl) in Hon3.
  destruct (Hx2 cl eq_refl) as [Hin_cl Hon2]. apply holds_eq_cells in Hon2.
  change (cell [(departments, Some dp); (subjects, x1); (classes, Some cl)]
               (classes, "subjectId")) with (prop "subjectId" cl) in Hon2.
  destruct x1 as [sb |];
    [| apply sql_eq_not_null in Hon2; exfalso; apply Hon2; reflexivity].
  change (cell [(departments, Some dp); (subjects, Some sb); (classes, Some cl)]
               (subjects, "id")) with (prop "id" sb) in Hon2.
  destruct (Hx1 sb eq_refl) as [Hin_sb Hon1]. apply holds_eq_cells in Hon1.
  change (cell [(departments, Some dp); (subjects, Some sb)] (subjects, "departmentId"))
    with (prop "departmentId" sb) in Hon1.
  change (cell [(departments, Some dp); (subjects, Some sb)] (departments, "id"))
    with (prop "id" dp) in Hon1.
  exists sb, cl, en. repeat split; try assumption.
  - cbn [Run.field].
    rewrite (shows_base_column departments "id" [] g) by (intro o; reflexivity).
    rewrite He. unfold row_matches.
    change (cell [(departments, Some dp); (subjects, Some sb); (classes, Some cl);
                  (enrollments, Some en)] (departments, "id")) with (prop "id" dp).
    rewrite Hon1. reflexivity.
  - unfold row_matches. rewrite Hon2. reflexivity.
  - unfold row_matches. rewrite Hon3. reflexivity.
Qed.

Lemma teacher_is_shown_departments_taught_witness :
  exists sb cl : Row,
    In sb (Sample.campus subjects)
    /\ row_matches "departmentId"
         (Run.field "id" (VObj (Sample.department 1 "CS" "CS" 100))) sb = true
    /\ In cl (Sample.campus classes)
    /\ row_matches "subjectId" (prop "id" sb) cl = true
    /\ row_matches "teacherId" (VStr "t1") cl = true.
Proof.
  apply (teacher_is_shown_departments_taught
           (Sample.get (Some "t1") []) Sample.campus "t1"
           (Sample.person "t1" "Tina" "tina@example.org" "teacher" 50) _
           eq_refl eq_refl eq_refl eq_refl).
  vm_compute. left. reflexivity.
Defined.

Lemma student_is_shown_departments_enrolled_witness :
  exists sb cl en : Row,
    In sb (Sample.campus subjects)
    /\ row_matches "departmentId"
         (Run.field "id" (VObj (Sample.department 1 "CS" "CS" 100))) sb = true
    /\ In cl (Sample.campus classes)
    /\ row_matches "subjectId" (prop "id" sb) cl = true
    /\ In en (Sample.campus enrollments)
    /\ row_matches "classId" (prop "id" cl) en = true
    /\ row_matches "studentId" (VStr "s1") en = true.
Proof.
  apply (student_is_shown_departments_enrolled
           (Sample.get (Some "s1") []) Sample.campus "s1"
           (Sample.person "s1" "Sam" "sam@example.org" "student" 60) _
           eq_refl eq_refl eq_refl eq_refl eq_refl).
  vm_compute. left. reflexivity.
Defined.

End UserDepartments.

(* ------------------------------------------------------------------ *)
(** ** The classes of a subject *)

Section SubjectClasses.
Import Sql Http Joined Listing.

(** GET /subjects/:id/classes counts and lists the classes of the subject:
    [total] is the number of stored classes whose [subjectId] is the id of
    the path, and every entry of [data] is such a class with a [teacher]
    property added, which is null or a stored user whose key is the
    class's [teacherId]. *)
Theorem subject_classes_are_of_the_subject :
  forall (req : Request) (d : Database) (resp : Response),
    snd (SubjectsRoutes.get_subject_classes req (postgres d)) = inr resp ->
    status resp = 200 ->
    let sid := VNum (Number_ (lookup "id" (params req))) in
    Run.pagination "total" resp
    = count (List.length (filter (row_matches "subjectId" sid) (d classes)))
    /\ forall item : Value,
         In item (Run.data resp) ->
         exists (c : Row) (t : option Row),
           In c (d classes)
           /\ row_matches "subjectId" sid c = true
           /\ item = VObj (c ++ [("teacher", embed t)])
           /\ (forall u : Row,
                  t = Some u ->
                  In u (d user) /\ row_matches "id" (prop "teacherId" c) u = true).
Proof.
  intros req d resp.
  unfold SubjectsRoutes.get_subject_classes, try_catch, bind, exec, ret, console_error.
  walk_db d; cbn [fst snd app].
  all: intros Hresp Hstatus; apply inr_eq in Hresp; subst resp; try discriminate Hstatus.
  split.
  - match goal with
    | H : run_select d ?q = inr ?rc |- context [first_count ?rc] =>
        change (Run.pagination "total" _) with (first_count rc);
        rewrite (count_of_table d q rc eq_refl eq_refl eq_refl eq_refl eq_refl H)
    end.
    apply f_equal. apply f_equal. apply filter_ext. intro c.
    cbn [whereCond from select where_ holds_opt]. apply holds_eq_param.
  - intros item Hitem.
    rewrite data_of_page in Hitem. apply in_map_iff in Hitem as [row [<- Hrow]].
    match goal with
    | H : run_select d ?q = inr ?rows, Hr : In row ?rows |- _ =>
        destruct (run_plain_in d q rows row eq_refl eq_refl H Hr) as [e [He ->]];
        unfold matching in He;
        change (joins q) with [(user, Eq (classes, "teacherId") (user, "id"))] in He;
        change (from q) with classes in He;
        change (whereCond q)
          with (Some (EqParam (classes, "subjectId")
                              (VNum (Number_ (lookup "id" (params req)))))) in He;
        change (selection q) with [Spread classes; Nested "teacher" user]
    end.
    apply filter_In in He as [Hjoined Hwhere]. cbn [fold_left] in Hjoined.
    apply join1_in in Hjoined as [e0 [x1 [Hscan [He Hx1]]]].
    apply scan_in in Hscan as [c [Hc He0]].
    cbn [fst snd] in *. subst e0 e. cbn [app] in *.
    cbn [holds_opt] in Hwhere.
    apply holds_eq_param_cell in Hwhere as [c' [Hc' Hsubject]].
    cbn [fst snd env_get table_eqb] in Hc'. injection Hc' as <-.
    exists c, x1. split; [exact Hc |]. split; [exact Hsubject |]. split.
    + unfold project. cbn [fold_left project_item fst env_get table_eqb app].
      destruct x1; reflexivity.
    + intros u ->. destruct (Hx1 u eq_refl) as [Hu Hon]. split; [exact Hu |].
      apply holds_eq_cells in Hon.
      change (cell [(classes, Some c); (user, Some u)] (classes, "teacherId"))
        with (prop "teacherId" c) in Hon.
      change (cell [(classes, Some c); (user, Some u)] (user, "id"))
        with (prop "id" u) in Hon.
      unfold row_matches. rewrite sql_eq_sym, Hon. reflexivity.
Qed.

Lemma subject_classes_are_of_the_subject_witness :
  let resp :=
    json 200
      [("data",
        rows_value
          [Sample.class 101 10 "t1" "Algo B" "def5678" 301
           ++ [("teacher", VObj (Sample.person "t1" "Tina" "tina@example.org" "teacher" 50))];
           Sample.class 100 10 "t1" "Algo A" "abc1234" 300
           ++ [("teacher", VObj (Sample.person "t1" "Tina" "tina@example.org" "teacher" 50))]]);
       ("pagination", VObj [("page", int 1); ("limit", int 10); ("total", int 2);
                            ("totalPages", int 1)])] in
  let sid := VNum (Number_ (lookup "id" (params (Sample.get (Some "10") [])))) in
  Run.pagination "total" resp
  = count (List.length (filter (row_matches "subjectId" sid) (Sample.campus classes)))
  /\ forall item : Value,
       In item (Run.data resp) ->
       exists (c : Row) (t : option Row),
         In c (Sample.campus classes)
         /\ row_matches "subjectId" sid c = true
         /\ item = VObj (c ++ [("teacher", embed t)])
         /\ (forall u : Row,
                t = Some u ->
                In u (Sample.campus user) /\ row_matches "id" (prop "teacherId" c) u = true).
Proof.
  apply (subject_classes_are_of_the_subject (Sample.get (Some "10") []) Sample.campus);
    reflexivity.
Defined.

End SubjectClasses.

(* ------------------------------------------------------------------ *)
(** ** The subjects of a department *)

Section DepartmentTotals.
Import Sql Http Joined Listing.

Lemma add_to_groups_miss (cols : list Column) (e : Env) (gs : list Group) :
  (forall g, In g gs -> same_key (map (cell (fst g)) cols) (map (cell e) cols) = false) ->
  add_to_groups cols e gs = gs ++ [(e, [e])].
Proof.
  induction gs as [| [rep ms] gs IH]; intro H; cbn [add_to_groups app]; [reflexivity |].
  pose proof (H (rep, ms) (or_introl eq_refl)) as Hr. cbn [fst] in Hr. rewrite Hr.
  rewrite IH; [reflexivity |]. intros g Hg. apply H. right. exact Hg.
Qed.

Lemma add_to_groups_last (cols : list Column) (e rep : Env) (ms : list Env)
      (gs : list Group) :
  (forall g, In g gs -> same_key (map (cell (fst g)) cols) (map (cell e) cols) = false) ->
  same_key (map (cell rep) cols) (map (cell e) cols) = true ->
  add_to_groups cols e (gs ++ [(rep, ms)]) = gs ++ [(rep, ms ++ [e])].
Proof.
  intros H Hrep.
  induction gs as [| [rep' ms'] gs IH]; cbn [add_to_groups app].
  - rewrite Hrep. reflexivity.
  - pose proof (H (rep', ms') (or_introl eq_refl)) as Hr. cbn [fst] in Hr. rewrite Hr.
    rewrite IH; [reflexivity |]. intros g Hg. apply H. right. exact Hg.
Qed.

Lemma fold_block_rest (cols : list Column) (rep : Env) (gs : list Group) (es ms : list Env) :
  (forall g e, In g gs -> In e es ->
               same_key (map (cell (fst g)) cols) (map (cell e) cols) = false) ->
  (forall e, In e es -> same_key (map (cell rep) cols) (map (cell e) cols) = true) ->
  fold_left (fun gs' e => add_to_groups cols e gs') es (gs ++ [(rep, ms)])
  = gs ++ [(rep, ms ++ es)].
Proof.
  revert ms. induction es as [| e es IH]; intros ms Hmiss Hhit; cbn [fold_left].
  - rewrite app_nil_r. reflexivity.
  - rewrite add_to_groups_last.
    + rewrite IH.
      * rewrite <- app_assoc. reflexivity.
      * intros g e' Hg He'. apply Hmiss; [exact Hg | right; exact He'].
      * intros e' He'. apply Hhit. right. exact He'.
    + intros g Hg. apply Hmiss; [exact Hg | left; reflexivity].
    + apply Hhit. left. reflexivity.
Qed.

(** Rows that carry one key, different from the keys of the groups so far,
    make one more group. *)
Lemma fold_block (cols : list Column) (k : list Value) (gs : list Group) (es : list Env) :
  (forall e, In e es -> map (cell e) cols = k) ->
  (List.length es <= 1)%nat \/ same_key k k = true ->
  (forall g, In g gs -> same_key (map (cell (fst g)) cols) k = false) ->
  fold_left (fun gs' e => add_to_groups cols e gs') es gs
  = gs ++ match es with [] => [] | e :: _ => [(e, es)] end.
Proof.
  destruct es as [| e es]; intros Hk Hrefl Hmiss; cbn [fold_left].
  - rewrite app_nil_r. reflexivity.
  - rewrite add_to_groups_miss.
    + rewrite fold_block_rest; [reflexivity | |].
      * intros g e' Hg He'. rewrite (Hk e') by (right; exact He'). apply Hmiss, Hg.
      * intros e' He'. rewrite (Hk e) by (left; reflexivity).
        rewrite (Hk e') by (right; exact He').
        destruct Hrefl as [Hlen | Hr]; [| exact Hr].
        destruct es; [destruct He' | cbn in Hlen; lia].
    + intros g Hg. rewrite (Hk e) by (left; reflexivity). apply Hmiss, Hg.
Qed.

(** Grouping rows that come in blocks, one block per key, gives the
    blocks. *)
Lemma group_rows_blocks {A : Type} (cols : list Column) (F : A -> list Env)
      (k : A -> list Value) (rows : list A) (gs : list Group) :
  (forall r e, In r rows -> In e (F r) -> map (cell e) cols = k r) ->
  (forall r, In r rows -> (List.length (F r) <= 1)%nat \/ same_key (k r) (k r) = true) ->
  (forall g r, In g gs -> In r rows -> same_key (map (cell (fst g)) cols) (k r) = false) ->
  ForallOrdPairs (fun r r' => same_key (k r) (k r') = false) rows ->
  fold_left (fun gs' e => add_to_groups cols e gs') (flat_map F rows) gs
  = gs ++ flat_map (fun r => match F r with [] => [] | e :: _ => [(e, F r)] end) rows.
Proof.
  revert gs. induction rows as [| r rows IH]; intros gs Hk Hrefl Hmiss Hpairs;
    cbn [flat_map fold_left].
  - rewrite app_nil_r. reflexivity.
  - inversion Hpairs as [| ? ? Hr Hrest]; subst.
    rewrite fold_left_app.
    rewrite (fold_block cols (k r) gs (F r)).
    + rewrite IH.
      * rewrite <- app_assoc. reflexivity.
      * intros r' e Hr' He. apply Hk; [right; exact Hr' | exact He].
      * intros r' Hr'. apply Hrefl. right. exact Hr'.
      * intros g r' Hg Hr'. apply in_app_or in Hg as [Hg | Hg].
        -- apply Hmiss; [exact Hg | right; exact Hr'].
        -- destruct (F r) as [| e es] eqn:EF; [destruct Hg |].
           destruct Hg as [<- | []]. cbn [fst].
           rewrite (Hk r e (or_introl eq_refl)) by (rewrite EF; left; reflexivity).
           rewrite Forall_forall in Hr. apply Hr, Hr'.
      * exact Hrest.
    + intros e He. apply Hk; [left; reflexivity | exact He].
    + apply Hrefl. left. reflexivity.
    + intros g Hg. apply Hmiss; [exact Hg | left; reflexivity].
Qed.

Lemma flat_map_over_map {A B C : Type} (f : B -> list C) (g : A -> B) (l : list A) :
  flat_map f (map g l) = flat_map (fun x => f (g x)) l.
Proof. induction l as [| a l IH]; cbn [map flat_map]; [| rewrite IH]; reflexivity. Qed.

Lemma filter_over_flat_map {A B : Type} (p : B -> bool) (f : A -> list B) (l : list A) :
  filter p (flat_map f l) = flat_map (fun x => filter p (f x)) l.
Proof.
  induction l as [| a l IH]; cbn [flat_map]; [reflexivity |].
  rewrite filter_app, IH. reflexivity.
Qed.

Lemma filter_same {A B : Type} (p : B -> bool) (f : A -> B) (b : bool) (l : list A) :
  (forall a, p (f a) = b) -> filter p (map f l) = if b then map f l else [].
Proof.
  intro H. induction l as [| a l IH]; cbn [map filter]; [destruct b; reflexivity |].
  rewrite H, IH. destruct b; reflexivity.
Qed.

Lemma count_block (dp : Row) (l : list Row) :
  List.length
    (filter not_null
            (map (fun e : Env => cell e (subjects, "id"))
                 (map (fun r : Row => [(departments, Some dp); (subjects, Some r)]) l)))
  = List.length (filter (fun s : Row => not_null (prop "id" s)) l).
Proof. rewrite map_map, filter_map_swap, length_map. reflexivity. Qed.

Lemma unique_key_pairs (col : string) (rows : list Row) :
  unique_key col rows = true ->
  ForallOrdPairs (fun r r' => same_key [prop col r] [prop col r'] = false) rows.
Proof.
  induction rows as [| r rows IH]; cbn [unique_key]; intro H; constructor.
  - apply andb_true_iff in H as [H _]. rewrite forallb_forall in H.
    apply Forall_forall. intros r' Hr'. apply H in Hr'.
    cbn [same_key]. destruct (same_value (prop col r) (prop col r')); [discriminate | reflexivity].
  - apply IH. apply andb_true_iff in H as [_ H]. exact H.
Qed.

Lemma same_value_of_match (a b : Value) : sql_eq a b = Some true -> same_value a a = true.
Proof.
  destruct a as [| x | x | x | x | x | x | x], b as [| y | y | y | y | y | y | y];
    cbn [sql_eq same_value]; try discriminate; intro H.
  - rewrite Bool.eqb_reflx. reflexivity.
  - destruct x as [| | | qx], y as [| | | qy]; cbn [JS.eqb] in *; try discriminate;
      try reflexivity.
    rewrite (proj2 (Qeq_bool_iff qx qx) (Qeq_refl qx)). reflexivity.
  - rewrite String.eqb_refl. reflexivity.
  - rewrite Z.eqb_refl. reflexivity.
Qed.

(** Every row a select returns shows one of its groups. *)
Lemma run_select_group (d : Database) (q : Select) (rows : list Row) (row : Row) :
  run_select d q = inr rows ->
  In row rows ->
  exists g : Group, In g (groups q (matching d q)) /\ row = project (selection q) g.
Proof.
  intros Hrun Hin. unfold run_select in Hrun.
  destruct (well_formed q); [| discriminate]. apply inr_eq in Hrun. subst rows.
  apply in_map_iff in Hin as [g [<- Hg]]. exists g. split; [| reflexivity].
  apply window_in, sort_desc_in in Hg. exact Hg.
Qed.

(** The groups of the departments listing: one per department that passes
    the filter, holding the department once for each of its subjects. *)
Lemma department_groups (d : Database) (W : Env -> bool) (Wd : Row -> bool) (g : Group) :
  (forall dp x, W [(departments, Some dp); (subjects, x)] = Wd dp) ->
  unique_key "id" (d departments) = true ->
  In g (group_rows [(departments, "id")]
          (filter W (join1 d (scan d departments)
                       (subjects, Eq (departments, "id") (subjects, "departmentId"))))) ->
  exists dp : Row,
    In dp (d departments)
    /\ Wd dp = true
    /\ env_get departments (fst g) = Some (Some dp)
    /\ List.length (filter not_null (map (fun e => cell e (subjects, "id")) (snd g)))
       = List.length
           (filter (fun s => not_null (prop "id" s))
                   (filter (fun s => row_matches "id" (prop "departmentId" s) dp)
                           (d subjects))).
Proof.
  intros HW Hkey. unfold join1, scan, group_rows.
  rewrite flat_map_over_map, filter_over_flat_map. cbn [fst snd app].
  rewrite (group_rows_blocks [(departments, "id")] _ (fun dp => [prop "id" dp])).
  - cbn [app]. intro Hg. apply in_flat_map in Hg as [dp [Hdp Hg]].
    exists dp. split; [exact Hdp |].
    match goal with
    | |- context [@filter ?T ?f (d subjects)] =>
        change (filter (fun r : Row =>
                          holds (Eq (departments, "id") (subjects, "departmentId"))
                                [(departments, Some dp); (subjects, Some r)])
                       (d subjects))
          with (@filter T f (d subjects)) in Hg;
        destruct (@filter T f (d subjects)) as [| p ps] eqn:EP
    end.
    + cbn [filter] in Hg. rewrite HW in Hg.
      destruct (Wd dp); [| destruct Hg]. destruct Hg as [<- | []].
      split; [reflexivity |]. split; [reflexivity |]. reflexivity.
    + rewrite (filter_same W _ (Wd dp)) in Hg by (intro r; apply HW).
      destruct (Wd dp); [| destruct Hg].
      cbn [map] in Hg. destruct Hg as [<- | []].
      split; [reflexivity |]. split; [reflexivity |].
      exact (count_block dp (p :: ps)).
  - intros dp e _ He. apply filter_In in He as [He _].
    destruct (filter _ (d subjects)) as [| p ps].
    + destruct He as [<- | []]. reflexivity.
    + apply in_map_iff in He as [r [<- _]]. reflexivity.
  - intros dp _.
    destruct (filter _ (d subjects)) as [| p ps] eqn:EP.
    + left. cbn [filter]. destruct (W _); cbn; lia.
    + right. assert (Hp : In p (p :: ps)) by (left; reflexivity).
      rewrite <- EP in Hp. apply filter_In in Hp as [_ Hp].
      unfold holds in Hp. cbn [eval] in Hp.
      change (cell [(departments, Some dp); (subjects, Some p)] (departments, "id"))
        with (prop "id" dp) in Hp.
      cbn [same_key]. rewrite andb_true_r.
      destruct (sql_eq (prop "id" dp) _) as [[|] |] eqn:E; try discriminate Hp.
      exact (same_value_of_match _ _ E).
  - intros g0 r [].
  - apply unique_key_pairs, Hkey.
Qed.

(** GET /departments shows each department with the number of its
    subjects: when the keys of the departments are unique, every entry of
    [data] is a stored department that passes the search filter, with
    [totalSubjects] the number of stored subjects that have a key and
    whose [departmentId] is the department's key. *)
Theorem department_total_counts_its_subjects :
  forall (req : Request) (d : Database) (resp : Response),
    unique_key "id" (d departments) = true ->
    snd (DepartmentsRoutes.get_departments req (postgres d)) = inr resp ->
    forall item : Value,
      In item (Run.data resp) ->
      exists dp : Row,
        In dp (d departments)
        /\ department_filter req dp = true
        /\ item
           = VObj (dp ++ [("totalSubjects",
                           count (List.length
                                    (filter (fun s => not_null (prop "id" s))
                                            (filter (fun s => row_matches "id"
                                                                (prop "departmentId" s) dp)
                                                    (d subjects)))))]).
Proof.
  intros req d resp Hkey.
  unfold DepartmentsRoutes.get_departments, try_catch, bind, exec, ret, console_error,
    department_filter.
  destruct (truthy (lookup "search" (query req))) as [s |];
    cbn [app]; walk_db d; cbn [fst snd app].
  all: intros Hresp item Hitem; apply inr_eq in Hresp; subst resp.
  all: try (rewrite data_of_error in Hitem by discriminate; destruct Hitem).
  all: rewrite data_of_page in Hitem; apply in_map_iff in Hitem as [row [<- Hrow]].
  all: match goal with
       | H : run_select ?d0 ?q = inr ?rows, Hr : In ?row0 ?rows |- _ =>
           destruct (run_select_group d0 q rows row0 H Hr) as [g [Hg ->]];
           unfold groups, matching in Hg;
           change (groupBy q) with [(departments, "id")] in Hg;
           change (joins q) with
             [(subjects, Eq (departments, "id") (subjects, "departmentId"))] in Hg;
           change (from q) with departments in Hg;
           change (selection q)
             with [Spread departments; CountOf "totalSubjects" (subjects, "id")];
           let w := eval cbv [whereCond where_ groupBy_ orderByDesc limit_ offset_
                                leftJoin select] in (whereCond q) in
           change (whereCond q) with w in Hg;
           cbn [fold_left] in Hg
       end.
  - apply (department_groups d _
             (fun dp => text_ilike (prop "name" dp) (Like.wrap s)
                        || text_ilike (prop "code" dp) (Like.wrap s))) in Hg;
      [| intros dp x; cbn [holds_opt]; rewrite holds_and_one, holds_or_ilike; reflexivity
       | exact Hkey].
    destruct Hg as [dp [Hdp [Hpass [Hrep Hcount]]]].
    exists dp. split; [exact Hdp |]. split; [exact Hpass |].
    unfold project. cbn [fold_left project_item app]. rewrite Hrep, Hcount. reflexivity.
  - apply (department_groups d _ (fun _ => true)) in Hg;
      [| intros dp x; reflexivity | exact Hkey].
    destruct Hg as [dp [Hdp [Hpass [Hrep Hcount]]]].
    exists dp. split; [exact Hdp |]. split; [reflexivity |].
    unfold project. cbn [fold_left project_item app]. rewrite Hrep, Hcount. reflexivity.
Qed.

Lemma department_total_counts_its_subjects_witness :
  exists dp : Row,
    In dp (Sample.hubs departments)
    /\ department_filter (Sample.get None [("search", "hub")]) dp = true
    /\ VObj (Sample.department 2 "H500" "500-Hub" 101 ++ [("totalSubjects", int 1)])
       = VObj (dp ++ [("totalSubjects",
                       count (List.length
                                (filter (fun s => not_null (prop "id" s))
                                        (filter (fun s => row_matches "id"
                                                            (prop "departmentId" s) dp)
                                                (Sample.hubs subjects)))))]).
Proof.
  apply (department_total_counts_its_subjects
           (Sample.get None [("search", "hub")]) Sample.hubs _ eq_refl eq_refl).
  vm_compute. left. reflexivity.
Defined.

End DepartmentTotals.
